(** * LearningSuite MCP server: the dispatcher and the transport client

    A shallow embedding of [src/index.ts] (tool catalog, [handleToolCall],
    the two protocol handlers) and of [src/api-client.ts]
    ([LearningSuiteClient.request] and the client methods), with the
    properties of the specification stated over it.

    Conventions of the embedding.
    - A JavaScript string is a [string] (a sequence of bytes, read as UTF-8).
    - A JavaScript number is held by its text, the one [Number::toString]
      gives for it (["5"], ["1.5"], ["1e+21"], ["NaN"]): the program never
      computes with a number, it prints it and tests it for truth.  A text
      that no number prints as stands for no value.
    - An object is the list of its own enumerable entries, in the order
      [Object.entries] and [JSON.stringify] visit them.
    - An [async] function is a computation in the monad [M]: it reads and
      changes the store (the network and the log of the requests sent) and
      either returns a value or throws.
    - The platform is a parameter: [fetch], which answers a request with a
      response or rejects, and [JSON.parse], which returns a value or
      throws.  [response.text()] is taken to succeed.  The built-ins that
      are pure ([String], [JSON.stringify], [URLSearchParams]) are defined
      in the module [Js], following ECMAScript and the URL standard.
      [String] is partial: it throws for an object that cannot be
      converted to a primitive.
    - A thrown value is an [Error] with its message or another JavaScript
      value.  The messages of the [TypeError]s of the engine are those of
      V8; no property below depends on their wording. *)

From Stdlib Require Import String Ascii List ZArith NArith Bool Lia.
From Stdlib Require Import DecimalString.
Import ListNotations.
Local Open Scope list_scope.
Local Open Scope string_scope.

Set Implicit Arguments.

(* ================================================================== *)
(** * JavaScript values *)
(* ================================================================== *)

#[warnings="-register-all"]
Inductive JsValue : Type :=
| JUndefined
| JNull
| JBool (b : bool)
| JNum (text : string)
| JStr (s : string)
| JArr (elements : list JsValue)
| JObj (entries : list (string * JsValue)).

(** [Record<string, unknown>]: own entries in enumeration order. *)
Definition Obj : Type := list (string * JsValue).

Module Js.

  (** [v !== undefined] *)
Definition is_defined (v : JsValue) : bool :=
    match v with
    | JUndefined => false
    | _ => true
    end.

  (** ToBoolean, the test of [if (v)] and of [v && ...]. *)
Definition truthy (v : JsValue) : bool :=
    match v with
    | JUndefined | JNull => false
    | JBool b => b
    | JNum text => negb (String.eqb text "0") && negb (String.eqb text "NaN")
    | JStr s => negb (String.eqb s EmptyString)
    | JArr _ | JObj _ => true
    end.

  (** The text of the integer [n] in decimal.  It is what Number::toString
      gives for a number that is an integer of magnitude below 10^21; it is
      applied to such integers only (HTTP status codes, safe integers). *)
Definition integer_text (n : Z) : string :=
    NilEmpty.string_of_int (Z.to_int n).

Fixpoint join (sep : string) (parts : list string) : string :=
    match parts with
    | [] => EmptyString
    | [p] => p
    | p :: rest => p ++ sep ++ join sep rest
    end.

  (** The own property [key] exists. *)
Definition has_own (o : list (string * JsValue)) (key : string) : bool :=
    existsb (fun kv => String.eqb (fst kv) key) o.

  (** [String(v)], which is also what a template literal applies to a
      substituted value; [None] when it throws the [TypeError] "Cannot
      convert object to primitive value".  An object made of data has no
      callable [toString] of its own, so an own [toString] key hides
      [Object.prototype.toString] and the conversion fails; without that key
      the text is ["[object Object]"].  An array is joined with commas,
      [null] and [undefined] elements giving the empty string, and fails
      when an element does. *)
Fixpoint ToString (v : JsValue) : option string :=
    match v with
    | JUndefined => Some "undefined"
    | JNull => Some "null"
    | JBool true => Some "true"
    | JBool false => Some "false"
    | JNum text => Some text
    | JStr s => Some s
    | JArr l =>
        option_map (join ",")
          ((fix elements (l : list JsValue) : option (list string) :=
              match l with
              | [] => Some []
              | e :: rest =>
                  match
                    match e with
                    | JUndefined | JNull => Some EmptyString
                    | _ => ToString e
                    end,
                    elements rest
                  with
                  | Some s, Some texts => Some (s :: texts)
                  | _, _ => None
                  end
              end) l)
    | JObj o => if has_own o "toString" then None else Some "[object Object]"
    end.

  (** [String(v)] does not throw. *)
Definition convertible (v : JsValue) : bool :=
    match ToString v with
    | Some _ => true
    | None => false
    end.

  (** The text [String(v)] gives, where it gives one. *)
Definition text_of (v : JsValue) : string :=
    match ToString v with
    | Some text => text
    | None => EmptyString
    end.

  (** [o[key]] on an object: the value of the own property, [undefined]
      when there is none. *)
Fixpoint get (o : Obj) (key : string) : JsValue :=
    match o with
    | [] => JUndefined
    | (k, v) :: rest => if String.eqb k key then v else get rest key
    end.

  (** The own enumerable entries, [Object.entries(o)]. *)
Definition Object_entries (o : Obj) : list (string * JsValue) := o.

  (** The rest object of [const { key, ...rest } = o]. *)
Definition rest_without (key : string) (o : Obj) : Obj :=
    filter (fun kv => negb (String.eqb (fst kv) key)) o.

  (** ** JSON.stringify *)

Definition hex_digit (upper : bool) (d : N) : ascii :=
    if (d <? 10)%N then ascii_of_N (48 + d)
    else ascii_of_N ((if upper then 55 else 87) + d).

Definition DQUOTE : ascii := "034"%char.
Definition BACKSLASH : ascii := "092"%char.
Definition LF : ascii := "010"%char.

Definition str1 (c : ascii) : string := String c EmptyString.

  (** QuoteJSONString on one code unit. *)
Definition json_escape (c : ascii) : string :=
    let n := N_of_ascii c in
    if (n =? 8)%N then String BACKSLASH "b"
    else if (n =? 9)%N then String BACKSLASH "t"
    else if (n =? 10)%N then String BACKSLASH "n"
    else if (n =? 12)%N then String BACKSLASH "f"
    else if (n =? 13)%N then String BACKSLASH "r"
    else if (n =? 34)%N then String BACKSLASH (str1 DQUOTE)
    else if (n =? 92)%N then String BACKSLASH (str1 BACKSLASH)
    else if (n <? 32)%N then
      String BACKSLASH
        ("u00" ++ String (hex_digit false (n / 16)) (str1 (hex_digit false (n mod 16))))
    else str1 c.

Fixpoint json_escape_all (s : string) : string :=
    match s with
    | EmptyString => EmptyString
    | String c rest => json_escape c ++ json_escape_all rest
    end.

Definition QuoteJSONString (s : string) : string :=
    String DQUOTE (json_escape_all s ++ str1 DQUOTE).

Definition is_empty (s : string) : bool :=
    match s with
    | EmptyString => true
    | _ => false
    end.

  (** The bracketing step shared by SerializeJSONObject and
      SerializeJSONArray: [partial] holds the serialized members, [stepback]
      is the indentation outside and [indent] the one inside. *)
Definition json_wrap (opening closing gap stepback indent : string)
             (partial : list string) : string :=
    match partial with
    | [] => opening ++ closing
    | _ =>
        if is_empty gap then opening ++ join "," partial ++ closing
        else
          opening ++ str1 LF ++ indent
                  ++ join ("," ++ str1 LF ++ indent) partial
                  ++ str1 LF ++ stepback ++ closing
    end.

  (** SerializeJSONProperty: [None] is [undefined] (the property is left
      out of an object and written [null] in an array). *)
Fixpoint SerializeJSONProperty (gap indent : string) (v : JsValue)
    : option string :=
    match v with
    | JUndefined => None
    | JNull => Some "null"
    | JBool true => Some "true"
    | JBool false => Some "false"
    | JNum text =>
        if existsb (String.eqb text) ["NaN"; "Infinity"; "-Infinity"]
        then Some "null"
        else Some text
    | JStr s => Some (QuoteJSONString s)
    | JArr l =>
        let inner := indent ++ gap in
        let partial :=
          map (fun e => match SerializeJSONProperty gap inner e with
                        | Some s => s
                        | None => "null"
                        end) l in
        Some (json_wrap "[" "]" gap indent inner partial)
    | JObj o =>
        let inner := indent ++ gap in
        let partial :=
          (fix members (o : list (string * JsValue)) : list string :=
             match o with
             | [] => []
             | (k, e) :: rest =>
                 match SerializeJSONProperty gap inner e with
                 | Some s =>
                     (QuoteJSONString k ++ ":"
                        ++ (if is_empty gap then EmptyString else " ") ++ s)
                       :: members rest
                 | None => members rest
                 end
             end) o in
        Some (json_wrap "{" "}" gap indent inner partial)
    end.

  (** [JSON.stringify(v)] *)
Definition JSON_stringify (v : JsValue) : option string :=
    SerializeJSONProperty EmptyString EmptyString v.

  (** [JSON.stringify(v, null, 2)] *)
Definition JSON_stringify_2 (v : JsValue) : option string :=
    SerializeJSONProperty "  " EmptyString v.

  (** ** URLSearchParams *)

  (** The bytes the application/x-www-form-urlencoded serializer leaves as
      they are: ASCII letters and digits and [* - . _]. *)
Definition urlencoded_safe (c : ascii) : bool :=
    let n := N_of_ascii c in
    ((48 <=? n) && (n <=? 57) || (65 <=? n) && (n <=? 90)
     || (97 <=? n) && (n <=? 122)
     || (n =? 42) || (n =? 45) || (n =? 46) || (n =? 95))%N.

Definition urlencode_byte (c : ascii) : string :=
    let n := N_of_ascii c in
    if urlencoded_safe c then str1 c
    else if (n =? 32)%N then "+"
    else String "%" (String (hex_digit true (n / 16))
                            (str1 (hex_digit true (n mod 16)))).

Fixpoint urlencode (s : string) : string :=
    match s with
    | EmptyString => EmptyString
    | String c rest => urlencode_byte c ++ urlencode rest
    end.

  (** A [URLSearchParams] object is its list of name-value pairs. *)
Definition URLSearchParams : Type := list (string * string).

Definition URLSearchParams_new : URLSearchParams := [].

Definition URLSearchParams_append (params : URLSearchParams)
             (name value : string) : URLSearchParams :=
    (params ++ [(name, value)])%list.

Definition URLSearchParams_toString (params : URLSearchParams) : string :=
    join "&" (map (fun nv => urlencode (fst nv) ++ "=" ++ urlencode (snd nv)) params).

End Js.

(* ================================================================== *)
(** * Protocol and transport data *)
(* ================================================================== *)

(** A tool descriptor of the catalog ([Tool] of the protocol SDK). *)
Module Tool.
Record t : Type := { name : string; description : string; inputSchema : JsValue }.
End Tool.

(** What [fetch(url, options)] receives. *)
Module Request.
Record t : Type :=
    { url : string;
      method : string;
      headers : list (string * string);
      body : option string }.
End Request.

(** What [fetch] resolves to, as the client reads it: [response.ok],
    [response.status] (a number, held by its text) and the text that
    [response.text()] gives. *)
Module Response.
Record t : Type := { ok : bool; status : string; text : string }.
End Response.

(** The result envelope of a tool call.  [text] is what [JSON.stringify]
    or the template literal produced ([None]: [undefined]); [isError] is
    [None] when the object literal has no such field. *)
Module TextContent.
Record t : Type := { type : string; text : option string }.
End TextContent.

Module CallToolResult.
Record t : Type := { content : list TextContent.t; isError : option bool }.
End CallToolResult.

Module ListToolsResult.
Record t : Type := { tools : list Tool.t }.
End ListToolsResult.

(** A thrown value: an [Error] object (of any subclass) with its message,
    or any other value. *)
Inductive Thrown : Type :=
| ErrorObject (message : string)
| NonError (value : JsValue).

Inductive Completion (A : Type) : Type :=
| Returned (a : A)
| Threw (e : Thrown).
Arguments Threw {A} e.

(* ================================================================== *)
(** * The monad of asynchronous computations *)
(* ================================================================== *)

(** The store: the state of the remote service and of the network, and the
    requests handed to [fetch] so far, oldest first. *)
Record Store (World : Type) : Type :=
  { world : World; sent : list Request.t }.

Definition M (World A : Type) : Type :=
  Store World -> Completion A * Store World.

Definition ret {World A : Type} (a : A) : M World A :=
  fun st => (Returned a, st).

Definition throw {World A : Type} (e : Thrown) : M World A :=
  fun st => (Threw e, st).

Definition bind {World A B : Type} (m : M World A) (k : A -> M World B)
  : M World B :=
  fun st =>
    match m st with
    | (Returned a, st') => k a st'
    | (Threw e, st') => (Threw e, st')
    end.

(** [try { m } catch (error) { handler }] *)
Definition try_catch {World A : Type} (m : M World A)
           (handler : Thrown -> M World A) : M World A :=
  fun st =>
    match m st with
    | (Returned a, st') => (Returned a, st')
    | (Threw e, st') => handler e st'
    end.

(** A synchronous step that returns or throws. *)
Definition lift {World A : Type} (c : Completion A) : M World A :=
  fun st => (c, st).

(** [for (const x of items) { ... }] with the variables the body updates. *)
Fixpoint for_of {World A S : Type} (items : list A)
         (body : S -> A -> M World S) (s : S) : M World S :=
  match items with
  | [] => ret s
  | x :: rest => bind (body s x) (for_of rest body)
  end.

(** The [TypeError] of a conversion to a primitive that fails. *)
Definition TypeError_primitive : Thrown :=
  ErrorObject "Cannot convert object to primitive value".

(** [String(v)] and [`${v}`] as a step of a computation. *)
Definition String_ {World : Type} (v : JsValue) : M World string :=
  match Js.ToString v with
  | Some text => ret text
  | None => throw TypeError_primitive
  end.

Declare Scope async_scope.
Delimit Scope async_scope with async.
Notation "x <- c1 ;; c2" := (bind c1 (fun x => c2))
  (at level 61, c1 at next level, right associativity) : async_scope.
Local Open Scope async_scope.

(** [args.key]: reading a property of [undefined] throws a [TypeError]. *)
Definition prop {World : Type} (args : option Obj) (key : string)
  : M World JsValue :=
  match args with
  | Some o => ret (Js.get o key)
  | None =>
      throw (ErrorObject
               ("Cannot read properties of undefined (reading '" ++ key ++ "')"))
  end.

(** [const { key, ...data } = args] *)
Definition destructure_rest {World : Type} (args : option Obj) (key : string)
  : M World (JsValue * JsValue) :=
  match args with
  | Some o => ret (Js.get o key, JObj (Js.rest_without key o))
  | None =>
      throw (ErrorObject
               ("Cannot destructure property '" ++ key
                  ++ "' of 'args' as it is undefined."))
  end.

(** [args as any], handed on as a value. *)
Definition as_any (args : option Obj) : JsValue :=
  match args with
  | Some o => JObj o
  | None => JUndefined
  end.

(* ================================================================== *)
(** * index.ts: the tool catalog *)
(* ================================================================== *)

(** [const tools: Tool[]], in declaration order.  An input schema is the
    JSON value of the object literal. *)
Definition tools : list Tool.t :=
  [
    {| Tool.name := "learningsuite_check_auth";
       Tool.description :=
         "Check if the API key is valid and get authorization info";
       Tool.inputSchema :=
         JObj
           [ ("type", JStr "object");
             ("properties", JObj []);
             ("required", JArr []) ] |};
    {| Tool.name := "learningsuite_list_members";
       Tool.description :=
         "Get all members with optional filtering and pagination";
       Tool.inputSchema :=
         JObj
           [ ("type", JStr "object");
             ("properties", JObj
               [ ("includeGroups", JObj
                   [ ("type", JStr "boolean");
                     ("description", JStr "Include groups the member is part of") ]);
                 ("days_not_logged_in_gte", JObj
                   [ ("type", JStr "number");
                     ("description", JStr "Minimum days since last login") ]);
                 ("include_never_logged_in", JObj
                   [ ("type", JStr "boolean");
                     ("description", JStr "Include users who never logged in") ]);
                 ("limit", JObj
                   [ ("type", JStr "number");
                     ("description", JStr "Maximum number of members to return (default: 1000)") ]);
                 ("offset", JObj
                   [ ("type", JStr "number");
                     ("description", JStr "Number of members to skip for pagination") ]) ]);
             ("required", JArr []) ] |};
    {| Tool.name := "learningsuite_create_member";
       Tool.description :=
         "Create a new member in LearningSuite";
       Tool.inputSchema :=
         JObj
           [ ("type", JStr "object");
             ("properties", JObj
               [ ("email", JObj
                   [ ("type", JStr "string");
                     ("description", JStr "Member email address") ]);
                 ("firstName", JObj
                   [ ("type", JStr "string");
                     ("description", JStr "First name") ]);
                 ("lastName", JObj
                   [ ("type", JStr "string");
                     ("description", JStr "Last name") ]);
                 ("phone", JObj
                   [ ("type", JStr "string");
                     ("description", JStr "Phone number") ]);
                 ("about", JObj
                   [ ("type", JStr "string");
                     ("description", JStr "About text") ]);
                 ("position", JObj
                   [ ("type", JStr "string");
                     ("description", JStr "Position/title") ]);
                 ("city", JObj
                   [ ("type", JStr "string");
                     ("description", JStr "City") ]);
                 ("password", JObj
                   [ ("type", JStr "string");
                     ("description", JStr "Initial password") ]);
                 ("disableLoginEmail", JObj
                   [ ("type", JStr "boolean");
                     ("description", JStr "Do not send welcome email") ]);
                 ("doNotRequirePasswordChange", JObj
                   [ ("type", JStr "boolean");
                     ("description", JStr "Do not require password change on first login") ]);
                 ("locale", JObj
                   [ ("type", JStr "string");
                     ("enum", JArr [JStr "de"; JStr "en"]);
                     ("description", JStr "Language setting") ]);
                 ("ignoreIfAlreadyExists", JObj
                   [ ("type", JStr "boolean");
                     ("description", JStr "Return existing member if email exists") ]) ]);
             ("required", JArr [JStr "email"; JStr "firstName"; JStr "lastName"]) ] |};
    {| Tool.name := "learningsuite_get_member";
       Tool.description :=
         "Get a member by ID";
       Tool.inputSchema :=
         JObj
           [ ("type", JStr "object");
             ("properties", JObj
               [ ("memberId", JObj
                   [ ("type", JStr "string");
                     ("description", JStr "Member ID") ]);
                 ("includeGroups", JObj
                   [ ("type", JStr "boolean");
                     ("description", JStr "Include groups the member is part of") ]) ]);
             ("required", JArr [JStr "memberId"]) ] |};
    {| Tool.name := "learningsuite_get_member_by_email";
       Tool.description :=
         "Get a member by email address";
       Tool.inputSchema :=
         JObj
           [ ("type", JStr "object");
             ("properties", JObj
               [ ("email", JObj
                   [ ("type", JStr "string");
                     ("description", JStr "Member email address") ]);
                 ("includeGroups", JObj
                   [ ("type", JStr "boolean");
                     ("description", JStr "Include groups the member is part of") ]) ]);
             ("required", JArr [JStr "email"]) ] |};
    {| Tool.name := "learningsuite_update_member";
       Tool.description :=
         "Update a member's information";
       Tool.inputSchema :=
         JObj
           [ ("type", JStr "object");
             ("properties", JObj
               [ ("memberId", JObj
                   [ ("type", JStr "string");
                     ("description", JStr "Member ID") ]);
                 ("enabled", JObj
                   [ ("type", JStr "boolean");
                     ("description", JStr "Enable/disable member") ]);
                 ("firstName", JObj
                   [ ("type", JStr "string");
                     ("description", JStr "First name") ]);
                 ("lastName", JObj
                   [ ("type", JStr "string");
                     ("description", JStr "Last name") ]);
                 ("phone", JObj
                   [ ("type", JStr "string");
                     ("description", JStr "Phone number") ]);
                 ("about", JObj
                   [ ("type", JStr "string");
                     ("description", JStr "About text") ]);
                 ("position", JObj
                   [ ("type", JStr "string");
                     ("description", JStr "Position/title") ]);
                 ("city", JObj
                   [ ("type", JStr "string");
                     ("description", JStr "City") ]);
                 ("email", JObj
                   [ ("type", JStr "string");
                     ("description", JStr "New email address") ]);
                 ("locale", JObj
                   [ ("type", JStr "string");
                     ("enum", JArr [JStr "de"; JStr "en"]);
                     ("description", JStr "Language setting") ]) ]);
             ("required", JArr [JStr "memberId"]) ] |};
    {| Tool.name := "learningsuite_delete_member";
       Tool.description :=
         "Delete a member";
       Tool.inputSchema :=
         JObj
           [ ("type", JStr "object");
             ("properties", JObj
               [ ("memberId", JObj
                   [ ("type", JStr "string");
                     ("description", JStr "Member ID") ]) ]);
             ("required", JArr [JStr "memberId"]) ] |};
    {| Tool.name := "learningsuite_get_member_courses";
       Tool.description :=
         "Get all courses for a member with access and progress info";
       Tool.inputSchema :=
         JObj
           [ ("type", JStr "object");
             ("properties", JObj
               [ ("memberId", JObj
                   [ ("type", JStr "string");
                     ("description", JStr "Member ID") ]);
                 ("dateForAccessCheck", JObj
                   [ ("type", JStr "string");
                     ("description", JStr "Date for access check (ISO format)") ]);
                 ("limit", JObj
                   [ ("type", JStr "number");
                     ("description", JStr "Maximum courses to return") ]);
                 ("offset", JObj
                   [ ("type", JStr "number");
                     ("description", JStr "Offset for pagination") ]) ]);
             ("required", JArr [JStr "memberId"]) ] |};
    {| Tool.name := "learningsuite_add_member_to_courses";
       Tool.description :=
         "Add a member to one or more courses";
       Tool.inputSchema :=
         JObj
           [ ("type", JStr "object");
             ("properties", JObj
               [ ("memberId", JObj
                   [ ("type", JStr "string");
                     ("description", JStr "Member ID") ]);
                 ("courseIds", JObj
                   [ ("type", JStr "array");
                     ("items", JObj [("type", JStr "string")]);
                     ("description", JStr "Array of course IDs") ]);
                 ("accessGivenAt", JObj
                   [ ("type", JStr "string");
                     ("description", JStr "When access was given (ISO format)") ]);
                 ("disableAccessNotificationEmail", JObj
                   [ ("type", JStr "boolean");
                     ("description", JStr "Do not send access notification email") ]);
                 ("sendLoginLinkInCourseEmail", JObj
                   [ ("type", JStr "boolean");
                     ("description", JStr "Include login link in course email") ]) ]);
             ("required", JArr [JStr "memberId"; JStr "courseIds"]) ] |};
    {| Tool.name := "learningsuite_remove_member_from_courses";
       Tool.description :=
         "Remove a member from one or more courses";
       Tool.inputSchema :=
         JObj
           [ ("type", JStr "object");
             ("properties", JObj
               [ ("memberId", JObj
                   [ ("type", JStr "string");
                     ("description", JStr "Member ID") ]);
                 ("courseIds", JObj
                   [ ("type", JStr "array");
                     ("items", JObj [("type", JStr "string")]);
                     ("description", JStr "Array of course IDs") ]) ]);
             ("required", JArr [JStr "memberId"; JStr "courseIds"]) ] |};
    {| Tool.name := "learningsuite_get_member_course_info";
       Tool.description :=
         "Get access and progress info for a member in a specific course";
       Tool.inputSchema :=
         JObj
           [ ("type", JStr "object");
             ("properties", JObj
               [ ("memberId", JObj
                   [ ("type", JStr "string");
                     ("description", JStr "Member ID") ]);
                 ("courseId", JObj
                   [ ("type", JStr "string");
                     ("description", JStr "Course ID") ]);
                 ("dateForAccessCheck", JObj
                   [ ("type", JStr "string");
                     ("description", JStr "Date for access check (ISO format)") ]) ]);
             ("required", JArr [JStr "memberId"; JStr "courseId"]) ] |};
    {| Tool.name := "learningsuite_get_member_bundles";
       Tool.description :=
         "Get all bundles of a member with access information";
       Tool.inputSchema :=
         JObj
           [ ("type", JStr "object");
             ("properties", JObj
               [ ("memberId", JObj
                   [ ("type", JStr "string");
                     ("description", JStr "Member ID") ]) ]);
             ("required", JArr [JStr "memberId"]) ] |};
    {| Tool.name := "learningsuite_add_member_to_bundles";
       Tool.description :=
         "Add a member to one or more bundles";
       Tool.inputSchema :=
         JObj
           [ ("type", JStr "object");
             ("properties", JObj
               [ ("memberId", JObj
                   [ ("type", JStr "string");
                     ("description", JStr "Member ID") ]);
                 ("bundles", JObj
                   [ ("type", JStr "array");
                     ("items", JObj [("type", JStr "string")]);
                     ("description", JStr "Array of bundle IDs") ]);
                 ("accessGivenAtOverride", JObj
                   [ ("type", JStr "string");
                     ("description", JStr "Override access start date (ISO format)") ]);
                 ("accessUntilOverride", JObj
                   [ ("type", JStr "string");
                     ("description", JStr "Override access end date (ISO format)") ]);
                 ("unlimitedAccess", JObj
                   [ ("type", JStr "boolean");
                     ("description", JStr "Grant unlimited access") ]);
                 ("disableAccessNotificationEmail", JObj
                   [ ("type", JStr "boolean");
                     ("description", JStr "Do not send access notification email") ]) ]);
             ("required", JArr [JStr "memberId"; JStr "bundles"]) ] |};
    {| Tool.name := "learningsuite_remove_member_from_bundles";
       Tool.description :=
         "Remove a member from one or more bundles";
       Tool.inputSchema :=
         JObj
           [ ("type", JStr "object");
             ("properties", JObj
               [ ("memberId", JObj
                   [ ("type", JStr "string");
                     ("description", JStr "Member ID") ]);
                 ("bundleIds", JObj
                   [ ("type", JStr "array");
                     ("items", JObj [("type", JStr "string")]);
                     ("description", JStr "Array of bundle IDs") ]) ]);
             ("required", JArr [JStr "memberId"; JStr "bundleIds"]) ] |};
    {| Tool.name := "learningsuite_list_team_members";
       Tool.description :=
         "Get team members (users with admin zone access)";
       Tool.inputSchema :=
         JObj
           [ ("type", JStr "object");
             ("properties", JObj
               [ ("limit", JObj
                   [ ("type", JStr "number");
                     ("description", JStr "Maximum to return (max 100)") ]);
                 ("offset", JObj
                   [ ("type", JStr "number");
                     ("description", JStr "Offset for pagination") ]) ]);
             ("required", JArr []) ] |};
    {| Tool.name := "learningsuite_get_team_member";
       Tool.description :=
         "Get a team member by ID";
       Tool.inputSchema :=
         JObj
           [ ("type", JStr "object");
             ("properties", JObj
               [ ("userId", JObj
                   [ ("type", JStr "string");
                     ("description", JStr "User ID") ]) ]);
             ("required", JArr [JStr "userId"]) ] |};
    {| Tool.name := "learningsuite_get_team_member_by_email";
       Tool.description :=
         "Get a team member by email";
       Tool.inputSchema :=
         JObj
           [ ("type", JStr "object");
             ("properties", JObj
               [ ("email", JObj
                   [ ("type", JStr "string");
                     ("description", JStr "Email address") ]) ]);
             ("required", JArr [JStr "email"]) ] |};
    {| Tool.name := "learningsuite_list_groups";
       Tool.description :=
         "Get all groups";
       Tool.inputSchema :=
         JObj
           [ ("type", JStr "object");
             ("properties", JObj
               [ ("limit", JObj
                   [ ("type", JStr "number");
                     ("description", JStr "Maximum to return") ]);
                 ("offset", JObj
                   [ ("type", JStr "number");
                     ("description", JStr "Offset for pagination") ]) ]);
             ("required", JArr []) ] |};
    {| Tool.name := "learningsuite_create_group";
       Tool.description :=
         "Create a new group";
       Tool.inputSchema :=
         JObj
           [ ("type", JStr "object");
             ("properties", JObj
               [ ("name", JObj
                   [ ("type", JStr "string");
                     ("description", JStr "Group name") ]);
                 ("description", JObj
                   [ ("type", JStr "string");
                     ("description", JStr "Group description") ]) ]);
             ("required", JArr [JStr "name"]) ] |};
    {| Tool.name := "learningsuite_find_groups_by_name";
       Tool.description :=
         "Find groups by name";
       Tool.inputSchema :=
         JObj
           [ ("type", JStr "object");
             ("properties", JObj
               [ ("name", JObj
                   [ ("type", JStr "string");
                     ("description", JStr "Group name to search for") ]) ]);
             ("required", JArr [JStr "name"]) ] |};
    {| Tool.name := "learningsuite_delete_group";
       Tool.description :=
         "Delete a group";
       Tool.inputSchema :=
         JObj
           [ ("type", JStr "object");
             ("properties", JObj
               [ ("groupId", JObj
                   [ ("type", JStr "string");
                     ("description", JStr "Group ID") ]) ]);
             ("required", JArr [JStr "groupId"]) ] |};
    {| Tool.name := "learningsuite_get_group_courses";
       Tool.description :=
         "Get all courses of a group";
       Tool.inputSchema :=
         JObj
           [ ("type", JStr "object");
             ("properties", JObj
               [ ("groupId", JObj
                   [ ("type", JStr "string");
                     ("description", JStr "Group ID") ]) ]);
             ("required", JArr [JStr "groupId"]) ] |};
    {| Tool.name := "learningsuite_add_courses_to_group";
       Tool.description :=
         "Add courses to a group";
       Tool.inputSchema :=
         JObj
           [ ("type", JStr "object");
             ("properties", JObj
               [ ("groupId", JObj
                   [ ("type", JStr "string");
                     ("description", JStr "Group ID") ]);
                 ("courseIds", JObj
                   [ ("type", JStr "array");
                     ("items", JObj [("type", JStr "string")]);
                     ("description", JStr "Array of course IDs") ]) ]);
             ("required", JArr [JStr "groupId"; JStr "courseIds"]) ] |};
    {| Tool.name := "learningsuite_remove_courses_from_group";
       Tool.description :=
         "Remove courses from a group";
       Tool.inputSchema :=
         JObj
           [ ("type", JStr "object");
             ("properties", JObj
               [ ("groupId", JObj
                   [ ("type", JStr "string");
                     ("description", JStr "Group ID") ]);
                 ("courseIds", JObj
                   [ ("type", JStr "array");
                     ("items", JObj [("type", JStr "string")]);
                     ("description", JStr "Array of course IDs") ]) ]);
             ("required", JArr [JStr "groupId"; JStr "courseIds"]) ] |};
    {| Tool.name := "learningsuite_add_bundles_to_group";
       Tool.description :=
         "Add bundles to a group";
       Tool.inputSchema :=
         JObj
           [ ("type", JStr "object");
             ("properties", JObj
               [ ("groupId", JObj
                   [ ("type", JStr "string");
                     ("description", JStr "Group ID") ]);
                 ("bundleIds", JObj
                   [ ("type", JStr "array");
                     ("items", JObj [("type", JStr "string")]);
                     ("description", JStr "Array of bundle IDs") ]) ]);
             ("required", JArr [JStr "groupId"; JStr "bundleIds"]) ] |};
    {| Tool.name := "learningsuite_add_members_to_groups";
       Tool.description :=
         "Add multiple members to multiple groups (batch operation)";
       Tool.inputSchema :=
         JObj
           [ ("type", JStr "object");
             ("properties", JObj
               [ ("memberIds", JObj
                   [ ("type", JStr "array");
                     ("items", JObj [("type", JStr "string")]);
                     ("description", JStr "Array of member IDs") ]);
                 ("groupIds", JObj
                   [ ("type", JStr "array");
                     ("items", JObj [("type", JStr "string")]);
                     ("description", JStr "Array of group IDs") ]) ]);
             ("required", JArr [JStr "memberIds"; JStr "groupIds"]) ] |};
    {| Tool.name := "learningsuite_remove_members_from_groups";
       Tool.description :=
         "Remove multiple members from multiple groups (batch operation)";
       Tool.inputSchema :=
         JObj
           [ ("type", JStr "object");
             ("properties", JObj
               [ ("memberIds", JObj
                   [ ("type", JStr "array");
                     ("items", JObj [("type", JStr "string")]);
                     ("description", JStr "Array of member IDs") ]);
                 ("groupIds", JObj
                   [ ("type", JStr "array");
                     ("items", JObj [("type", JStr "string")]);
                     ("description", JStr "Array of group IDs") ]) ]);
             ("required", JArr [JStr "memberIds"; JStr "groupIds"]) ] |};
    {| Tool.name := "learningsuite_list_published_courses";
       Tool.description :=
         "Get all published courses";
       Tool.inputSchema :=
         JObj
           [ ("type", JStr "object");
             ("properties", JObj []);
             ("required", JArr []) ] |};
    {| Tool.name := "learningsuite_get_course_modules";
       Tool.description :=
         "Get all modules of a course";
       Tool.inputSchema :=
         JObj
           [ ("type", JStr "object");
             ("properties", JObj
               [ ("courseId", JObj
                   [ ("type", JStr "string");
                     ("description", JStr "Course ID") ]) ]);
             ("required", JArr [JStr "courseId"]) ] |};
    {| Tool.name := "learningsuite_get_course_modules_for_member";
       Tool.description :=
         "Get all modules of a course with visibility info for a member";
       Tool.inputSchema :=
         JObj
           [ ("type", JStr "object");
             ("properties", JObj
               [ ("courseId", JObj
                   [ ("type", JStr "string");
                     ("description", JStr "Course ID") ]);
                 ("memberId", JObj
                   [ ("type", JStr "string");
                     ("description", JStr "Member ID") ]) ]);
             ("required", JArr [JStr "courseId"; JStr "memberId"]) ] |};
    {| Tool.name := "learningsuite_get_course_members";
       Tool.description :=
         "Get members for a course with access and optional progress info";
       Tool.inputSchema :=
         JObj
           [ ("type", JStr "object");
             ("properties", JObj
               [ ("courseId", JObj
                   [ ("type", JStr "string");
                     ("description", JStr "Course ID") ]);
                 ("limit", JObj
                   [ ("type", JStr "number");
                     ("description", JStr "Maximum to return (max 100)") ]);
                 ("offset", JObj
                   [ ("type", JStr "number");
                     ("description", JStr "Offset for pagination") ]);
                 ("includeProgress", JObj
                   [ ("type", JStr "boolean");
                     ("description", JStr "Include progress info") ]) ]);
             ("required", JArr [JStr "courseId"]) ] |};
    {| Tool.name := "learningsuite_get_course_access_requests";
       Tool.description :=
         "Get access requests for a course";
       Tool.inputSchema :=
         JObj
           [ ("type", JStr "object");
             ("properties", JObj
               [ ("courseId", JObj
                   [ ("type", JStr "string");
                     ("description", JStr "Course ID") ]);
                 ("limit", JObj
                   [ ("type", JStr "number");
                     ("description", JStr "Maximum to return") ]);
                 ("offset", JObj
                   [ ("type", JStr "number");
                     ("description", JStr "Offset for pagination") ]) ]);
             ("required", JArr [JStr "courseId"]) ] |};
    {| Tool.name := "learningsuite_get_course_submissions";
       Tool.description :=
         "Get all submissions in a course (newest first)";
       Tool.inputSchema :=
         JObj
           [ ("type", JStr "object");
             ("properties", JObj
               [ ("courseId", JObj
                   [ ("type", JStr "string");
                     ("description", JStr "Course ID") ]);
                 ("limit", JObj
                   [ ("type", JStr "number");
                     ("description", JStr "Maximum to return") ]);
                 ("offset", JObj
                   [ ("type", JStr "number");
                     ("description", JStr "Offset for pagination") ]) ]);
             ("required", JArr [JStr "courseId"]) ] |};
    {| Tool.name := "learningsuite_create_lesson";
       Tool.description :=
         "Create a lesson in a course section";
       Tool.inputSchema :=
         JObj
           [ ("type", JStr "object");
             ("properties", JObj
               [ ("courseId", JObj
                   [ ("type", JStr "string");
                     ("description", JStr "Course ID") ]);
                 ("sectionId", JObj
                   [ ("type", JStr "string");
                     ("description", JStr "Section ID") ]);
                 ("name", JObj
                   [ ("type", JStr "string");
                     ("description", JStr "Lesson name") ]);
                 ("htmlContent", JObj
                   [ ("type", JStr "string");
                     ("description", JStr "HTML content for the lesson") ]);
                 ("videoUrl", JObj
                   [ ("type", JStr "string");
                     ("description", JStr "Downloadable video URL") ]);
                 ("thumbnailUrl", JObj
                   [ ("type", JStr "string");
                     ("description", JStr "Downloadable thumbnail image URL") ]);
                 ("timestampInSecondsToGenerateThumbnail", JObj
                   [ ("type", JStr "number");
                     ("description", JStr "Video timestamp for thumbnail generation") ]);
                 ("immediatelyPublishCourse", JObj
                   [ ("type", JStr "boolean");
                     ("description", JStr "Publish course immediately after creating lesson") ]);
                 ("lessonSortPosition", JObj
                   [ ("type", JStr "string");
                     ("enum", JArr [JStr "first"; JStr "last"]);
                     ("description", JStr "Position of the lesson in the section") ]) ]);
             ("required", JArr [JStr "courseId"; JStr "sectionId"; JStr "name"]) ] |};
    {| Tool.name := "learningsuite_get_module_sections";
       Tool.description :=
         "Get all sections of a module";
       Tool.inputSchema :=
         JObj
           [ ("type", JStr "object");
             ("properties", JObj
               [ ("moduleId", JObj
                   [ ("type", JStr "string");
                     ("description", JStr "Module ID") ]) ]);
             ("required", JArr [JStr "moduleId"]) ] |};
    {| Tool.name := "learningsuite_get_module_lessons";
       Tool.description :=
         "Get all lessons of a module";
       Tool.inputSchema :=
         JObj
           [ ("type", JStr "object");
             ("properties", JObj
               [ ("moduleId", JObj
                   [ ("type", JStr "string");
                     ("description", JStr "Module ID") ]) ]);
             ("required", JArr [JStr "moduleId"]) ] |};
    {| Tool.name := "learningsuite_create_module_unlock_override";
       Tool.description :=
         "Create a module unlock override for a member";
       Tool.inputSchema :=
         JObj
           [ ("type", JStr "object");
             ("properties", JObj
               [ ("memberId", JObj
                   [ ("type", JStr "string");
                     ("description", JStr "Member ID") ]);
                 ("moduleId", JObj
                   [ ("type", JStr "string");
                     ("description", JStr "Module ID") ]);
                 ("unlockAt", JObj
                   [ ("type", JStr "string");
                     ("description", JStr "When to unlock the module (ISO format)") ]) ]);
             ("required", JArr [JStr "memberId"; JStr "moduleId"]) ] |};
    {| Tool.name := "learningsuite_list_bundles";
       Tool.description :=
         "Get all bundles";
       Tool.inputSchema :=
         JObj
           [ ("type", JStr "object");
             ("properties", JObj []);
             ("required", JArr []) ] |};
    {| Tool.name := "learningsuite_get_bundle_members";
       Tool.description :=
         "Get members of a bundle with access info";
       Tool.inputSchema :=
         JObj
           [ ("type", JStr "object");
             ("properties", JObj
               [ ("bundleId", JObj
                   [ ("type", JStr "string");
                     ("description", JStr "Bundle ID") ]);
                 ("limit", JObj
                   [ ("type", JStr "number");
                     ("description", JStr "Maximum to return (max 200)") ]);
                 ("offset", JObj
                   [ ("type", JStr "number");
                     ("description", JStr "Offset for pagination") ]) ]);
             ("required", JArr [JStr "bundleId"]) ] |};
    {| Tool.name := "learningsuite_list_hubs";
       Tool.description :=
         "Get all published hubs";
       Tool.inputSchema :=
         JObj
           [ ("type", JStr "object");
             ("properties", JObj []);
             ("required", JArr []) ] |};
    {| Tool.name := "learningsuite_create_hub";
       Tool.description :=
         "Create a new hub from a template";
       Tool.inputSchema :=
         JObj
           [ ("type", JStr "object");
             ("properties", JObj
               [ ("name", JObj
                   [ ("type", JStr "string");
                     ("description", JStr "Hub name") ]);
                 ("hubTemplateId", JObj
                   [ ("type", JStr "string");
                     ("description", JStr "Hub template ID") ]);
                 ("variables", JObj
                   [ ("type", JStr "object");
                     ("description", JStr "Template variables") ]) ]);
             ("required", JArr [JStr "name"; JStr "hubTemplateId"]) ] |};
    {| Tool.name := "learningsuite_list_hub_templates";
       Tool.description :=
         "Get all hub templates";
       Tool.inputSchema :=
         JObj
           [ ("type", JStr "object");
             ("properties", JObj []);
             ("required", JArr []) ] |};
    {| Tool.name := "learningsuite_get_hub_template_variables";
       Tool.description :=
         "Get variables for a hub template";
       Tool.inputSchema :=
         JObj
           [ ("type", JStr "object");
             ("properties", JObj
               [ ("hubTemplateId", JObj
                   [ ("type", JStr "string");
                     ("description", JStr "Hub template ID") ]) ]);
             ("required", JArr [JStr "hubTemplateId"]) ] |};
    {| Tool.name := "learningsuite_add_hub_accesses";
       Tool.description :=
         "Add access to a hub for members, groups, or bundles";
       Tool.inputSchema :=
         JObj
           [ ("type", JStr "object");
             ("properties", JObj
               [ ("hubId", JObj
                   [ ("type", JStr "string");
                     ("description", JStr "Hub ID") ]);
                 ("memberIds", JObj
                   [ ("type", JStr "array");
                     ("items", JObj [("type", JStr "string")]);
                     ("description", JStr "Array of member IDs") ]);
                 ("groupIds", JObj
                   [ ("type", JStr "array");
                     ("items", JObj [("type", JStr "string")]);
                     ("description", JStr "Array of group IDs") ]);
                 ("bundleIds", JObj
                   [ ("type", JStr "array");
                     ("items", JObj [("type", JStr "string")]);
                     ("description", JStr "Array of bundle IDs") ]) ]);
             ("required", JArr [JStr "hubId"]) ] |};
    {| Tool.name := "learningsuite_remove_hub_accesses";
       Tool.description :=
         "Remove access from a hub for members, groups, or bundles";
       Tool.inputSchema :=
         JObj
           [ ("type", JStr "object");
             ("properties", JObj
               [ ("hubId", JObj
                   [ ("type", JStr "string");
                     ("description", JStr "Hub ID") ]);
                 ("memberIds", JObj
                   [ ("type", JStr "array");
                     ("items", JObj [("type", JStr "string")]);
                     ("description", JStr "Array of member IDs") ]);
                 ("groupIds", JObj
                   [ ("type", JStr "array");
                     ("items", JObj [("type", JStr "string")]);
                     ("description", JStr "Array of group IDs") ]);
                 ("bundleIds", JObj
                   [ ("type", JStr "array");
                     ("items", JObj [("type", JStr "string")]);
                     ("description", JStr "Array of bundle IDs") ]) ]);
             ("required", JArr [JStr "hubId"]) ] |};
    {| Tool.name := "learningsuite_list_community_areas";
       Tool.description :=
         "Get all community areas";
       Tool.inputSchema :=
         JObj
           [ ("type", JStr "object");
             ("properties", JObj []);
             ("required", JArr []) ] |};
    {| Tool.name := "learningsuite_list_community_forums";
       Tool.description :=
         "Get community forums";
       Tool.inputSchema :=
         JObj
           [ ("type", JStr "object");
             ("properties", JObj
               [ ("areaId", JObj
                   [ ("type", JStr "string");
                     ("description", JStr "Filter by area ID") ]);
                 ("limit", JObj
                   [ ("type", JStr "number");
                     ("description", JStr "Maximum to return") ]);
                 ("offset", JObj
                   [ ("type", JStr "number");
                     ("description", JStr "Offset for pagination") ]) ]);
             ("required", JArr []) ] |};
    {| Tool.name := "learningsuite_list_community_posts";
       Tool.description :=
         "Get community posts";
       Tool.inputSchema :=
         JObj
           [ ("type", JStr "object");
             ("properties", JObj
               [ ("forumId", JObj
                   [ ("type", JStr "string");
                     ("description", JStr "Filter by forum ID") ]);
                 ("limit", JObj
                   [ ("type", JStr "number");
                     ("description", JStr "Maximum to return") ]);
                 ("offset", JObj
                   [ ("type", JStr "number");
                     ("description", JStr "Offset for pagination") ]) ]);
             ("required", JArr []) ] |};
    {| Tool.name := "learningsuite_comment_on_post";
       Tool.description :=
         "Comment on a community post";
       Tool.inputSchema :=
         JObj
           [ ("type", JStr "object");
             ("properties", JObj
               [ ("postId", JObj
                   [ ("type", JStr "string");
                     ("description", JStr "Post ID") ]);
                 ("content", JObj
                   [ ("type", JStr "string");
                     ("description", JStr "Comment content") ]);
                 ("parentCommentId", JObj
                   [ ("type", JStr "string");
                     ("description", JStr "Parent comment ID for replies") ]) ]);
             ("required", JArr [JStr "postId"; JStr "content"]) ] |};
    {| Tool.name := "learningsuite_list_community_badges";
       Tool.description :=
         "Get all community badges";
       Tool.inputSchema :=
         JObj
           [ ("type", JStr "object");
             ("properties", JObj []);
             ("required", JArr []) ] |};
    {| Tool.name := "learningsuite_assign_badges_to_user";
       Tool.description :=
         "Assign badges to a user";
       Tool.inputSchema :=
         JObj
           [ ("type", JStr "object");
             ("properties", JObj
               [ ("userId", JObj
                   [ ("type", JStr "string");
                     ("description", JStr "User ID") ]);
                 ("badgeIds", JObj
                   [ ("type", JStr "array");
                     ("items", JObj [("type", JStr "string")]);
                     ("description", JStr "Array of badge IDs") ]) ]);
             ("required", JArr [JStr "userId"; JStr "badgeIds"]) ] |};
    {| Tool.name := "learningsuite_remove_badges_from_user";
       Tool.description :=
         "Remove badges from a user";
       Tool.inputSchema :=
         JObj
           [ ("type", JStr "object");
             ("properties", JObj
               [ ("userId", JObj
                   [ ("type", JStr "string");
                     ("description", JStr "User ID") ]);
                 ("badgeIds", JObj
                   [ ("type", JStr "array");
                     ("items", JObj [("type", JStr "string")]);
                     ("description", JStr "Array of badge IDs") ]) ]);
             ("required", JArr [JStr "userId"; JStr "badgeIds"]) ] |};
    {| Tool.name := "learningsuite_list_popups";
       Tool.description :=
         "Get all popups";
       Tool.inputSchema :=
         JObj
           [ ("type", JStr "object");
             ("properties", JObj
               [ ("limit", JObj
                   [ ("type", JStr "number");
                     ("description", JStr "Maximum to return") ]);
                 ("offset", JObj
                   [ ("type", JStr "number");
                     ("description", JStr "Offset for pagination") ]) ]);
             ("required", JArr []) ] |};
    {| Tool.name := "learningsuite_get_popup";
       Tool.description :=
         "Get a popup by ID";
       Tool.inputSchema :=
         JObj
           [ ("type", JStr "object");
             ("properties", JObj
               [ ("popupId", JObj
                   [ ("type", JStr "string");
                     ("description", JStr "Popup ID") ]) ]);
             ("required", JArr [JStr "popupId"]) ] |};
    {| Tool.name := "learningsuite_trigger_popup";
       Tool.description :=
         "Trigger a popup for a member";
       Tool.inputSchema :=
         JObj
           [ ("type", JStr "object");
             ("properties", JObj
               [ ("popupId", JObj
                   [ ("type", JStr "string");
                     ("description", JStr "Popup ID") ]);
                 ("memberId", JObj
                   [ ("type", JStr "string");
                     ("description", JStr "Member ID") ]) ]);
             ("required", JArr [JStr "popupId"; JStr "memberId"]) ] |};
    {| Tool.name := "learningsuite_remove_popup_trigger";
       Tool.description :=
         "Remove a popup trigger for a member";
       Tool.inputSchema :=
         JObj
           [ ("type", JStr "object");
             ("properties", JObj
               [ ("popupId", JObj
                   [ ("type", JStr "string");
                     ("description", JStr "Popup ID") ]);
                 ("memberId", JObj
                   [ ("type", JStr "string");
                     ("description", JStr "Member ID") ]) ]);
             ("required", JArr [JStr "popupId"; JStr "memberId"]) ] |};
    {| Tool.name := "learningsuite_send_push_notifications";
       Tool.description :=
         "Send push notifications to users (requires custom app)";
       Tool.inputSchema :=
         JObj
           [ ("type", JStr "object");
             ("properties", JObj
               [ ("userIds", JObj
                   [ ("type", JStr "array");
                     ("items", JObj [("type", JStr "string")]);
                     ("description", JStr "Array of user IDs") ]);
                 ("groupIds", JObj
                   [ ("type", JStr "array");
                     ("items", JObj [("type", JStr "string")]);
                     ("description", JStr "Array of group IDs") ]);
                 ("title", JObj
                   [ ("type", JStr "string");
                     ("description", JStr "Notification title") ]);
                 ("body", JObj
                   [ ("type", JStr "string");
                     ("description", JStr "Notification body text") ]);
                 ("linkUrl", JObj
                   [ ("type", JStr "string");
                     ("description", JStr "Link URL when tapped") ]);
                 ("publicImageUrl", JObj
                   [ ("type", JStr "string");
                     ("description", JStr "Public image URL for notification") ]) ]);
             ("required", JArr [JStr "linkUrl"]) ] |};
    {| Tool.name := "learningsuite_list_roles";
       Tool.description :=
         "Get all roles";
       Tool.inputSchema :=
         JObj
           [ ("type", JStr "object");
             ("properties", JObj []);
             ("required", JArr []) ] |};
    {| Tool.name := "learningsuite_list_webhook_subscriptions";
       Tool.description :=
         "Get all webhook subscriptions";
       Tool.inputSchema :=
         JObj
           [ ("type", JStr "object");
             ("properties", JObj []);
             ("required", JArr []) ] |};
    {| Tool.name := "learningsuite_create_webhook_subscription";
       Tool.description :=
         "Create a webhook subscription";
       Tool.inputSchema :=
         JObj
           [ ("type", JStr "object");
             ("properties", JObj
               [ ("url", JObj
                   [ ("type", JStr "string");
                     ("description", JStr "Webhook URL") ]);
                 ("events", JObj
                   [ ("type", JStr "array");
                     ("items", JObj [("type", JStr "string")]);
                     ("description", JStr "Array of event types to subscribe to") ]);
                 ("secret", JObj
                   [ ("type", JStr "string");
                     ("description", JStr "Webhook secret") ]) ]);
             ("required", JArr [JStr "url"; JStr "events"]) ] |};
    {| Tool.name := "learningsuite_get_webhook_subscription";
       Tool.description :=
         "Get a webhook subscription by ID";
       Tool.inputSchema :=
         JObj
           [ ("type", JStr "object");
             ("properties", JObj
               [ ("subscriptionId", JObj
                   [ ("type", JStr "string");
                     ("description", JStr "Subscription ID") ]) ]);
             ("required", JArr [JStr "subscriptionId"]) ] |};
    {| Tool.name := "learningsuite_update_webhook_subscription";
       Tool.description :=
         "Update a webhook subscription";
       Tool.inputSchema :=
         JObj
           [ ("type", JStr "object");
             ("properties", JObj
               [ ("subscriptionId", JObj
                   [ ("type", JStr "string");
                     ("description", JStr "Subscription ID") ]);
                 ("url", JObj
                   [ ("type", JStr "string");
                     ("description", JStr "Webhook URL") ]);
                 ("events", JObj
                   [ ("type", JStr "array");
                     ("items", JObj [("type", JStr "string")]);
                     ("description", JStr "Array of event types") ]);
                 ("secret", JObj
                   [ ("type", JStr "string");
                     ("description", JStr "Webhook secret") ]);
                 ("enabled", JObj
                   [ ("type", JStr "boolean");
                     ("description", JStr "Enable/disable webhook") ]) ]);
             ("required", JArr [JStr "subscriptionId"]) ] |};
    {| Tool.name := "learningsuite_delete_webhook_subscription";
       Tool.description :=
         "Delete a webhook subscription";
       Tool.inputSchema :=
         JObj
           [ ("type", JStr "object");
             ("properties", JObj
               [ ("subscriptionId", JObj
                   [ ("type", JStr "string");
                     ("description", JStr "Subscription ID") ]) ]);
             ("required", JArr [JStr "subscriptionId"]) ] |};
    {| Tool.name := "learningsuite_get_webhook_sample_data";
       Tool.description :=
         "Get sample data for a webhook event type";
       Tool.inputSchema :=
         JObj
           [ ("type", JStr "object");
             ("properties", JObj
               [ ("eventType", JObj
                   [ ("type", JStr "string");
                     ("enum", JArr
                       [ JStr "community-post-commented-events";
                         JStr "community-post-created-events";
                         JStr "community-post-moderated-events";
                         JStr "course-member-added-events";
                         JStr "course-updated-events";
                         JStr "custom-popup-interaction-events";
                         JStr "exam-completed-events";
                         JStr "exam-graded-events";
                         JStr "feedback-events";
                         JStr "group-user-access-changed-events";
                         JStr "lesson-completed-events";
                         JStr "new-login-events";
                         JStr "progress-changed-events" ]);
                     ("description", JStr "Event type") ]) ]);
             ("required", JArr [JStr "eventType"]) ] |}
  ].

(* ================================================================== *)
(** * api-client.ts *)
(* ================================================================== *)

Definition BASE_URL : string := "https://api.learningsuite.io/api/v1".

Section Program.

  (** The platform: the network behind [fetch] and the parser [JSON.parse],
      each of which returns or throws.  [apiKey] is the key the client was
      constructed with. *)
Variable World : Type.
Variable fetch : Request.t -> World -> Completion Response.t * World.
Variable JSON_parse : string -> Completion JsValue.
Variable apiKey : string.

Local Abbreviation Async := (M World).

  (** [await fetch(url, options)]: the request is handed to the network,
      which answers with a response or rejects. *)
Definition await_fetch (req : Request.t) : Async Response.t :=
    fun st =>
      let (outcome, w) := fetch req (world st) in
      (outcome, {| world := w; sent := (sent st ++ [req])%list |}).

  (** [LearningSuiteClient.request] *)
Definition request (method path : string) (body : JsValue)
           (queryParams : option Obj) : Async JsValue :=
  let url := BASE_URL ++ path in
  url <- match queryParams with
         | Some queryParams =>
             params <- for_of (Js.Object_entries queryParams)
                         (fun params kv =>
                            let '(key, value) := kv in
                            if Js.is_defined value
                            then text <- String_ value ;;
                                 ret (Js.URLSearchParams_append params key text)
                            else ret params)
                         Js.URLSearchParams_new ;;
             let queryString := Js.URLSearchParams_toString params in
             ret (if Js.is_empty queryString then url
                  else url ++ "?" ++ queryString)
         | None => ret url
         end ;;
  let headers :=
    [("Content-Type", "application/json"); ("X-API-Key", apiKey)] in
  let options_body :=
    if Js.truthy body
       && (String.eqb method "POST" || String.eqb method "PUT"
           || String.eqb method "DELETE")
    then Js.JSON_stringify body
    else None in
  response <- await_fetch
                {| Request.url := url;
                   Request.method := method;
                   Request.headers := headers;
                   Request.body := options_body |} ;;
  if negb (Response.ok response) then
    let errorText := Response.text response in
    throw (ErrorObject
             ("API Error " ++ Response.status response ++ ": " ++ errorText))
  else
    let text := Response.text response in
    if Js.is_empty text then ret (JObj [])
    else lift (JSON_parse text).

  (** ** The client methods

      A template literal converts its substitutions to strings from left to
      right, before [this.request] is called. *)

(* Auth *)

Definition checkAuth : Async JsValue :=
  request "GET" "/auth" JUndefined None.

(* Members *)

Definition getMembers (params : option Obj) : Async JsValue :=
  request "GET" "/members" JUndefined params.

Definition createMember (data : JsValue) : Async JsValue :=
  request "POST" "/members" data None.

Definition getMemberByEmail (email includeGroups : JsValue) : Async JsValue :=
  request "GET" "/members/by-email" JUndefined
          (Some [("email", email); ("includeGroups", includeGroups)]).

Definition getMember (memberId includeGroups : JsValue) : Async JsValue :=
  memberId' <- String_ memberId ;;
  request "GET" ("/members/" ++ memberId')
          JUndefined (Some [("includeGroups", includeGroups)]).

Definition updateMember (memberId data : JsValue) : Async JsValue :=
  memberId' <- String_ memberId ;;
  request "PUT" ("/members/" ++ memberId') data None.

Definition deleteMember (memberId : JsValue) : Async JsValue :=
  memberId' <- String_ memberId ;;
  request "DELETE" ("/members/" ++ memberId') JUndefined None.

(* Member Courses *)

Definition getMemberCourses (memberId : JsValue) (params : option Obj)
  : Async JsValue :=
  memberId' <- String_ memberId ;;
  request "GET" ("/members/" ++ memberId' ++ "/courses") JUndefined params.

Definition addMemberToCourses (memberId data : JsValue) : Async JsValue :=
  memberId' <- String_ memberId ;;
  request "PUT" ("/members/" ++ memberId' ++ "/courses") data None.

Definition removeMemberFromCourses (memberId courseIds : JsValue)
  : Async JsValue :=
  memberId' <- String_ memberId ;;
  request "DELETE" ("/members/" ++ memberId' ++ "/courses")
          (JObj [("courseIds", courseIds)]) None.

Definition getMemberCourseInfo (memberId courseId dateForAccessCheck : JsValue)
  : Async JsValue :=
  memberId' <- String_ memberId ;;
  courseId' <- String_ courseId ;;
  request "GET" ("/members/" ++ memberId' ++ "/course-info/" ++ courseId')
          JUndefined (Some [("dateForAccessCheck", dateForAccessCheck)]).

(* Member Bundles *)

Definition getMemberBundles (memberId : JsValue) : Async JsValue :=
  memberId' <- String_ memberId ;;
  request "GET" ("/members/" ++ memberId' ++ "/bundles") JUndefined None.

Definition addMemberToBundles (memberId data : JsValue) : Async JsValue :=
  memberId' <- String_ memberId ;;
  request "PUT" ("/members/" ++ memberId' ++ "/bundles") data None.

Definition removeMemberFromBundles (memberId bundleIds : JsValue)
  : Async JsValue :=
  memberId' <- String_ memberId ;;
  request "DELETE" ("/members/" ++ memberId' ++ "/bundles")
          (JObj [("bundleIds", bundleIds)]) None.

(* Team Members *)

Definition getTeamMembers (params : option Obj) : Async JsValue :=
  request "GET" "/team-members" JUndefined params.

Definition getTeamMemberByEmail (email : JsValue) : Async JsValue :=
  request "GET" "/team-members/by-email" JUndefined (Some [("email", email)]).

Definition getTeamMember (userId : JsValue) : Async JsValue :=
  userId' <- String_ userId ;;
  request "GET" ("/team-members/" ++ userId') JUndefined None.

(* Groups *)

Definition getGroups (params : option Obj) : Async JsValue :=
  request "GET" "/groups" JUndefined params.

Definition createGroup (data : JsValue) : Async JsValue :=
  request "POST" "/groups" data None.

Definition findGroupsByName (name : JsValue) : Async JsValue :=
  request "GET" "/groups/find-by-name" JUndefined (Some [("name", name)]).

Definition deleteGroup (groupId : JsValue) : Async JsValue :=
  groupId' <- String_ groupId ;;
  request "DELETE" ("/group/" ++ groupId') JUndefined None.

Definition getGroupCourses (groupId : JsValue) : Async JsValue :=
  groupId' <- String_ groupId ;;
  request "GET" ("/group/" ++ groupId' ++ "/courses") JUndefined None.

Definition addCoursesToGroup (groupId courseIds : JsValue) : Async JsValue :=
  groupId' <- String_ groupId ;;
  request "PUT" ("/group/" ++ groupId' ++ "/courses")
          (JObj [("courseIds", courseIds)]) None.

Definition removeCoursesFromGroup (groupId courseIds : JsValue)
  : Async JsValue :=
  groupId' <- String_ groupId ;;
  request "DELETE" ("/group/" ++ groupId' ++ "/courses")
          (JObj [("courseIds", courseIds)]) None.

Definition addBundlesToGroup (groupId bundleIds : JsValue) : Async JsValue :=
  groupId' <- String_ groupId ;;
  request "PUT" ("/group/" ++ groupId' ++ "/bundles")
          (JObj [("bundleIds", bundleIds)]) None.

Definition addMembersToGroups (data : JsValue) : Async JsValue :=
  request "PUT" "/add-members-to-groups" data None.

Definition addMembersToGroupsSummary (data : JsValue) : Async JsValue :=
  request "PUT" "/add-members-to-groups-summary" data None.

Definition removeMembersFromGroups (data : JsValue) : Async JsValue :=
  request "DELETE" "/remove-members-from-groups" data None.

(* Courses *)

Definition getPublishedCourses : Async JsValue :=
  request "GET" "/courses/published" JUndefined None.

Definition getCourseModules (courseId : JsValue) : Async JsValue :=
  courseId' <- String_ courseId ;;
  request "GET" ("/courses/" ++ courseId' ++ "/modules") JUndefined None.

Definition getCourseModulesForMember (courseId memberId : JsValue)
  : Async JsValue :=
  courseId' <- String_ courseId ;;
  memberId' <- String_ memberId ;;
  request "GET" ("/courses/" ++ courseId' ++ "/modules/" ++ memberId')
          JUndefined None.

Definition getCourseMembers (courseId : JsValue) (params : option Obj)
  : Async JsValue :=
  courseId' <- String_ courseId ;;
  request "GET" ("/courses/" ++ courseId' ++ "/members") JUndefined params.

Definition getCourseAccessRequests (courseId : JsValue) (params : option Obj)
  : Async JsValue :=
  courseId' <- String_ courseId ;;
  request "GET" ("/courses/" ++ courseId' ++ "/access-requests")
          JUndefined params.

Definition getCourseSubmissions (courseId : JsValue) (params : option Obj)
  : Async JsValue :=
  courseId' <- String_ courseId ;;
  request "GET" ("/courses/" ++ courseId' ++ "/submissions") JUndefined params.

Definition createLesson (courseId sectionId data : JsValue) : Async JsValue :=
  courseId' <- String_ courseId ;;
  sectionId' <- String_ sectionId ;;
  request "POST" ("/courses/" ++ courseId' ++ "/create-lesson/" ++ sectionId')
          data None.

(* Modules & Lessons *)

Definition getModuleSections (moduleId : JsValue) : Async JsValue :=
  moduleId' <- String_ moduleId ;;
  request "GET" ("/modules/" ++ moduleId' ++ "/sections") JUndefined None.

Definition getModuleLessons (moduleId : JsValue) : Async JsValue :=
  moduleId' <- String_ moduleId ;;
  request "GET" ("/modules/" ++ moduleId' ++ "/lessons") JUndefined None.

Definition createModuleUnlockOverride (data : JsValue) : Async JsValue :=
  request "POST" "/create-module-unlock-override" data None.

(* Bundles *)

Definition getBundles : Async JsValue :=
  request "GET" "/bundles" JUndefined None.

Definition getBundleMembers (bundleId : JsValue) (params : option Obj)
  : Async JsValue :=
  bundleId' <- String_ bundleId ;;
  request "GET" ("/bundle/" ++ bundleId' ++ "/members") JUndefined params.

(* Hubs *)

Definition getHubs : Async JsValue :=
  request "GET" "/hubs" JUndefined None.

Definition createHub (data : JsValue) : Async JsValue :=
  request "POST" "/hub" data None.

Definition getHubTemplates : Async JsValue :=
  request "GET" "/hub-templates" JUndefined None.

Definition getHubTemplateVariables (hubTemplateId : JsValue) : Async JsValue :=
  hubTemplateId' <- String_ hubTemplateId ;;
  request "GET" ("/hub-template/" ++ hubTemplateId' ++ "/variables")
          JUndefined None.

Definition addHubAccesses (hubId data : JsValue) : Async JsValue :=
  hubId' <- String_ hubId ;;
  request "PUT" ("/hub/" ++ hubId' ++ "/access") data None.

Definition removeHubAccesses (hubId data : JsValue) : Async JsValue :=
  hubId' <- String_ hubId ;;
  request "DELETE" ("/hub/" ++ hubId' ++ "/access") data None.

(* Community *)

Definition getCommunityAreas : Async JsValue :=
  request "GET" "/community/areas" JUndefined None.

Definition getCommunityForums (params : option Obj) : Async JsValue :=
  request "GET" "/community/forums" JUndefined params.

Definition getCommunityPosts (params : option Obj) : Async JsValue :=
  request "GET" "/community/posts" JUndefined params.

Definition commentOnPost (postId data : JsValue) : Async JsValue :=
  postId' <- String_ postId ;;
  request "POST" ("/community/posts/" ++ postId' ++ "/comments") data None.

Definition getCommunityBadges : Async JsValue :=
  request "GET" "/community/badges" JUndefined None.

Definition assignBadgesToUser (data : JsValue) : Async JsValue :=
  request "PUT" "/community/badges/user" data None.

Definition removeBadgesFromUser (data : JsValue) : Async JsValue :=
  request "DELETE" "/community/badges/user" data None.

(* Popups *)

Definition getPopups (params : option Obj) : Async JsValue :=
  request "GET" "/popups" JUndefined params.

Definition getPopup (popupId : JsValue) : Async JsValue :=
  popupId' <- String_ popupId ;;
  request "GET" ("/popups/" ++ popupId') JUndefined None.

Definition triggerPopup (popupId memberId : JsValue) : Async JsValue :=
  popupId' <- String_ popupId ;;
  memberId' <- String_ memberId ;;
  request "POST" ("/popups/" ++ popupId' ++ "/trigger/" ++ memberId')
          JUndefined None.

Definition removePopupTrigger (popupId memberId : JsValue) : Async JsValue :=
  popupId' <- String_ popupId ;;
  memberId' <- String_ memberId ;;
  request "DELETE" ("/popups/" ++ popupId' ++ "/trigger/" ++ memberId')
          JUndefined None.

(* Push Notifications *)

Definition sendPushNotifications (data : JsValue) : Async JsValue :=
  request "POST" "/user/push-notifications/send" data None.

(* Roles *)

Definition getRoles : Async JsValue :=
  request "GET" "/user/roles" JUndefined None.

(* Webhooks *)

Definition getWebhookSubscriptions : Async JsValue :=
  request "GET" "/webhooks/subscription" JUndefined None.

Definition createWebhookSubscription (data : JsValue) : Async JsValue :=
  request "POST" "/webhooks/subscription" data None.

Definition getWebhookSubscription (subscriptionId : JsValue) : Async JsValue :=
  subscriptionId' <- String_ subscriptionId ;;
  request "GET" ("/webhooks/subscription/" ++ subscriptionId') JUndefined None.

Definition updateWebhookSubscription (subscriptionId data : JsValue)
  : Async JsValue :=
  subscriptionId' <- String_ subscriptionId ;;
  request "PUT" ("/webhooks/subscription/" ++ subscriptionId') data None.

Definition deleteWebhookSubscription (subscriptionId : JsValue)
  : Async JsValue :=
  subscriptionId' <- String_ subscriptionId ;;
  request "DELETE" ("/webhooks/subscription/" ++ subscriptionId')
          JUndefined None.

Definition getWebhookSampleData (eventType : JsValue) : Async JsValue :=
  eventType' <- String_ eventType ;;
  request "GET" ("/webhooks/sample-data/" ++ eventType') JUndefined None.

(* ================================================================== *)
(** * index.ts: the dispatcher *)
(* ================================================================== *)

(** A [switch] over string labels: the arm of the first label strictly
    equal to the scrutinee, if there is one. *)
Fixpoint switch_case {A : Type} (scrutinee : string)
         (cases : list (string * A)) : option A :=
  match cases with
  | [] => None
  | (label, arm) :: rest =>
      if String.eqb scrutinee label then Some arm
      else switch_case scrutinee rest
  end.

(** The [case] arms of [handleToolCall], in source order.  The client is
    [new LearningSuiteClient(API_KEY)]: its methods are the definitions
    above, with [apiKey] the key of the process. *)
Definition handleToolCall_cases
  : list (string * (option Obj -> Async JsValue)) :=
  [ (* Auth *)
    ("learningsuite_check_auth", fun args => checkAuth);

    (* Members *)
    ("learningsuite_list_members", fun args => getMembers args);
    ("learningsuite_create_member", fun args => createMember (as_any args));
    ("learningsuite_get_member", fun args =>
       memberId <- prop args "memberId" ;;
       includeGroups <- prop args "includeGroups" ;;
       getMember memberId includeGroups);
    ("learningsuite_get_member_by_email", fun args =>
       email <- prop args "email" ;;
       includeGroups <- prop args "includeGroups" ;;
       getMemberByEmail email includeGroups);
    ("learningsuite_update_member", fun args =>
       destructured <- destructure_rest args "memberId" ;;
       let '(memberId, data) := destructured in
       updateMember memberId data);
    ("learningsuite_delete_member", fun args =>
       memberId <- prop args "memberId" ;;
       deleteMember memberId);

    (* Member Courses *)
    ("learningsuite_get_member_courses", fun args =>
       memberId <- prop args "memberId" ;;
       getMemberCourses memberId args);
    ("learningsuite_add_member_to_courses", fun args =>
       memberId <- prop args "memberId" ;;
       addMemberToCourses memberId (as_any args));
    ("learningsuite_remove_member_from_courses", fun args =>
       memberId <- prop args "memberId" ;;
       courseIds <- prop args "courseIds" ;;
       removeMemberFromCourses memberId courseIds);
    ("learningsuite_get_member_course_info", fun args =>
       memberId <- prop args "memberId" ;;
       courseId <- prop args "courseId" ;;
       dateForAccessCheck <- prop args "dateForAccessCheck" ;;
       getMemberCourseInfo memberId courseId dateForAccessCheck);

    (* Member Bundles *)
    ("learningsuite_get_member_bundles", fun args =>
       memberId <- prop args "memberId" ;;
       getMemberBundles memberId);
    ("learningsuite_add_member_to_bundles", fun args =>
       memberId <- prop args "memberId" ;;
       addMemberToBundles memberId (as_any args));
    ("learningsuite_remove_member_from_bundles", fun args =>
       memberId <- prop args "memberId" ;;
       bundleIds <- prop args "bundleIds" ;;
       removeMemberFromBundles memberId bundleIds);

    (* Team Members *)
    ("learningsuite_list_team_members", fun args => getTeamMembers args);
    ("learningsuite_get_team_member", fun args =>
       userId <- prop args "userId" ;;
       getTeamMember userId);
    ("learningsuite_get_team_member_by_email", fun args =>
       email <- prop args "email" ;;
       getTeamMemberByEmail email);

    (* Groups *)
    ("learningsuite_list_groups", fun args => getGroups args);
    ("learningsuite_create_group", fun args => createGroup (as_any args));
    ("learningsuite_find_groups_by_name", fun args =>
       name <- prop args "name" ;;
       findGroupsByName name);
    ("learningsuite_delete_group", fun args =>
       groupId <- prop args "groupId" ;;
       deleteGroup groupId);
    ("learningsuite_get_group_courses", fun args =>
       groupId <- prop args "groupId" ;;
       getGroupCourses groupId);
    ("learningsuite_add_courses_to_group", fun args =>
       groupId <- prop args "groupId" ;;
       courseIds <- prop args "courseIds" ;;
       addCoursesToGroup groupId courseIds);
    ("learningsuite_remove_courses_from_group", fun args =>
       groupId <- prop args "groupId" ;;
       courseIds <- prop args "courseIds" ;;
       removeCoursesFromGroup groupId courseIds);
    ("learningsuite_add_bundles_to_group", fun args =>
       groupId <- prop args "groupId" ;;
       bundleIds <- prop args "bundleIds" ;;
       addBundlesToGroup groupId bundleIds);
    ("learningsuite_add_members_to_groups", fun args =>
       addMembersToGroups (as_any args));
    ("learningsuite_remove_members_from_groups", fun args =>
       removeMembersFromGroups (as_any args));

    (* Courses *)
    ("learningsuite_list_published_courses", fun args => getPublishedCourses);
    ("learningsuite_get_course_modules", fun args =>
       courseId <- prop args "courseId" ;;
       getCourseModules courseId);
    ("learningsuite_get_course_modules_for_member", fun args =>
       courseId <- prop args "courseId" ;;
       memberId <- prop args "memberId" ;;
       getCourseModulesForMember courseId memberId);
    ("learningsuite_get_course_members", fun args =>
       courseId <- prop args "courseId" ;;
       getCourseMembers courseId args);
    ("learningsuite_get_course_access_requests", fun args =>
       courseId <- prop args "courseId" ;;
       getCourseAccessRequests courseId args);
    ("learningsuite_get_course_submissions", fun args =>
       courseId <- prop args "courseId" ;;
       getCourseSubmissions courseId args);
    ("learningsuite_create_lesson", fun args =>
       courseId <- prop args "courseId" ;;
       sectionId <- prop args "sectionId" ;;
       createLesson courseId sectionId (as_any args));

    (* Modules & Lessons *)
    ("learningsuite_get_module_sections", fun args =>
       moduleId <- prop args "moduleId" ;;
       getModuleSections moduleId);
    ("learningsuite_get_module_lessons", fun args =>
       moduleId <- prop args "moduleId" ;;
       getModuleLessons moduleId);
    ("learningsuite_create_module_unlock_override", fun args =>
       createModuleUnlockOverride (as_any args));

    (* Bundles *)
    ("learningsuite_list_bundles", fun args => getBundles);
    ("learningsuite_get_bundle_members", fun args =>
       bundleId <- prop args "bundleId" ;;
       getBundleMembers bundleId args);

    (* Hubs *)
    ("learningsuite_list_hubs", fun args => getHubs);
    ("learningsuite_create_hub", fun args => createHub (as_any args));
    ("learningsuite_list_hub_templates", fun args => getHubTemplates);
    ("learningsuite_get_hub_template_variables", fun args =>
       hubTemplateId <- prop args "hubTemplateId" ;;
       getHubTemplateVariables hubTemplateId);
    ("learningsuite_add_hub_accesses", fun args =>
       hubId <- prop args "hubId" ;;
       addHubAccesses hubId (as_any args));
    ("learningsuite_remove_hub_accesses", fun args =>
       hubId <- prop args "hubId" ;;
       removeHubAccesses hubId (as_any args));

    (* Community *)
    ("learningsuite_list_community_areas", fun args => getCommunityAreas);
    ("learningsuite_list_community_forums", fun args => getCommunityForums args);
    ("learningsuite_list_community_posts", fun args => getCommunityPosts args);
    ("learningsuite_comment_on_post", fun args =>
       postId <- prop args "postId" ;;
       commentOnPost postId (as_any args));
    ("learningsuite_list_community_badges", fun args => getCommunityBadges);
    ("learningsuite_assign_badges_to_user", fun args =>
       assignBadgesToUser (as_any args));
    ("learningsuite_remove_badges_from_user", fun args =>
       removeBadgesFromUser (as_any args));

    (* Popups *)
    ("learningsuite_list_popups", fun args => getPopups args);
    ("learningsuite_get_popup", fun args =>
       popupId <- prop args "popupId" ;;
       getPopup popupId);
    ("learningsuite_trigger_popup", fun args =>
       popupId <- prop args "popupId" ;;
       memberId <- prop args "memberId" ;;
       triggerPopup popupId memberId);
    ("learningsuite_remove_popup_trigger", fun args =>
       popupId <- prop args "popupId" ;;
       memberId <- prop args "memberId" ;;
       removePopupTrigger popupId memberId);

    (* Push Notifications *)
    ("learningsuite_send_push_notifications", fun args =>
       sendPushNotifications (as_any args));

    (* Roles *)
    ("learningsuite_list_roles", fun args => getRoles);

    (* Webhooks *)
    ("learningsuite_list_webhook_subscriptions", fun args =>
       getWebhookSubscriptions);
    ("learningsuite_create_webhook_subscription", fun args =>
       createWebhookSubscription (as_any args));
    ("learningsuite_get_webhook_subscription", fun args =>
       subscriptionId <- prop args "subscriptionId" ;;
       getWebhookSubscription subscriptionId);
    ("learningsuite_update_webhook_subscription", fun args =>
       destructured <- destructure_rest args "subscriptionId" ;;
       let '(subscriptionId, data) := destructured in
       updateWebhookSubscription subscriptionId data);
    ("learningsuite_delete_webhook_subscription", fun args =>
       subscriptionId <- prop args "subscriptionId" ;;
       deleteWebhookSubscription subscriptionId);
    ("learningsuite_get_webhook_sample_data", fun args =>
       eventType <- prop args "eventType" ;;
       getWebhookSampleData eventType)
  ]%list.

(** [handleToolCall]; the [default] arm throws. *)
Definition handleToolCall (name : string) (args : option Obj) : Async JsValue :=
  match switch_case name handleToolCall_cases with
  | Some arm => arm args
  | None => throw (ErrorObject ("Unknown tool: " ++ name))
  end.

(** The handler registered for [ListToolsRequestSchema]. *)
Definition ListTools : Async ListToolsResult.t :=
  ret {| ListToolsResult.tools := tools |}.

(** The handler registered for [CallToolRequestSchema], applied to
    [request.params.name] and [request.params.arguments].  [String(error)]
    is evaluated inside the [catch] block: when it throws, the handler
    throws. *)
Definition CallTool (name : string) (args : option Obj)
  : Async CallToolResult.t :=
  try_catch
    (result <- handleToolCall name args ;;
     ret {| CallToolResult.content :=
              [ {| TextContent.type := "text";
                   TextContent.text := Js.JSON_stringify_2 result |} ];
            CallToolResult.isError := None |})
    (fun error =>
       errorMessage <- match error with
                       | ErrorObject message => ret message
                       | NonError value => String_ value
                       end ;;
       ret {| CallToolResult.content :=
                [ {| TextContent.type := "text";
                     TextContent.text := Some ("Error: " ++ errorMessage) |} ];
              CallToolResult.isError := Some true |}).

(** ** The protocol server

    [server.setRequestHandler] registers the two handlers; the server answers
    the requests of the host one after the other.  A handler that throws is
    answered by the protocol layer with a fault, and serving goes on. *)
Inductive ServerRequest : Type :=
| ListToolsRequest
| CallToolRequest (name : string) (arguments : option Obj).

Inductive ServerResult : Type :=
| ListToolsResponse (result : ListToolsResult.t)
| CallToolResponse (result : CallToolResult.t).

Definition handle (req : ServerRequest) : Async ServerResult :=
  match req with
  | ListToolsRequest =>
      result <- ListTools ;; ret (ListToolsResponse result)
  | CallToolRequest name arguments =>
      result <- CallTool name arguments ;; ret (CallToolResponse result)
  end.

Fixpoint serve (requests : list ServerRequest) (st : Store World)
  : list (Completion ServerResult) * Store World :=
  match requests with
  | [] => ([], st)
  | req :: rest =>
      let (answer, st') := handle req st in
      let (answers, st'') := serve rest st' in
      (answer :: answers, st'')
  end.

End Program.

(* ================================================================== *)
(** * Vocabulary of the specification *)
(* ================================================================== *)

(** [haystack] contains [needle]. *)
Definition Contains (needle haystack : string) : Prop :=
  exists before after, haystack = before ++ needle ++ after.

(** The names of the catalog, in declaration order. *)
Definition tool_names : list string := map Tool.name tools.

(** No two strings of [l] are equal. *)
Fixpoint distinct (l : list string) : bool :=
  match l with
  | [] => true
  | x :: rest => negb (existsb (String.eqb x) rest) && distinct rest
  end.

(** The entries of a query-parameter map that are serialized: those with a
    defined value, each value in its textual form. *)
Definition defined_entries (queryParams : Obj) : list (string * string) :=
  map (fun kv => (fst kv, Js.text_of (snd kv)))
      (filter (fun kv => Js.is_defined (snd kv)) queryParams).

(** Every value of the object can be converted to a string: none is an
    object with a [toString] key of its own, or an array that holds one. *)
Definition values_convertible (o : Obj) : bool :=
  forallb (fun kv => Js.convertible (snd kv)) o.

(** The loop of [request] over the query parameters does not throw. *)
Definition query_convertible (queryParams : option Obj) : bool :=
  match queryParams with
  | Some o => values_convertible o
  | None => true
  end.

(** A value that [String] cannot convert: [{toString: null}]. *)
Definition unconvertible : JsValue := JObj [("toString", JNull)].

(** An integer that a JavaScript number holds exactly and prints in
    decimal. *)
Definition safe_integer (n : Z) : Prop := (Z.abs n < 2 ^ 53)%Z.

(** The response with HTTP status code [code] and body text [body], as
    [fetch] presents it. *)
Definition http_response (code : Z) (body : string) : Response.t :=
  {| Response.ok := ((200 <=? code) && (code <=? 299))%Z;
     Response.status := Js.integer_text code;
     Response.text := body |}.

(** The range of the status codes of a response. *)
Definition status_code (code : Z) : Prop := (0 <= code <= 999)%Z.

(** What follows the path in the URL. *)
Definition query_suffix (queryParams : option Obj) : string :=
  match queryParams with
  | None => EmptyString
  | Some o =>
      match defined_entries o with
      | [] => EmptyString
      | entries => "?" ++ Js.URLSearchParams_toString entries
      end
  end.

(** The methods for which the client attaches a body. *)
Definition mutating (method : string) : bool :=
  String.eqb method "POST" || String.eqb method "PUT"
  || String.eqb method "DELETE".

(** The request that a call [request(method, path, body, queryParams)] of
    the client hands to [fetch], as the specification describes it. *)
Definition outgoing (apiKey method path : string) (body : JsValue)
           (queryParams : option Obj) : Request.t :=
  {| Request.url := BASE_URL ++ path ++ query_suffix queryParams;
     Request.method := method;
     Request.headers :=
       [("Content-Type", "application/json"); ("X-API-Key", apiKey)];
     Request.body :=
       if Js.truthy body && mutating method then Js.JSON_stringify body
       else None |}.

(** How the client turns a response into the outcome of the call, as the
    specification describes it. *)
Definition outcome_of (JSON_parse : string -> Completion JsValue)
           (response : Response.t) : Completion JsValue :=
  if Response.ok response then
    match Response.text response with
    | EmptyString => Returned (JObj [])
    | text => JSON_parse text
    end
  else
    Threw (ErrorObject
             ("API Error " ++ Response.status response
                ++ ": " ++ Response.text response)).

(** The two envelopes of the dispatcher. *)
Definition failure_envelope (message : string) : CallToolResult.t :=
  {| CallToolResult.content :=
       [ {| TextContent.type := "text";
            TextContent.text := Some ("Error: " ++ message) |} ];
     CallToolResult.isError := Some true |}.

Definition success_envelope (payload : JsValue) : CallToolResult.t :=
  {| CallToolResult.content :=
       [ {| TextContent.type := "text";
            TextContent.text := Js.JSON_stringify_2 payload |} ];
     CallToolResult.isError := None |}.

(** The message the [catch] block of the handler reports; [None] when
    [String(error)] throws. *)
Definition reported_message (error : Thrown) : option string :=
  match error with
  | ErrorObject message => Some message
  | NonError value => Js.ToString value
  end.

(** The value thrown is an [Error] object. *)
Definition is_Error (error : Thrown) : Prop :=
  exists message, error = ErrorObject message.

(** The platform throws [Error] objects only, as [fetch] and [JSON.parse]
    do. *)
Definition throws_Errors {World : Type}
           (fetch : Request.t -> World -> Completion Response.t * World)
           (JSON_parse : string -> Completion JsValue) : Prop :=
  (forall req w error, fst (fetch req w) = Threw error -> is_Error error)
  /\ (forall text error, JSON_parse text = Threw error -> is_Error error).

(** The computation [m], started in any store, hands to [fetch] exactly the
    requests in [reqs], in that order. *)
Definition sends {World A : Type} (m : M World A) (reqs : list Request.t)
  : Prop :=
  forall st, sent (snd (m st)) = (sent st ++ reqs)%list.

(** Every request [m] hands to [fetch] satisfies [P]; there is at most one. *)
Definition sends_only {World A : Type} (P : Request.t -> Prop)
           (m : M World A) : Prop :=
  forall st, exists reqs,
    sent (snd (m st)) = (sent st ++ reqs)%list
    /\ Forall P reqs /\ (length reqs <= 1)%nat.

(** Every character of [s] satisfies [p]. *)
Fixpoint all_chars (p : ascii -> bool) (s : string) : bool :=
  match s with
  | EmptyString => true
  | String c rest => p c && all_chars p rest
  end.

(** The characters the serializer can emit: the safe ones, [+], [%]. *)
Definition emitted (c : ascii) : bool :=
  Js.urlencoded_safe c || Ascii.eqb c "+" || Ascii.eqb c "%".

(** [c] is not the character [sep]. *)
Definition differs_from (sep : ascii) (c : ascii) : bool :=
  negb (Ascii.eqb c sep).

(** One name-value pair as the serializer writes it. *)
Definition serialized_pair (nv : string * string) : string :=
  Js.urlencode (fst nv) ++ "=" ++ Js.urlencode (snd nv).

(** ** Reading a query string back

    The application/x-www-form-urlencoded parser, as the receiving side
    applies it to the part of the URL after the question mark. *)

Definition hex_value (c : ascii) : option N :=
  let n := N_of_ascii c in
  if ((48 <=? n) && (n <=? 57))%N then Some (n - 48)%N
  else if ((65 <=? n) && (n <=? 70))%N then Some (n - 55)%N
  else if ((97 <=? n) && (n <=? 102))%N then Some (n - 87)%N
  else None.

(** Percent-decoding, after [+] has been read as a space. *)
Fixpoint urldecode (s : string) : string :=
  match s with
  | EmptyString => EmptyString
  | String c rest =>
      if Ascii.eqb c "+" then String " " (urldecode rest)
      else if Ascii.eqb c "%" then
        match rest with
        | String h (String l rest') =>
            match hex_value h, hex_value l with
            | Some hv, Some lv => String (ascii_of_N (16 * hv + lv)) (urldecode rest')
            | _, _ => String c (urldecode rest)
            end
        | _ => String c (urldecode rest)
        end
      else String c (urldecode rest)
    end.

(** [split_on sep s]: the pieces of [s] between the occurrences of [sep]. *)
Fixpoint split_on (sep : ascii) (s : string) : list string :=
  match s with
  | EmptyString => [EmptyString]
  | String c rest =>
      if Ascii.eqb c sep then EmptyString :: split_on sep rest
      else
        match split_on sep rest with
        | [] => [String c EmptyString]
        | piece :: pieces => String c piece :: pieces
        end
  end.

(** The name and the value of one piece: split at the first [=]. *)
Fixpoint split_pair (s : string) : string * string :=
  match s with
  | EmptyString => (EmptyString, EmptyString)
  | String c rest =>
      if Ascii.eqb c "=" then (EmptyString, rest)
      else let (name, value) := split_pair rest in (String c name, value)
  end.

Definition parse_query (query : string) : list (string * string) :=
  map (fun piece =>
         let (name, value) := split_pair piece in
         (urldecode name, urldecode value))
      (filter (fun piece => negb (Js.is_empty piece)) (split_on "&" query)).

(** ** A simulated remote

    The remote is a script of responses, answered in order whatever the
    request; with the script exhausted the connection fails.  The parser
    knows the texts of a table. *)
Module Simulated.

Definition Remote : Type := list Response.t.

Definition fetch (req : Request.t) (remote : Remote)
  : Completion Response.t * Remote :=
  match remote with
  | [] => (Threw (ErrorObject "fetch failed"), [])
  | response :: rest => (Returned response, rest)
  end.

Fixpoint JSON_parse_table (table : list (string * JsValue)) (text : string)
  : Completion JsValue :=
  match table with
  | [] => Threw (ErrorObject "Unexpected token in JSON")
  | (known, value) :: rest =>
      if String.eqb known text then Returned value
      else JSON_parse_table rest text
  end.

Definition q (s : string) : string :=
  String Js.DQUOTE (s ++ Js.str1 Js.DQUOTE).

(** The body [{"id":"abc123","email":"a@b.com"}] and its value. *)
Definition member_text : string :=
  "{" ++ q "id" ++ ":" ++ q "abc123" ++ "," ++ q "email" ++ ":" ++ q "a@b.com" ++ "}".

Definition member_value : JsValue :=
  JObj [("id", JStr "abc123"); ("email", JStr "a@b.com")].

Definition JSON_parse : string -> Completion JsValue :=
  JSON_parse_table [(member_text, member_value)].

Definition apiKey : string := "test-key".

Definition start (script : Remote) : Store Remote :=
  {| world := script; sent := [] |}.

(** Responses of the scenarios. *)
Definition member_found : Response.t := http_response 200 member_text.

Definition no_content : Response.t := http_response 204 EmptyString.

Definition not_found : Response.t := http_response 404 "not found".

Definition malformed : Response.t := http_response 200 "<html>".

(** [member_value] as [JSON.stringify(value, null, 2)] prints it. *)
Definition member_pretty : string :=
  "{" ++ Js.str1 Js.LF
      ++ "  " ++ q "id" ++ ": " ++ q "abc123" ++ "," ++ Js.str1 Js.LF
      ++ "  " ++ q "email" ++ ": " ++ q "a@b.com" ++ Js.str1 Js.LF
      ++ "}".

Definition headers : list (string * string) :=
  [("Content-Type", "application/json"); ("X-API-Key", apiKey)].

End Simulated.

(* ================================================================== *)
(** * The operation each tool is bound to *)
(* ================================================================== *)

(** One segment of a path template: literal text, or the argument field
    that the template literal substitutes. *)
Inductive Segment : Type :=
| Lit (text : string)
| Param (key : string).

(** What the client method is given as request body: nothing, the whole
    argument map ([args as any]), the rest of a destructuring
    ([const { key, ...data } = args]), or an object literal of fields read
    from the arguments ([{ courseIds }]). *)
Inductive BodyShape : Type :=
| NoBody
| WholeArguments
| RestWithout (key : string)
| BodyFields (keys : list string).

(** What the client method is given as query parameters: nothing, the whole
    argument map, or an object literal of fields read from the arguments. *)
Inductive QueryShape : Type :=
| NoQuery
| QueryArguments
| QueryFields (keys : list string).

Record Route : Type :=
  mkRoute
    { route_method : string;
      route_template : list Segment;
      route_body : BodyShape;
      route_query : QueryShape }.

(** The path a template gives for an argument object, when the arguments
    it substitutes can be converted to strings. *)
Fixpoint path_of (template : list Segment) (o : Obj) : string :=
  let text (seg : Segment) :=
    match seg with
    | Lit s => s
    | Param key => Js.text_of (Js.get o key)
    end in
  match template with
  | [] => EmptyString
  | [seg] => text seg
  | seg :: rest => text seg ++ path_of rest o
  end.

(** The object literal [{ k1, k2, ... }] of fields read from [o]. *)
Definition pick (keys : list string) (o : Obj) : Obj :=
  map (fun key => (key, Js.get o key)) keys.

Definition body_of (shape : BodyShape) (o : Obj) : JsValue :=
  match shape with
  | NoBody => JUndefined
  | WholeArguments => JObj o
  | RestWithout key => JObj (Js.rest_without key o)
  | BodyFields keys => JObj (pick keys o)
  end.

Definition query_of (shape : QueryShape) (o : Obj) : option Obj :=
  match shape with
  | NoQuery => None
  | QueryArguments => Some o
  | QueryFields keys => Some (pick keys o)
  end.

(** The argument fields a route reads by name. *)
Definition path_params (r : Route) : list string :=
  flat_map (fun seg => match seg with Lit _ => [] | Param key => [key] end)
           (route_template r).

(** The template literal of the route does not throw for [o]. *)
Definition path_convertible (r : Route) (o : Obj) : bool :=
  forallb (fun key => Js.convertible (Js.get o key)) (path_params r).

(** Neither the template literal nor the loop over the query parameters
    throws for [o]: no argument substituted into the path and no query
    parameter is an object with a [toString] key of its own, or an array
    that holds one. *)
Definition arguments_convertible (r : Route) (o : Obj) : bool :=
  path_convertible r o && query_convertible (query_of (route_query r) o).

Definition fields_read (r : Route) : list string :=
  (path_params r
     ++ match route_body r with
        | RestWithout key => [key]
        | BodyFields keys => keys
        | _ => []
        end
     ++ match route_query r with
        | QueryFields keys => keys
        | _ => []
        end)%list.

(** A route that reads a field cannot do without an argument object. *)
Definition needs_arguments (r : Route) : bool :=
  match fields_read r with
  | [] => false
  | _ => true
  end.

(** The template starts with literal text that starts with a slash. *)
Definition rooted (r : Route) : bool :=
  match route_template r with
  | Lit (String "/" _) :: _ => true
  | _ => false
  end.

(** The method and the template as one line, [GET /members/{memberId}]. *)
Definition endpoint (r : Route) : string :=
  route_method r ++ " "
    ++ String.concat EmptyString
         (map (fun seg => match seg with
                          | Lit s => s
                          | Param key => "{" ++ key ++ "}"
                          end)
              (route_template r)).

(** The routes of the tools, read off the arms of [handleToolCall] and the
    client methods they call, in the order of the [switch]. *)
Definition routes : list (string * Route) :=
  [
    ("learningsuite_check_auth",
     mkRoute "GET" [Lit "/auth"]
             NoBody NoQuery);
    ("learningsuite_list_members",
     mkRoute "GET" [Lit "/members"]
             NoBody QueryArguments);
    ("learningsuite_create_member",
     mkRoute "POST" [Lit "/members"]
             WholeArguments NoQuery);
    ("learningsuite_get_member",
     mkRoute "GET" [Lit "/members/"; Param "memberId"]
             NoBody (QueryFields ["includeGroups"]));
    ("learningsuite_get_member_by_email",
     mkRoute "GET" [Lit "/members/by-email"]
             NoBody (QueryFields ["email"; "includeGroups"]));
    ("learningsuite_update_member",
     mkRoute "PUT" [Lit "/members/"; Param "memberId"]
             (RestWithout "memberId") NoQuery);
    ("learningsuite_delete_member",
     mkRoute "DELETE" [Lit "/members/"; Param "memberId"]
             NoBody NoQuery);
    ("learningsuite_get_member_courses",
     mkRoute "GET" [Lit "/members/"; Param "memberId"; Lit "/courses"]
             NoBody QueryArguments);
    ("learningsuite_add_member_to_courses",
     mkRoute "PUT" [Lit "/members/"; Param "memberId"; Lit "/courses"]
             WholeArguments NoQuery);
    ("learningsuite_remove_member_from_courses",
     mkRoute "DELETE" [Lit "/members/"; Param "memberId"; Lit "/courses"]
             (BodyFields ["courseIds"]) NoQuery);
    ("learningsuite_get_member_course_info",
     mkRoute "GET"
             [Lit "/members/"; Param "memberId";
              Lit "/course-info/"; Param "courseId"]
             NoBody (QueryFields ["dateForAccessCheck"]));
    ("learningsuite_get_member_bundles",
     mkRoute "GET" [Lit "/members/"; Param "memberId"; Lit "/bundles"]
             NoBody NoQuery);
    ("learningsuite_add_member_to_bundles",
     mkRoute "PUT" [Lit "/members/"; Param "memberId"; Lit "/bundles"]
             WholeArguments NoQuery);
    ("learningsuite_remove_member_from_bundles",
     mkRoute "DELETE" [Lit "/members/"; Param "memberId"; Lit "/bundles"]
             (BodyFields ["bundleIds"]) NoQuery);
    ("learningsuite_list_team_members",
     mkRoute "GET" [Lit "/team-members"]
             NoBody QueryArguments);
    ("learningsuite_get_team_member",
     mkRoute "GET" [Lit "/team-members/"; Param "userId"]
             NoBody NoQuery);
    ("learningsuite_get_team_member_by_email",
     mkRoute "GET" [Lit "/team-members/by-email"]
             NoBody (QueryFields ["email"]));
    ("learningsuite_list_groups",
     mkRoute "GET" [Lit "/groups"]
             NoBody QueryArguments);
    ("learningsuite_create_group",
     mkRoute "POST" [Lit "/groups"]
             WholeArguments NoQuery);
    ("learningsuite_find_groups_by_name",
     mkRoute "GET" [Lit "/groups/find-by-name"]
             NoBody (QueryFields ["name"]));
    ("learningsuite_delete_group",
     mkRoute "DELETE" [Lit "/group/"; Param "groupId"]
             NoBody NoQuery);
    ("learningsuite_get_group_courses",
     mkRoute "GET" [Lit "/group/"; Param "groupId"; Lit "/courses"]
             NoBody NoQuery);
    ("learningsuite_add_courses_to_group",
     mkRoute "PUT" [Lit "/group/"; Param "groupId"; Lit "/courses"]
             (BodyFields ["courseIds"]) NoQuery);
    ("learningsuite_remove_courses_from_group",
     mkRoute "DELETE" [Lit "/group/"; Param "groupId"; Lit "/courses"]
             (BodyFields ["courseIds"]) NoQuery);
    ("learningsuite_add_bundles_to_group",
     mkRoute "PUT" [Lit "/group/"; Param "groupId"; Lit "/bundles"]
             (BodyFields ["bundleIds"]) NoQuery);
    ("learningsuite_add_members_to_groups",
     mkRoute "PUT" [Lit "/add-members-to-groups"]
             WholeArguments NoQuery);
    ("learningsuite_remove_members_from_groups",
     mkRoute "DELETE" [Lit "/remove-members-from-groups"]
             WholeArguments NoQuery);
    ("learningsuite_list_published_courses",
     mkRoute "GET" [Lit "/courses/published"]
             NoBody NoQuery);
    ("learningsuite_get_course_modules",
     mkRoute "GET" [Lit "/courses/"; Param "courseId"; Lit "/modules"]
             NoBody NoQuery);
    ("learningsuite_get_course_modules_for_member",
     mkRoute "GET"
             [Lit "/courses/"; Param "courseId";
              Lit "/modules/"; Param "memberId"]
             NoBody NoQuery);
    ("learningsuite_get_course_members",
     mkRoute "GET" [Lit "/courses/"; Param "courseId"; Lit "/members"]
             NoBody QueryArguments);
    ("learningsuite_get_course_access_requests",
     mkRoute "GET" [Lit "/courses/"; Param "courseId"; Lit "/access-requests"]
             NoBody QueryArguments);
    ("learningsuite_get_course_submissions",
     mkRoute "GET" [Lit "/courses/"; Param "courseId"; Lit "/submissions"]
             NoBody QueryArguments);
    ("learningsuite_create_lesson",
     mkRoute "POST"
             [Lit "/courses/"; Param "courseId";
              Lit "/create-lesson/"; Param "sectionId"]
             WholeArguments NoQuery);
    ("learningsuite_get_module_sections",
     mkRoute "GET" [Lit "/modules/"; Param "moduleId"; Lit "/sections"]
             NoBody NoQuery);
    ("learningsuite_get_module_lessons",
     mkRoute "GET" [Lit "/modules/"; Param "moduleId"; Lit "/lessons"]
             NoBody NoQuery);
    ("learningsuite_create_module_unlock_override",
     mkRoute "POST" [Lit "/create-module-unlock-override"]
             WholeArguments NoQuery);
    ("learningsuite_list_bundles",
     mkRoute "GET" [Lit "/bundles"]
             NoBody NoQuery);
    ("learningsuite_get_bundle_members",
     mkRoute "GET" [Lit "/bundle/"; Param "bundleId"; Lit "/members"]
             NoBody QueryArguments);
    ("learningsuite_list_hubs",
     mkRoute "GET" [Lit "/hubs"]
             NoBody NoQuery);
    ("learningsuite_create_hub",
     mkRoute "POST" [Lit "/hub"]
             WholeArguments NoQuery);
    ("learningsuite_list_hub_templates",
     mkRoute "GET" [Lit "/hub-templates"]
             NoBody NoQuery);
    ("learningsuite_get_hub_template_variables",
     mkRoute "GET"
             [Lit "/hub-template/"; Param "hubTemplateId";
              Lit "/variables"]
             NoBody NoQuery);
    ("learningsuite_add_hub_accesses",
     mkRoute "PUT" [Lit "/hub/"; Param "hubId"; Lit "/access"]
             WholeArguments NoQuery);
    ("learningsuite_remove_hub_accesses",
     mkRoute "DELETE" [Lit "/hub/"; Param "hubId"; Lit "/access"]
             WholeArguments NoQuery);
    ("learningsuite_list_community_areas",
     mkRoute "GET" [Lit "/community/areas"]
             NoBody NoQuery);
    ("learningsuite_list_community_forums",
     mkRoute "GET" [Lit "/community/forums"]
             NoBody QueryArguments);
    ("learningsuite_list_community_posts",
     mkRoute "GET" [Lit "/community/posts"]
             NoBody QueryArguments);
    ("learningsuite_comment_on_post",
     mkRoute "POST" [Lit "/community/posts/"; Param "postId"; Lit "/comments"]
             WholeArguments NoQuery);
    ("learningsuite_list_community_badges",
     mkRoute "GET" [Lit "/community/badges"]
             NoBody NoQuery);
    ("learningsuite_assign_badges_to_user",
     mkRoute "PUT" [Lit "/community/badges/user"]
             WholeArguments NoQuery);
    ("learningsuite_remove_badges_from_user",
     mkRoute "DELETE" [Lit "/community/badges/user"]
             WholeArguments NoQuery);
    ("learningsuite_list_popups",
     mkRoute "GET" [Lit "/popups"]
             NoBody QueryArguments);
    ("learningsuite_get_popup",
     mkRoute "GET" [Lit "/popups/"; Param "popupId"]
             NoBody NoQuery);
    ("learningsuite_trigger_popup",
     mkRoute "POST"
             [Lit "/popups/"; Param "popupId";
              Lit "/trigger/"; Param "memberId"]
             NoBody NoQuery);
    ("learningsuite_remove_popup_trigger",
     mkRoute "DELETE"
             [Lit "/popups/"; Param "popupId";
              Lit "/trigger/"; Param "memberId"]
             NoBody NoQuery);
    ("learningsuite_send_push_notifications",
     mkRoute "POST" [Lit "/user/push-notifications/send"]
             WholeArguments NoQuery);
    ("learningsuite_list_roles",
     mkRoute "GET" [Lit "/user/roles"]
             NoBody NoQuery);
    ("learningsuite_list_webhook_subscriptions",
     mkRoute "GET" [Lit "/webhooks/subscription"]
             NoBody NoQuery);
    ("learningsuite_create_webhook_subscription",
     mkRoute "POST" [Lit "/webhooks/subscription"]
             WholeArguments NoQuery);
    ("learningsuite_get_webhook_subscription",
     mkRoute "GET" [Lit "/webhooks/subscription/"; Param "subscriptionId"]
             NoBody NoQuery);
    ("learningsuite_update_webhook_subscription",
     mkRoute "PUT" [Lit "/webhooks/subscription/"; Param "subscriptionId"]
             (RestWithout "subscriptionId") NoQuery);
    ("learningsuite_delete_webhook_subscription",
     mkRoute "DELETE" [Lit "/webhooks/subscription/"; Param "subscriptionId"]
             NoBody NoQuery);
    ("learningsuite_get_webhook_sample_data",
     mkRoute "GET" [Lit "/webhooks/sample-data/"; Param "eventType"]
             NoBody NoQuery)
  ].

Definition route_of (name : string) : option Route := switch_case name routes.

(** The routes use the four methods and rooted templates; a route with a
    body has a method for which the client attaches one. *)
Definition route_ok (r : Route) : bool :=
  existsb (String.eqb (route_method r)) ["GET"; "POST"; "PUT"; "DELETE"]
  && rooted r
  && match route_body r with
     | NoBody => true
     | _ => mutating (route_method r)
     end.

(** What every request of the client looks like: its URL is the base URL
    followed by a path that starts with a slash, its method is one of the
    four, and it has the two headers.  This reads the URL as a string: the
    arguments are spliced into the path as they are, and what [fetch] makes
    of dot segments in them is outside the model. *)
Definition well_addressed (apiKey : string) (req : Request.t) : Prop :=
  (exists rest, Request.url req = BASE_URL ++ String "/" rest)
  /\ In (Request.method req) ["GET"; "POST"; "PUT"; "DELETE"]
  /\ Request.headers req
     = [("Content-Type", "application/json"); ("X-API-Key", apiKey)].

(* ================================================================== *)
(** * The catalog read as data *)
(* ================================================================== *)

(** The strings of an array of strings. *)
Fixpoint strings_of (values : list JsValue) : option (list string) :=
  match values with
  | [] => Some []
  | JStr s :: rest => option_map (cons s) (strings_of rest)
  | _ => None
  end.

(** The properties and the required names of an input schema of the form
    [{type: 'object', properties: {...}, required: [...]}]. *)
Definition schema_parts (schema : JsValue) : option (Obj * list string) :=
  match schema with
  | JObj [(k1, JStr t); (k2, JObj properties); (k3, JArr required)] =>
      if String.eqb k1 "type" && String.eqb t "object"
         && String.eqb k2 "properties" && String.eqb k3 "required"
      then option_map (pair properties) (strings_of required)
      else None
  | _ => None
  end.

(** The [type] a property schema declares. *)
Definition declared_type (schema : JsValue) : option string :=
  match schema with
  | JObj entries =>
      match Js.get entries "type" with
      | JStr t => Some t
      | _ => None
      end
  | _ => None
  end.

Definition property_types : list string :=
  ["string"; "number"; "boolean"; "array"; "object"].

Definition subset (xs ys : list string) : bool :=
  forallb (fun x => existsb (String.eqb x) ys) xs.

(** The route passes the whole argument map on, as body or as query
    parameters (a rest object passes on all but its key). *)
Definition passes_all (r : Route) : bool :=
  match route_body r, route_query r with
  | WholeArguments, _ | RestWithout _, _ | _, QueryArguments => true
  | _, _ => false
  end.

Definition descriptor_ok (tool : Tool.t) : bool :=
  String.prefix "learningsuite_" (Tool.name tool)
  && match schema_parts (Tool.inputSchema tool) with
     | Some (properties, required) =>
         subset required (map fst properties)
         && distinct (map fst properties)
         && forallb
              (fun kv =>
                 match declared_type (snd kv) with
                 | Some t => existsb (String.eqb t) property_types
                 | None => false
                 end)
              properties
     | None => false
     end.

Definition descriptor_agrees (tool : Tool.t) : bool :=
  match route_of (Tool.name tool), schema_parts (Tool.inputSchema tool) with
  | Some r, Some (properties, required) =>
      subset (fields_read r) (map fst properties)
      && subset (path_params r) required
      && (passes_all r || subset (map fst properties) (fields_read r))
  | _, _ => false
  end.

(* ================================================================== *)
(** * index.ts: the start of the process *)
(* ================================================================== *)

(** A line written by [console.error]: its text, and the value logged after
    it if there is one. *)
Inductive ConsoleLine : Type :=
| Line (text : string)
| LineWith (text : string) (value : Thrown).

(** How the module ends up: the process has exited with a code, or it is
    serving with the two handlers registered.  [stderr] holds what was
    written to the standard error stream. *)
Inductive Process (World : Type) : Type :=
| Exited (code : Z) (stderr : list ConsoleLine)
| Serving (stderr : list ConsoleLine)
          (onListTools : M World ListToolsResult.t)
          (onCallTool : string -> option Obj -> M World CallToolResult.t).
Arguments Exited {World} code stderr.
Arguments Serving {World} stderr onListTools onCallTool.

(** The top level of the module: the key is read from the environment and
    the process exits with code 1 when it is missing or empty; otherwise the
    client is made with the key, the handlers are registered and [main]
    connects the transport ([connect] is what [server.connect] comes to),
    exiting with code 1 if that fails.  The constructors of the protocol
    SDK are taken to succeed.  [API_KEY] is a string or [undefined], and
    [!API_KEY] is its not being truthy. *)
Definition startup {World : Type}
           (fetch : Request.t -> World -> Completion Response.t * World)
           (JSON_parse : string -> Completion JsValue)
           (env : string -> option string) (connect : Completion unit)
  : Process World :=
  let API_KEY := env "LEARNINGSUITE_API_KEY" in
  let missing :=
    Exited 1
      [Line "Error: LEARNINGSUITE_API_KEY environment variable is required"] in
  match API_KEY with
  | None => missing
  | Some apiKey =>
      if negb (Js.truthy (JStr apiKey)) then missing
      else
        match connect with
        | Returned _ =>
            Serving [Line "LearningSuite MCP Server running on stdio"]
                    (@ListTools World)
                    (CallTool fetch JSON_parse apiKey)
        | Threw error => Exited 1 [LineWith "Fatal error:" error]
        end
  end.

(* ================================================================== *)
(** * Properties: strings and the query string *)
(* ================================================================== *)

Unset Implicit Arguments.

Lemma append_assoc (a b c : string) : (a ++ b) ++ c = a ++ b ++ c.
Proof. induction a as [| x a IH]; simpl; [reflexivity | now rewrite IH]. Qed.

Lemma append_nil_r (a : string) : a ++ EmptyString = a.
Proof. induction a as [| x a IH]; simpl; [reflexivity | now rewrite IH]. Qed.

Lemma is_empty_append (a b : string) :
  Js.is_empty (a ++ b) = Js.is_empty a && Js.is_empty b.
Proof. destruct a; reflexivity. Qed.

Lemma Contains_intro (before needle after : string) :
  Contains needle (before ++ needle ++ after).
Proof. exists before, after. reflexivity. Qed.

Lemma Contains_suffix (before needle : string) :
  Contains needle (before ++ needle).
Proof. exists before, EmptyString. now rewrite append_nil_r. Qed.

Lemma all_chars_append (p : ascii -> bool) (a b : string) :
  all_chars p (a ++ b) = all_chars p a && all_chars p b.
Proof.
  induction a as [| x a IH]; simpl; [reflexivity |].
  now rewrite IH, andb_assoc.
Qed.

Lemma all_chars_weaken (p r : ascii -> bool) (s : string) :
  (forall c, p c = true -> r c = true) ->
  all_chars p s = true -> all_chars r s = true.
Proof.
  intros Hpr. induction s as [| x s IH]; simpl; [reflexivity |].
  intros H. apply andb_true_iff in H as [Hx Hs].
  now rewrite (Hpr _ Hx), IH.
Qed.

(** ** Percent-encoding round trip *)

Lemma urlencode_byte_emitted (c : ascii) :
  all_chars emitted (Js.urlencode_byte c) = true.
Proof.
  destruct c as [[] [] [] [] [] [] [] []]; vm_compute; reflexivity.
Qed.

Lemma urldecode_urlencode_byte (c : ascii) (rest : string) :
  urldecode (Js.urlencode_byte c ++ rest) = String c (urldecode rest).
Proof.
  destruct c as [[] [] [] [] [] [] [] []]; reflexivity.
Qed.

Lemma urlencode_emitted (s : string) : all_chars emitted (Js.urlencode s) = true.
Proof.
  induction s as [| c s IH]; simpl; [reflexivity |].
  now rewrite all_chars_append, urlencode_byte_emitted, IH.
Qed.

Lemma urldecode_urlencode (s : string) : urldecode (Js.urlencode s) = s.
Proof.
  induction s as [| c s IH]; simpl; [reflexivity |].
  now rewrite urldecode_urlencode_byte, IH.
Qed.

Lemma emitted_differs (sep : ascii) (c : ascii) :
  emitted sep = false -> emitted c = true -> differs_from sep c = true.
Proof.
  intros Hsep Hc. unfold differs_from.
  destruct (Ascii.eqb_spec c sep) as [-> | _]; [congruence | reflexivity].
Qed.

Lemma urlencode_avoids (sep : ascii) (s : string) :
  emitted sep = false -> all_chars (differs_from sep) (Js.urlencode s) = true.
Proof.
  intros Hsep. apply all_chars_weaken with (p := emitted).
  - intros c. now apply emitted_differs.
  - apply urlencode_emitted.
Qed.

(** ** Splitting *)

Lemma split_pair_append (name value : string) :
  all_chars (differs_from "=") name = true ->
  split_pair (name ++ String "=" value) = (name, value).
Proof.
  induction name as [| c name IH]; simpl; [reflexivity |].
  intros H. apply andb_true_iff in H as [Hc Hn].
  unfold differs_from in Hc. apply negb_true_iff in Hc. rewrite Hc.
  now rewrite IH.
Qed.

Lemma split_on_piece (sep : ascii) (piece : string) :
  all_chars (differs_from sep) piece = true ->
  split_on sep piece = [piece].
Proof.
  induction piece as [| c piece IH]; simpl; [reflexivity |].
  intros H. apply andb_true_iff in H as [Hc Hp].
  unfold differs_from in Hc. apply negb_true_iff in Hc. rewrite Hc.
  now rewrite IH.
Qed.

Lemma split_on_append (sep : ascii) (piece rest : string) :
  all_chars (differs_from sep) piece = true ->
  split_on sep (piece ++ String sep rest) = piece :: split_on sep rest.
Proof.
  induction piece as [| c piece IH]; simpl.
  - intros _. now rewrite Ascii.eqb_refl.
  - intros H. apply andb_true_iff in H as [Hc Hp].
    unfold differs_from in Hc. apply negb_true_iff in Hc. rewrite Hc.
    now rewrite IH.
Qed.

Lemma split_on_join (sep : ascii) (pieces : list string) :
  pieces <> [] ->
  Forall (fun piece => all_chars (differs_from sep) piece = true) pieces ->
  split_on sep (Js.join (Js.str1 sep) pieces) = pieces.
Proof.
  intros Hne Hall. induction Hall as [| piece rest Hp Hrest IH]; [contradiction |].
  destruct rest as [| piece' rest'].
  - simpl. now apply split_on_piece.
  - change (Js.join (Js.str1 sep) (piece :: piece' :: rest'))
      with (piece ++ String sep (Js.join (Js.str1 sep) (piece' :: rest'))).
    rewrite split_on_append by assumption.
    now rewrite IH by discriminate.
Qed.

(** ** The query string read back *)

Lemma serialized_pair_no_amp (nv : string * string) :
  all_chars (differs_from "&") (serialized_pair nv) = true.
Proof.
  unfold serialized_pair.
  rewrite !all_chars_append, !urlencode_avoids by reflexivity. reflexivity.
Qed.

Lemma serialized_pair_nonempty (nv : string * string) :
  Js.is_empty (serialized_pair nv) = false.
Proof.
  unfold serialized_pair. rewrite !is_empty_append. simpl.
  now rewrite andb_false_r.
Qed.

Lemma parse_serialized_pair (nv : string * string) :
  (let (name, value) := split_pair (serialized_pair nv) in
   (urldecode name, urldecode value)) = nv.
Proof.
  unfold serialized_pair.
  change ("=" ++ Js.urlencode (snd nv)) with (String "=" (Js.urlencode (snd nv))).
  rewrite split_pair_append by (now apply urlencode_avoids).
  rewrite !urldecode_urlencode. now destruct nv.
Qed.

Lemma parse_query_toString (params : Js.URLSearchParams) :
  parse_query (Js.URLSearchParams_toString params) = params.
Proof.
  unfold parse_query, Js.URLSearchParams_toString.
  fold serialized_pair.
  change (fun nv : string * string => Js.urlencode (fst nv) ++ "=" ++ Js.urlencode (snd nv))
    with serialized_pair.
  destruct params as [| nv params]; [reflexivity |].
  change "&" with (Js.str1 "&").
  rewrite split_on_join.
  - induction (nv :: params) as [| x l IH]; [reflexivity |].
    simpl map at 2. simpl filter. rewrite serialized_pair_nonempty. simpl negb. cbv iota.
    simpl map. rewrite parse_serialized_pair. f_equal. exact IH.
  - discriminate.
  - apply Forall_forall. intros piece Hin. apply in_map_iff in Hin as [x [<- _]].
    apply serialized_pair_no_amp.
Qed.

(* ================================================================== *)
(** * Properties: the transport client *)
(* ================================================================== *)

Lemma toString_is_empty (params : Js.URLSearchParams) :
  Js.is_empty (Js.URLSearchParams_toString params)
  = match params with [] => true | _ => false end.
Proof.
  destruct params as [| nv [| nv' rest]]; [reflexivity | |].
  - apply serialized_pair_nonempty.
  - unfold Js.URLSearchParams_toString.
    change (map _ (nv :: nv' :: rest))
      with (serialized_pair nv :: map serialized_pair (nv' :: rest)).
    change (Js.join "&" (serialized_pair nv :: map serialized_pair (nv' :: rest)))
      with (serialized_pair nv ++ "&" ++ Js.join "&" (map serialized_pair (nv' :: rest))).
    rewrite is_empty_append.
    now rewrite (serialized_pair_nonempty nv).
Qed.

Lemma convertible_ToString (v : JsValue) :
  Js.convertible v = true -> Js.ToString v = Some (Js.text_of v).
Proof.
  unfold Js.convertible, Js.text_of.
  destruct (Js.ToString v); [reflexivity | discriminate].
Qed.

Lemma ToString_convertible (v : JsValue) (text : string) :
  Js.ToString v = Some text -> Js.convertible v = true /\ Js.text_of v = text.
Proof.
  unfold Js.convertible, Js.text_of. intros ->. now split.
Qed.

Lemma not_convertible_ToString (v : JsValue) :
  Js.convertible v = false -> Js.ToString v = None.
Proof.
  unfold Js.convertible. destruct (Js.ToString v); [discriminate | reflexivity].
Qed.

Lemma values_convertible_get (o : Obj) (key : string) :
  values_convertible o = true -> Js.convertible (Js.get o key) = true.
Proof.
  induction o as [| [k v] rest IH]; simpl; [reflexivity |].
  intros H. apply andb_true_iff in H as [Hv Hrest].
  destruct (String.eqb k key); auto.
Qed.

Section Transport.

Context {World : Type}.
Variable fetch : Request.t -> World -> Completion Response.t * World.
Variable JSON_parse : string -> Completion JsValue.
Variable apiKey : string.

(** The loop over the query parameters appends the defined entries, or
    throws at the first value that cannot be converted; it leaves the store
    as it is. *)
Lemma query_loop (queryParams : Obj) (acc : Js.URLSearchParams)
      (st : Store World) :
  for_of queryParams
         (fun params kv =>
            let '(key, value) := kv in
            if Js.is_defined value
            then bind (String_ value)
                      (fun text => ret (Js.URLSearchParams_append params key text))
            else ret params)
         acc st
  = if values_convertible queryParams
    then (Returned (acc ++ defined_entries queryParams)%list, st)
    else (Threw TypeError_primitive, st).
Proof.
  set (body := fun (params : Js.URLSearchParams) (kv : string * JsValue) => _).
  revert acc. induction queryParams as [| [key value] rest IH]; intros acc.
  - simpl. now rewrite app_nil_r.
  - cbn [for_of values_convertible forallb snd]. unfold bind at 1.
    assert (Hstep :
              body acc (key, value) st
              = if Js.is_defined value then
                  match Js.ToString value with
                  | Some text =>
                      (Returned (Js.URLSearchParams_append acc key text), st)
                  | None => (Threw TypeError_primitive, st)
                  end
                else (Returned acc, st)).
    { unfold body. destruct (Js.is_defined value); [| reflexivity].
      unfold String_. destruct (Js.ToString value); reflexivity. }
    rewrite Hstep. clear Hstep.
    unfold defined_entries. cbn [filter snd].
    destruct (Js.is_defined value) eqn:Hdefined.
    + unfold Js.convertible, Js.text_of. cbn [map fst snd].
      destruct (Js.ToString value) as [text |]; [| reflexivity].
      rewrite IH. cbn [andb].
      unfold Js.URLSearchParams_append, defined_entries.
      now rewrite <- app_assoc.
    + rewrite IH. destruct value; try discriminate. reflexivity.
Qed.

(** [request] throws the [TypeError] of the conversion, before anything is
    sent, when a query parameter cannot be converted; otherwise it hands
    [outgoing] to [fetch], once, and turns the answer into its outcome by
    [outcome_of]. *)
Lemma request_spec (method path : string) (body : JsValue)
      (queryParams : option Obj) (st : Store World) :
  request fetch JSON_parse apiKey method path body queryParams st
  = if query_convertible queryParams then
      let req := outgoing apiKey method path body queryParams in
      let st' := {| world := snd (fetch req (world st));
                    sent := (sent st ++ [req])%list |} in
      match fst (fetch req (world st)) with
      | Returned response => (outcome_of JSON_parse response, st')
      | Threw e => (Threw e, st')
      end
    else (Threw TypeError_primitive, st).
Proof.
  unfold request. unfold bind at 1.
  assert (Hurl :
            match queryParams with
            | Some queryParams0 =>
                bind (for_of (Js.Object_entries queryParams0)
                        (fun params kv =>
                           let '(key, value) := kv in
                           if Js.is_defined value
                           then bind (String_ value)
                                  (fun text =>
                                     ret (Js.URLSearchParams_append params key text))
                           else ret params)
                        Js.URLSearchParams_new)
                     (fun params =>
                        ret (if Js.is_empty (Js.URLSearchParams_toString params)
                             then BASE_URL ++ path
                             else (BASE_URL ++ path) ++ "?"
                                    ++ Js.URLSearchParams_toString params))
            | None => ret (BASE_URL ++ path)
            end st
            = if query_convertible queryParams
              then (Returned (BASE_URL ++ path ++ query_suffix queryParams), st)
              else (Threw TypeError_primitive, st)).
  { destruct queryParams as [o |]; cbn [query_convertible query_suffix].
    - unfold bind at 1, Js.Object_entries, Js.URLSearchParams_new.
      rewrite query_loop. destruct (values_convertible o); [| reflexivity].
      cbn [app]. unfold ret. rewrite toString_is_empty.
      destruct (defined_entries o); [now rewrite !append_nil_r |].
      now rewrite append_assoc.
    - unfold ret. now rewrite append_nil_r. }
  cbv zeta. cbv zeta in Hurl. rewrite Hurl. clear Hurl.
  destruct (query_convertible queryParams); [| reflexivity].
  unfold bind, await_fetch, outgoing, mutating.
  destruct (fetch _ (world st)) as [[response | e] w]; simpl fst; simpl snd;
    [| reflexivity].
  unfold outcome_of.
  destruct (Response.ok response); simpl negb; cbv iota; [| reflexivity].
  destruct (Response.text response); reflexivity.
Qed.

End Transport.
(* ================================================================== *)
(** * Properties: the dispatcher *)
(* ================================================================== *)

Lemma switch_case_None {A : Type} (name : string) (cases : list (string * A)) :
  ~ In name (map fst cases) -> switch_case name cases = None.
Proof.
  induction cases as [| [label arm] rest IH]; simpl; [reflexivity |].
  intros H. destruct (String.eqb_spec name label) as [-> | _].
  - exfalso. apply H. now left.
  - apply IH. intros Hin. apply H. now right.
Qed.

Lemma switch_case_In {A : Type} (name : string) (cases : list (string * A))
      (arm : A) :
  switch_case name cases = Some arm -> In (name, arm) cases.
Proof.
  induction cases as [| [label arm'] rest IH]; simpl; [discriminate |].
  destruct (String.eqb_spec name label) as [-> | _].
  - intros [= ->]. now left.
  - intros H. right. now apply IH.
Qed.

Lemma switch_case_Some {A : Type} (name : string) (cases : list (string * A)) :
  In name (map fst cases) -> exists arm, switch_case name cases = Some arm.
Proof.
  induction cases as [| [label arm] rest IH]; simpl; [contradiction |].
  intros H. destruct (String.eqb_spec name label) as [-> | Hne].
  - now exists arm.
  - destruct H as [H | H]; [congruence | now apply IH].
Qed.

Lemma switch_case_Forall2 {A B : Type} (R : string * A -> string * B -> Prop)
      (name : string) (xs : list (string * A)) (ys : list (string * B)) :
  Forall2 (fun x y => fst x = fst y /\ R x y) xs ys ->
  match switch_case name xs, switch_case name ys with
  | Some a, Some b => R (name, a) (name, b)
  | None, None => True
  | _, _ => False
  end.
Proof.
  induction 1 as [| [label a] [label' b] xs ys [Hlabel HR] _ IH]; simpl;
    [exact I |].
  simpl in Hlabel. subst label'.
  destruct (String.eqb_spec name label) as [-> | _]; [exact HR | exact IH].
Qed.

Lemma distinct_NoDup (l : list string) : distinct l = true -> NoDup l.
Proof.
  induction l as [| x rest IH]; simpl; [constructor |].
  intros H. apply andb_true_iff in H as [Hx Hrest].
  constructor; [| now apply IH].
  intros Hin. apply negb_true_iff in Hx.
  assert (existsb (String.eqb x) rest = true) as Habs; [| congruence].
  apply existsb_exists. exists x. split; [assumption | apply String.eqb_refl].
Qed.


Lemma routes_names : map fst routes = tool_names.
Proof. reflexivity. Qed.

Lemma route_of_known (name : string) :
  In name tool_names -> exists r, route_of name = Some r.
Proof.
  intros H. rewrite <- routes_names in H.
  exact (switch_case_Some name routes H).
Qed.

Lemma route_of_In (name : string) (r : Route) :
  route_of name = Some r -> In name tool_names /\ In (name, r) routes.
Proof.
  intros H. apply switch_case_In in H. split; [| assumption].
  rewrite <- routes_names. now apply (in_map fst) in H.
Qed.

(** What [String] does to the arguments decides the case of an arm. *)
Ltac conversions o :=
  repeat match goal with
         | |- context [Js.ToString (Js.get o ?key)] =>
             destruct (Js.ToString (Js.get o key))
         end.

Section Dispatch.

Context {World : Type}.
Variable fetch : Request.t -> World -> Completion Response.t * World.
Variable JSON_parse : string -> Completion JsValue.
Variable apiKey : string.

(** The labels of the [switch] are the names of the catalog, in the same
    order. *)
Lemma case_labels :
  map fst (handleToolCall_cases fetch JSON_parse apiKey) = tool_names.
Proof. reflexivity. Qed.

(** Arm by arm: with an argument object, the arm converts the arguments its
    route substitutes into the path, throwing the [TypeError] of the
    conversion if one of them cannot be converted, and is then the call of
    [request] its route describes. *)
Lemma arms_follow_routes :
  Forall2
    (fun (c : string * (option Obj -> M World JsValue)) (nr : string * Route) =>
       fst c = fst nr
       /\ forall o : Obj,
           snd c (Some o)
           = if path_convertible (snd nr) o
             then request fetch JSON_parse apiKey
                          (route_method (snd nr))
                          (path_of (route_template (snd nr)) o)
                          (body_of (route_body (snd nr)) o)
                          (query_of (route_query (snd nr)) o)
             else throw TypeError_primitive)
    (handleToolCall_cases fetch JSON_parse apiKey) routes.
Proof.
  unfold handleToolCall_cases, routes.
  repeat (apply Forall2_cons;
          [split; [reflexivity |];
           intros o;
           cbv -[request Js.ToString Js.get String.append Js.rest_without];
           conversions o; reflexivity |]).
  apply Forall2_nil.
Qed.

(** Arm by arm: with [undefined] for the arguments, an arm whose route reads
    a field throws the [TypeError], and any other arm is the call of
    [request] with the literal path, no body and no query parameters. *)
Lemma arms_follow_routes_undefined :
  Forall2
    (fun (c : string * (option Obj -> M World JsValue)) (nr : string * Route) =>
       fst c = fst nr
       /\ if needs_arguments (snd nr)
          then exists message,
              snd c None = throw (ErrorObject ("Cannot " ++ message))
          else snd c None
               = request fetch JSON_parse apiKey
                         (route_method (snd nr))
                         (path_of (route_template (snd nr)) [])
                         JUndefined None)
    (handleToolCall_cases fetch JSON_parse apiKey) routes.
Proof.
  unfold handleToolCall_cases, routes.
  repeat (apply Forall2_cons;
          [split; [reflexivity |];
           first [ reflexivity | cbv [needs_arguments]; eexists; reflexivity ] |]).
  apply Forall2_nil.
Qed.

End Dispatch.
Section Handlers.

Context {World : Type}.
Variable fetch : Request.t -> World -> Completion Response.t * World.
Variable JSON_parse : string -> Completion JsValue.
Variable apiKey : string.

Lemma handleToolCall_unknown (name : string) (args : option Obj) :
  ~ In name tool_names ->
  handleToolCall fetch JSON_parse apiKey name args
  = throw (ErrorObject ("Unknown tool: " ++ name)).
Proof.
  intros H. unfold handleToolCall.
  rewrite switch_case_None; [reflexivity |].
  now rewrite case_labels.
Qed.

Lemma handleToolCall_by_route (name : string) (r : Route) (o : Obj) :
  route_of name = Some r ->
  handleToolCall fetch JSON_parse apiKey name (Some o)
  = if path_convertible r o
    then request fetch JSON_parse apiKey (route_method r)
                 (path_of (route_template r) o)
                 (body_of (route_body r) o)
                 (query_of (route_query r) o)
    else throw TypeError_primitive.
Proof.
  intros Hr. unfold handleToolCall.
  pose proof (switch_case_Forall2 _ name _ _
                (arms_follow_routes fetch JSON_parse apiKey)) as H.
  unfold route_of in Hr. rewrite Hr in H.
  destruct (switch_case name (handleToolCall_cases _ _ _)) as [arm |];
    [| contradiction].
  exact (H o).
Qed.

Lemma handleToolCall_by_route_undefined (name : string) (r : Route) :
  route_of name = Some r ->
  if needs_arguments r
  then exists message,
      handleToolCall fetch JSON_parse apiKey name None
      = throw (ErrorObject ("Cannot " ++ message))
  else handleToolCall fetch JSON_parse apiKey name None
       = request fetch JSON_parse apiKey (route_method r)
                 (path_of (route_template r) []) JUndefined None.
Proof.
  intros Hr. unfold handleToolCall.
  pose proof (switch_case_Forall2 _ name _ _
                (arms_follow_routes_undefined fetch JSON_parse apiKey)) as H.
  unfold route_of in Hr. rewrite Hr in H.
  destruct (switch_case name (handleToolCall_cases _ _ _)) as [arm |];
    [| contradiction].
  exact H.
Qed.

(** A tool of the catalog called with an argument object: when an argument
    that goes into the path or into the query string cannot be converted to
    a string, the call throws the [TypeError] of the conversion and the
    store is as it was; otherwise the request of the route is handed to
    [fetch], once, and the answer decides the outcome. *)
Lemma handleToolCall_spec (name : string) (r : Route) (o : Obj)
      (st : Store World) :
  route_of name = Some r ->
  handleToolCall fetch JSON_parse apiKey name (Some o) st
  = if arguments_convertible r o then
      let req := outgoing apiKey (route_method r)
                          (path_of (route_template r) o)
                          (body_of (route_body r) o)
                          (query_of (route_query r) o) in
      let st' := {| world := snd (fetch req (world st));
                    sent := (sent st ++ [req])%list |} in
      match fst (fetch req (world st)) with
      | Returned response => (outcome_of JSON_parse response, st')
      | Threw e => (Threw e, st')
      end
    else (Threw TypeError_primitive, st).
Proof.
  intros Hr. rewrite (handleToolCall_by_route name r o Hr).
  unfold arguments_convertible.
  destruct (path_convertible r o); [| reflexivity].
  now rewrite request_spec.
Qed.



(** Whatever the name and the arguments, [handleToolCall] is one call of
    [request] or throws an [Error] before any request is made. *)
Lemma handleToolCall_shape (name : string) (args : option Obj) :
  (exists method path body queryParams,
      handleToolCall fetch JSON_parse apiKey name args
      = request fetch JSON_parse apiKey method path body queryParams)
  \/ (exists message,
         handleToolCall fetch JSON_parse apiKey name args
         = throw (ErrorObject message)).
Proof.
  destruct (route_of name) as [r |] eqn:Hr.
  - destruct args as [o |].
    + rewrite (handleToolCall_by_route name r o Hr).
      destruct (path_convertible r o);
        [left; now do 4 eexists | right; now eexists].
    + pose proof (handleToolCall_by_route_undefined name r Hr) as H.
      destruct (needs_arguments r);
        [destruct H as [message ->]; right; now eexists
        | left; rewrite H; now do 4 eexists].
  - right. eexists. apply handleToolCall_unknown.
    intros Hin. destruct (route_of_known name Hin) as [r Hr']. congruence.
Qed.

(** What a tool of the catalog can throw: a [TypeError] (of arguments that
    are [undefined], or of an argument that cannot be converted to a
    string), the "API Error" of the client, or what [fetch] or [JSON.parse]
    threw. *)
Lemma handleToolCall_throws (name : string) (args : option Obj)
      (st st' : Store World) (error : Thrown) :
  In name tool_names ->
  handleToolCall fetch JSON_parse apiKey name args st = (Threw error, st') ->
  (exists message, error = ErrorObject ("Cannot " ++ message))
  \/ (exists message, error = ErrorObject ("API Error " ++ message))
  \/ (exists req w, fst (fetch req w) = Threw error)
  \/ (exists text, JSON_parse text = Threw error).
Proof.
  intros Hin. destruct (route_of_known name Hin) as [r Hr].
  assert (Hrequest :
            forall method path body queryParams,
              request fetch JSON_parse apiKey method path body queryParams st
              = (Threw error, st') ->
              (exists message, error = ErrorObject ("Cannot " ++ message))
              \/ (exists message, error = ErrorObject ("API Error " ++ message))
              \/ (exists req w, fst (fetch req w) = Threw error)
              \/ (exists text, JSON_parse text = Threw error)).
  { intros method path body queryParams. rewrite request_spec.
    destruct (query_convertible queryParams);
      [| intros [= <- _]; left; now eexists].
    cbv zeta.
    destruct (fst (fetch _ (world st))) as [response | e] eqn:Hnet.
    - intros [= Hout _]. unfold outcome_of in Hout.
      destruct (Response.ok response).
      + right. right. right.
        destruct (Response.text response) as [| c text] eqn:Htext;
          [discriminate | now exists (String c text)].
      + right. left. injection Hout as <-. now eexists.
    - intros [= -> _]. right. right. left. now eauto. }
  destruct args as [o |].
  - rewrite (handleToolCall_by_route name r o Hr).
    destruct (path_convertible r o); [apply Hrequest |].
    intros [= <- _]. left. now eexists.
  - pose proof (handleToolCall_by_route_undefined name r Hr) as H.
    destruct (needs_arguments r).
    + destruct H as [message ->]. intros [= <- _]. left. now exists message.
    + rewrite H. apply Hrequest.
Qed.

(** The handler of [CallTool] turns a payload into the success envelope and
    a thrown value into the failure envelope of its message; when
    [String(error)] throws inside the [catch] block, the handler throws. *)
Lemma CallTool_spec (name : string) (args : option Obj) (st : Store World) :
  CallTool fetch JSON_parse apiKey name args st
  = match handleToolCall fetch JSON_parse apiKey name args st with
    | (Returned payload, st') => (Returned (success_envelope payload), st')
    | (Threw error, st') =>
        match reported_message error with
        | Some message => (Returned (failure_envelope message), st')
        | None => (Threw TypeError_primitive, st')
        end
    end.
Proof.
  unfold CallTool, try_catch, bind.
  destruct (handleToolCall _ _ _ _ _ st) as [[payload | error] st'];
    [reflexivity |].
  destruct error as [message | value]; [reflexivity |].
  unfold String_. cbn [reported_message].
  destruct (Js.ToString value); reflexivity.
Qed.

End Handlers.
(** ** Facts about the serialized entries *)

Lemma defined_entries_In (queryParams : Obj) (key : string) (value : JsValue) :
  In (key, value) queryParams -> value <> JUndefined ->
  In (key, Js.text_of value) (defined_entries queryParams).
Proof.
  intros Hin Hdef. unfold defined_entries.
  apply in_map_iff. exists (key, value). split; [reflexivity |].
  apply filter_In. split; [assumption |].
  destruct value; simpl; congruence.
Qed.

Lemma defined_entries_key (queryParams : Obj) (key : string) :
  In key (map fst (defined_entries queryParams)) ->
  exists value, In (key, value) queryParams /\ value <> JUndefined.
Proof.
  unfold defined_entries. rewrite map_map. simpl.
  intros Hin. apply in_map_iff in Hin as [[k v] [Hk Hin]].
  simpl in Hk. subst k. apply filter_In in Hin as [Hin Hdef].
  exists v. split; [assumption |]. intros ->. discriminate.
Qed.

Lemma unique_key_value (o : Obj) (key : string) (v w : JsValue) :
  NoDup (map fst o) -> In (key, v) o -> In (key, w) o -> v = w.
Proof.
  induction o as [| [k x] rest IH]; simpl; [contradiction |].
  intros Hnd Hv Hw. inversion Hnd as [| ? ? Hnotin Hrest]; subst.
  destruct Hv as [Hv | Hv], Hw as [Hw | Hw].
  - congruence.
  - exfalso. apply Hnotin. injection Hv as -> _. now apply (in_map fst) in Hw.
  - exfalso. apply Hnotin. injection Hw as -> _. now apply (in_map fst) in Hv.
  - now apply IH.
Qed.

Lemma defined_entries_omits (queryParams : Obj) (key : string) :
  NoDup (map fst queryParams) -> In (key, JUndefined) queryParams ->
  ~ In key (map fst (defined_entries queryParams)).
Proof.
  intros Hnd Hundef Hin.
  destruct (defined_entries_key _ _ Hin) as [value [Hvalue Hdef]].
  apply Hdef. exact (unique_key_value _ _ _ _ Hnd Hvalue Hundef).
Qed.

Lemma defined_entries_none (queryParams : Obj) :
  Forall (fun kv => snd kv = JUndefined) queryParams ->
  defined_entries queryParams = [].
Proof.
  unfold defined_entries.
  induction 1 as [| [k v] rest Hv Hrest IH]; [reflexivity |].
  simpl in Hv. subst v. exact IH.
Qed.

Lemma query_suffix_Some (queryParams : Obj) :
  query_suffix (Some queryParams)
  = let query := Js.URLSearchParams_toString (defined_entries queryParams) in
    if Js.is_empty query then EmptyString else "?" ++ query.
Proof.
  unfold query_suffix. cbv zeta. rewrite toString_is_empty.
  destruct (defined_entries queryParams); reflexivity.
Qed.

(** ** Numbers and booleans in a query string *)

Lemma uint_digits_safe (d : Decimal.uint) :
  all_chars Js.urlencoded_safe (NilEmpty.string_of_uint d) = true.
Proof. induction d; simpl; auto. Qed.

Lemma integer_text_safe (n : Z) :
  all_chars Js.urlencoded_safe (Js.integer_text n) = true.
Proof.
  unfold Js.integer_text.
  destruct (Z.to_int n); simpl; apply uint_digits_safe.
Qed.

Lemma urlencode_safe (s : string) :
  all_chars Js.urlencoded_safe s = true -> Js.urlencode s = s.
Proof.
  induction s as [| c s IH]; simpl; [reflexivity |].
  intros H. apply andb_true_iff in H as [Hc Hs].
  unfold Js.urlencode_byte. rewrite Hc. simpl. now rewrite IH.
Qed.

Lemma urlencode_integer (n : Z) :
  Js.urlencode (Js.integer_text n) = Js.integer_text n.
Proof. apply urlencode_safe, integer_text_safe. Qed.

(** ** Which arguments can be converted *)

Lemma values_convertible_pick (keys : list string) (o : Obj) :
  values_convertible o = true -> values_convertible (pick keys o) = true.
Proof.
  intros Ho. unfold values_convertible, pick. rewrite forallb_forall.
  intros kv Hin. apply in_map_iff in Hin as [key [<- _]].
  now apply values_convertible_get.
Qed.

(** When every value of the argument object can be converted, the
    arguments of every route can. *)
Lemma values_convertible_arguments (r : Route) (o : Obj) :
  values_convertible o = true -> arguments_convertible r o = true.
Proof.
  intros Ho. unfold arguments_convertible. apply andb_true_iff. split.
  - unfold path_convertible. rewrite forallb_forall.
    intros key _. now apply values_convertible_get.
  - destruct (route_query r); simpl;
      [reflexivity | assumption | now apply values_convertible_pick].
Qed.

Lemma path_convertible_spec (r : Route) (o : Obj) :
  path_convertible r o = true
  <-> forall key, In (Param key) (route_template r) ->
                  Js.convertible (Js.get o key) = true.
Proof.
  unfold path_convertible, path_params. rewrite forallb_forall. split.
  - intros H key Hin. apply H. apply in_flat_map.
    exists (Param key). split; [assumption | now left].
  - intros H key Hin. apply in_flat_map in Hin as [seg [Hseg Hkey]].
    destruct seg as [text | key']; [contradiction |].
    destruct Hkey as [<- | []]. now apply H.
Qed.

Section Sending.

Context {World : Type}.
Variable fetch : Request.t -> World -> Completion Response.t * World.
Variable JSON_parse : string -> Completion JsValue.
Variable apiKey : string.

Lemma request_sends (method path : string) (body : JsValue)
      (queryParams : option Obj) :
  query_convertible queryParams = true ->
  sends (request fetch JSON_parse apiKey method path body queryParams)
        [outgoing apiKey method path body queryParams].
Proof.
  intros Hq st. rewrite request_spec, Hq. cbv zeta.
  destruct (fst (fetch _ (world st))); reflexivity.
Qed.

Lemma request_sends_as (method path : string) (body : JsValue)
      (queryParams : option Obj) (req : Request.t) :
  query_convertible queryParams = true ->
  outgoing apiKey method path body queryParams = req ->
  sends (request fetch JSON_parse apiKey method path body queryParams) [req].
Proof. intros Hq <-. now apply request_sends. Qed.

Lemma request_sends_nothing (method path : string) (body : JsValue)
      (queryParams : option Obj) (st : Store World) :
  query_convertible queryParams = false ->
  request fetch JSON_parse apiKey method path body queryParams st
  = (Threw TypeError_primitive, st).
Proof. intros Hq. now rewrite request_spec, Hq. Qed.

Lemma request_outcome (method path : string) (body : JsValue)
      (queryParams : option Obj) (st : Store World) :
  query_convertible queryParams = true ->
  fst (request fetch JSON_parse apiKey method path body queryParams st)
  = match fst (fetch (outgoing apiKey method path body queryParams) (world st)) with
    | Returned response => outcome_of JSON_parse response
    | Threw e => Threw e
    end.
Proof.
  intros Hq. rewrite request_spec, Hq. cbv zeta.
  destruct (fst (fetch _ (world st))); reflexivity.
Qed.

Lemma outgoing_GET_no_body (method path : string) (body : JsValue)
      (queryParams : option Obj) :
  method = "GET" ->
  Request.body (outgoing apiKey method path body queryParams) = None.
Proof.
  intros ->. simpl. now rewrite andb_false_r.
Qed.

(** What holds of [outgoing] holds of every request that [request] hands
    to [fetch]; there is at most one. *)
Lemma request_sends_only (P : Request.t -> Prop) (method path : string)
      (body : JsValue) (queryParams : option Obj) :
  P (outgoing apiKey method path body queryParams) ->
  sends_only P (request fetch JSON_parse apiKey method path body queryParams).
Proof.
  intros HP st. rewrite request_spec.
  destruct (query_convertible queryParams).
  - exists [outgoing apiKey method path body queryParams]. cbv zeta.
    destruct (fst (fetch _ (world st))); (split; [reflexivity |]);
      (split; [constructor; [exact HP | constructor] | simpl; lia]).
  - exists []. split; [simpl; now rewrite app_nil_r |].
    split; [constructor | simpl; lia].
Qed.

Lemma throw_sends_only {A : Type} (P : Request.t -> Prop) (error : Thrown) :
  sends_only P (throw (World := World) (A := A) error).
Proof.
  intros st. exists []. split; [simpl; now rewrite app_nil_r |].
  split; [constructor | simpl; lia].
Qed.

Lemma sends_only_handleToolCall (P : Request.t -> Prop) :
  (forall method path body queryParams,
      P (outgoing apiKey method path body queryParams)) ->
  forall name args,
    sends_only P (handleToolCall fetch JSON_parse apiKey name args).
Proof.
  intros HP name args.
  destruct (handleToolCall_shape fetch JSON_parse apiKey name args)
    as [(method & path & body & queryParams & ->) | (message & ->)].
  - apply request_sends_only, HP.
  - apply throw_sends_only.
Qed.

End Sending.

Lemma Contains_append_l (needle a b : string) :
  Contains needle b -> Contains needle (a ++ b).
Proof.
  intros (before & after & ->). exists (a ++ before), after.
  now rewrite append_assoc.
Qed.

Lemma Contains_append_r (needle a b : string) :
  Contains needle a -> Contains needle (a ++ b).
Proof.
  intros (before & after & ->). exists before, (after ++ b).
  now rewrite !append_assoc.
Qed.

Lemma Contains_refl (s : string) : Contains s s.
Proof. exists EmptyString, EmptyString. simpl. now rewrite append_nil_r. Qed.

Lemma join_Contains (sep piece : string) (pieces : list string) :
  In piece pieces -> Contains piece (Js.join sep pieces).
Proof.
  induction pieces as [| p rest IH]; [contradiction |].
  intros [-> | Hin].
  - destruct rest; [apply Contains_refl |].
    apply Contains_append_r, Contains_refl.
  - destruct rest as [| p' rest']; [contradiction |].
    change (Js.join sep (p :: p' :: rest'))
      with (p ++ sep ++ Js.join sep (p' :: rest')).
    now apply Contains_append_l, Contains_append_l, IH.
Qed.

Lemma toString_Contains (params : Js.URLSearchParams) (name value : string) :
  In (name, value) params ->
  Contains (Js.urlencode name ++ "=" ++ Js.urlencode value)
           (Js.URLSearchParams_toString params).
Proof.
  intros Hin. unfold Js.URLSearchParams_toString.
  apply join_Contains.
  apply in_map_iff. now exists (name, value).
Qed.

Lemma mutating_spec (method : string) :
  mutating method = true ->
  method = "POST" \/ method = "PUT" \/ method = "DELETE".
Proof.
  unfold mutating. intros H.
  apply orb_true_iff in H as [H | H]; [apply orb_true_iff in H as [H | H] |];
    apply String.eqb_eq in H; auto.
Qed.

Lemma ok_spec (code : Z) (body : string) :
  Response.ok (http_response code body) = true <-> (200 <= code <= 299)%Z.
Proof.
  unfold http_response. cbn [Response.ok].
  rewrite andb_true_iff, !Z.leb_le. tauto.
Qed.

Lemma not_ok_spec (code : Z) (body : string) :
  (code < 200 \/ 299 < code)%Z -> Response.ok (http_response code body) = false.
Proof.
  intros H. destruct (Response.ok (http_response code body)) eqn:Hok;
    [| reflexivity].
  apply ok_spec in Hok. lia.
Qed.

Section Stores.

Context {World : Type}.
Variable fetch : Request.t -> World -> Completion Response.t * World.
Variable JSON_parse : string -> Completion JsValue.
Variable apiKey : string.

Lemma CallTool_store (name : string) (args : option Obj) (st : Store World) :
  snd (CallTool fetch JSON_parse apiKey name args st)
  = snd (handleToolCall fetch JSON_parse apiKey name args st).
Proof.
  rewrite CallTool_spec.
  destruct (handleToolCall _ _ _ _ _ st) as [[payload | error] st'];
    [reflexivity |].
  destruct (reported_message error); reflexivity.
Qed.

Lemma CallTool_sends (name : string) (args : option Obj)
      (reqs : list Request.t) :
  sends (handleToolCall fetch JSON_parse apiKey name args) reqs ->
  sends (CallTool fetch JSON_parse apiKey name args) reqs.
Proof.
  intros H st. rewrite CallTool_store. apply H.
Qed.

Lemma CallTool_sends_only (P : Request.t -> Prop) (name : string)
      (args : option Obj) :
  sends_only P (handleToolCall fetch JSON_parse apiKey name args) ->
  sends_only P (CallTool fetch JSON_parse apiKey name args).
Proof.
  intros H st. rewrite CallTool_store. apply H.
Qed.

(** A tool of the catalog whose arguments can be converted sends the
    request of its route. *)
Lemma handleToolCall_sends (name : string) (r : Route) (o : Obj) :
  route_of name = Some r ->
  arguments_convertible r o = true ->
  sends (handleToolCall fetch JSON_parse apiKey name (Some o))
        [outgoing apiKey (route_method r) (path_of (route_template r) o)
                  (body_of (route_body r) o) (query_of (route_query r) o)].
Proof.
  intros Hr Hconv st.
  rewrite (handleToolCall_spec fetch JSON_parse apiKey name r o st Hr), Hconv.
  cbv zeta. destruct (fst (fetch _ (world st))); reflexivity.
Qed.

Lemma handleToolCall_sends_as (name : string) (r : Route) (o : Obj)
      (req : Request.t) :
  route_of name = Some r ->
  arguments_convertible r o = true ->
  outgoing apiKey (route_method r) (path_of (route_template r) o)
           (body_of (route_body r) o) (query_of (route_query r) o)
  = req ->
  sends (handleToolCall fetch JSON_parse apiKey name (Some o)) [req].
Proof. intros Hr Hconv <-. now apply handleToolCall_sends. Qed.

(** A known tool called with an argument object whose values can be
    converted, on a network that answers [response] to every request, has
    the outcome of that response. *)
Lemma handleToolCall_answered (name : string) (o : Obj) (st : Store World)
      (response : Response.t) :
  In name tool_names ->
  values_convertible o = true ->
  (forall req, fst (fetch req (world st)) = Returned response) ->
  fst (handleToolCall fetch JSON_parse apiKey name (Some o) st)
  = outcome_of JSON_parse response.
Proof.
  intros Hin Hconv Hnet. destruct (route_of_known name Hin) as [r Hr].
  rewrite (handleToolCall_spec fetch JSON_parse apiKey name r o st Hr).
  rewrite (values_convertible_arguments r o Hconv). cbv zeta.
  now rewrite Hnet.
Qed.

Lemma CallTool_outcome (name : string) (args : option Obj) (st : Store World) :
  fst (CallTool fetch JSON_parse apiKey name args st)
  = match fst (handleToolCall fetch JSON_parse apiKey name args st) with
    | Returned payload => Returned (success_envelope payload)
    | Threw error =>
        match reported_message error with
        | Some message => Returned (failure_envelope message)
        | None => Threw TypeError_primitive
        end
    end.
Proof.
  rewrite CallTool_spec.
  destruct (handleToolCall _ _ _ _ _ st) as [[payload | error] st'];
    [reflexivity |].
  cbn [fst]. destruct (reported_message error); reflexivity.
Qed.

(** With a platform that throws [Error] objects only, whatever is thrown
    below the handler is an [Error] object. *)
Lemma handleToolCall_throws_Error (name : string) (args : option Obj)
      (st st' : Store World) (error : Thrown) :
  throws_Errors fetch JSON_parse ->
  handleToolCall fetch JSON_parse apiKey name args st = (Threw error, st') ->
  is_Error error.
Proof.
  intros [Hfetch Hparse] Hthrown.
  destruct (route_of name) as [r |] eqn:Hr.
  - apply route_of_In in Hr as [Hin _].
    destruct (handleToolCall_throws fetch JSON_parse apiKey _ _ _ _ _
                                    Hin Hthrown)
      as [(message & ->) | [(message & ->) | [(req & w & H) | (text & H)]]];
      [now eexists | now eexists | exact (Hfetch _ _ _ H) | exact (Hparse _ _ H)].
  - assert (Hunknown : ~ In name tool_names).
    { intros Hin. destruct (route_of_known name Hin) as [r Hr']. congruence. }
    rewrite (handleToolCall_unknown fetch JSON_parse apiKey name args Hunknown)
      in Hthrown.
    injection Hthrown as <- _. now eexists.
Qed.

End Stores.
(* ================================================================== *)
(** * The scenarios of the specification, on the simulated remote *)
(* ================================================================== *)

(** [learningsuite_get_member] with [{memberId: "abc123", includeGroups:
    true}]: a GET of [/members/abc123?includeGroups=true], and on the
    answer 200 with the member the pretty-printed member. *)
Example scenario_get_member :
  CallTool Simulated.fetch Simulated.JSON_parse Simulated.apiKey
           "learningsuite_get_member"
           (Some [("memberId", JStr "abc123"); ("includeGroups", JBool true)])
           (Simulated.start [Simulated.member_found])
  = (Returned
       {| CallToolResult.content :=
            [ {| TextContent.type := "text";
                 TextContent.text := Some Simulated.member_pretty |} ];
          CallToolResult.isError := None |},
     {| world := [];
        sent :=
          [ {| Request.url :=
                 "https://api.learningsuite.io/api/v1/members/abc123?includeGroups=true";
               Request.method := "GET";
               Request.headers := Simulated.headers;
               Request.body := None |} ] |}).
Proof. vm_compute. reflexivity. Qed.

(** An optional filter left out of the arguments is left out of the URL. *)
Example scenario_filter_absent :
  sent (snd (CallTool Simulated.fetch Simulated.JSON_parse Simulated.apiKey
                      "learningsuite_get_member"
                      (Some [("memberId", JStr "abc123")])
                      (Simulated.start [Simulated.member_found])))
  = [ {| Request.url := "https://api.learningsuite.io/api/v1/members/abc123";
         Request.method := "GET";
         Request.headers := Simulated.headers;
         Request.body := None |} ].
Proof. vm_compute. reflexivity. Qed.

(** [learningsuite_remove_member_from_courses] with [{memberId: "m1",
    courseIds: ["c1","c2"]}]: a DELETE of [/members/m1/courses] with the
    body [{"courseIds":["c1","c2"]}]. *)
Example scenario_remove_member_from_courses :
  sent (snd (CallTool Simulated.fetch Simulated.JSON_parse Simulated.apiKey
                      "learningsuite_remove_member_from_courses"
                      (Some [("memberId", JStr "m1");
                             ("courseIds", JArr [JStr "c1"; JStr "c2"])])
                      (Simulated.start [Simulated.no_content])))
  = [ {| Request.url := "https://api.learningsuite.io/api/v1/members/m1/courses";
         Request.method := "DELETE";
         Request.headers := Simulated.headers;
         Request.body :=
           Some ("{" ++ Simulated.q "courseIds" ++ ":["
                   ++ Simulated.q "c1" ++ "," ++ Simulated.q "c2" ++ "]}") |} ].
Proof. vm_compute. reflexivity. Qed.

(** A GET-shaped tool called with fields it does not know sends no body;
    the fields go to the query string. *)
Example scenario_extraneous_fields :
  sent (snd (CallTool Simulated.fetch Simulated.JSON_parse Simulated.apiKey
                      "learningsuite_list_groups"
                      (Some [("limit", JNum "10"); ("name", JStr "a b")])
                      (Simulated.start [Simulated.no_content])))
  = [ {| Request.url :=
           "https://api.learningsuite.io/api/v1/groups?limit=10&name=a+b";
         Request.method := "GET";
         Request.headers := Simulated.headers;
         Request.body := None |} ].
Proof. vm_compute. reflexivity. Qed.

(** The number 1e21 prints with an exponent, and its plus sign is
    percent-encoded in the query string. *)
Example scenario_large_number :
  sent (snd (CallTool Simulated.fetch Simulated.JSON_parse Simulated.apiKey
                      "learningsuite_list_groups"
                      (Some [("limit", JNum "1e+21")])
                      (Simulated.start [Simulated.no_content])))
  = [ {| Request.url :=
           "https://api.learningsuite.io/api/v1/groups?limit=1e%2B21";
         Request.method := "GET";
         Request.headers := Simulated.headers;
         Request.body := None |} ].
Proof. vm_compute. reflexivity. Qed.

(** With no arguments at all, an arm that reads a field throws a
    [TypeError] before any request; the handler reports it. *)
Example scenario_no_arguments :
  CallTool Simulated.fetch Simulated.JSON_parse Simulated.apiKey
           "learningsuite_get_member" None
           (Simulated.start [Simulated.member_found])
  = (Returned
       (failure_envelope
          "Cannot read properties of undefined (reading 'memberId')"),
     Simulated.start [Simulated.member_found]).
Proof. vm_compute. reflexivity. Qed.

(** An argument that cannot be converted to a string, [{memberId:
    {toString: null}}]: the template literal throws, no request is made and
    the handler reports the [TypeError]. *)
Example scenario_unconvertible_argument :
  CallTool Simulated.fetch Simulated.JSON_parse Simulated.apiKey
           "learningsuite_get_member" (Some [("memberId", unconvertible)])
           (Simulated.start [Simulated.member_found])
  = (Returned
       (failure_envelope "Cannot convert object to primitive value"),
     Simulated.start [Simulated.member_found]).
Proof. vm_compute. reflexivity. Qed.

(** The same value as a query parameter, inside an array. *)
Example scenario_unconvertible_filter :
  CallTool Simulated.fetch Simulated.JSON_parse Simulated.apiKey
           "learningsuite_list_groups"
           (Some [("limit", JArr [JNum "1"; unconvertible])])
           (Simulated.start [Simulated.no_content])
  = (Returned
       (failure_envelope "Cannot convert object to primitive value"),
     Simulated.start [Simulated.no_content]).
Proof. vm_compute. reflexivity. Qed.

(** A body that is not JSON makes the call fail. *)
Example scenario_malformed_body :
  fst (CallTool Simulated.fetch Simulated.JSON_parse Simulated.apiKey
                "learningsuite_check_auth" (Some [])
                (Simulated.start [Simulated.malformed]))
  = Returned (failure_envelope "Unexpected token in JSON").
Proof. vm_compute. reflexivity. Qed.

(** The simulated platform throws [Error] objects only. *)
Example simulated_throws_Errors :
  throws_Errors Simulated.fetch Simulated.JSON_parse.
Proof.
  split.
  - intros req [| response rest] error; simpl; [| discriminate].
    intros [= <-]. now eexists.
  - intros text error. unfold Simulated.JSON_parse.
    cbn [Simulated.JSON_parse_table].
    destruct (String.eqb Simulated.member_text text); [discriminate |].
    intros [= <-]. now eexists.
Qed.
(* ================================================================== *)
(** * The claims of the specification *)
(* ================================================================== *)

Section Claims.

Context {World : Type}.
Variable fetch : Request.t -> World -> Completion Response.t * World.
Variable JSON_parse : string -> Completion JsValue.
Variable apiKey : string.

(** C1.  For a name that is not in the catalog, [CallTool] with any
    arguments returns, without a request being made and with the store as
    it was, an envelope whose [isError] is [true] and whose text contains
    ["Unknown tool: <name>"]; nothing is thrown past the handler.  For any
    name: with a platform that throws [Error] objects only, as [fetch] and
    [JSON.parse] do, no call of [CallTool] throws, it returns an envelope.
    A thrown value that is not an [Error] object is reported by
    [String(value)]; that conversion is made inside the [catch] block, so
    for a value that cannot be converted the handler itself throws the
    [TypeError]. *)
Theorem C1_unknown_tool_is_reported (name : string) (args : option Obj)
        (st : Store World) :
  ~ In name tool_names ->
  (exists text,
      CallTool fetch JSON_parse apiKey name args st
      = (Returned
           {| CallToolResult.content :=
                [ {| TextContent.type := "text";
                     TextContent.text := Some text |} ];
              CallToolResult.isError := Some true |},
         st)
      /\ Contains ("Unknown tool: " ++ name) text)
  /\ (throws_Errors fetch JSON_parse ->
      forall name' args' st',
      exists text st'',
        CallTool fetch JSON_parse apiKey name' args' st'
        = (Returned
             {| CallToolResult.content :=
                  [ {| TextContent.type := "text"; TextContent.text := text |} ];
                CallToolResult.isError :=
                  match fst (handleToolCall fetch JSON_parse apiKey
                                            name' args' st') with
                  | Returned _ => None
                  | Threw _ => Some true
                  end |},
           st''))
  /\ (forall name' args' st' value st'',
         handleToolCall fetch JSON_parse apiKey name' args' st'
         = (Threw (NonError value), st'') ->
         CallTool fetch JSON_parse apiKey name' args' st'
         = match Js.ToString value with
           | Some text =>
               (Returned
                  {| CallToolResult.content :=
                       [ {| TextContent.type := "text";
                            TextContent.text := Some ("Error: " ++ text) |} ];
                     CallToolResult.isError := Some true |},
                st'')
           | None => (Threw TypeError_primitive, st'')
           end).
Proof.
  intros Hunknown. split; [| split].
  - exists ("Error: " ++ "Unknown tool: " ++ name). split.
    + rewrite CallTool_spec, handleToolCall_unknown by assumption.
      reflexivity.
    + apply Contains_suffix.
  - intros Hplatform name' args' st'. rewrite CallTool_spec.
    destruct (handleToolCall _ _ _ _ _ st') as [[payload | error] st'']
      eqn:Hcall.
    + now do 2 eexists.
    + destruct (handleToolCall_throws_Error fetch JSON_parse apiKey _ _ _ _ _
                                            Hplatform Hcall) as [message ->].
      now do 2 eexists.
  - intros name' args' st' value st'' H.
    rewrite CallTool_spec, H. cbn [reported_message].
    destruct (Js.ToString value); reflexivity.
Qed.

(** C2 (amended).  When the operation behind a tool call returns a payload,
    [CallTool] returns the envelope whose content is one text block holding
    the payload serialized by [JSON.stringify(payload, null, 2)], and which
    has no [isError] field: the field is absent, it is not set to [false]. *)
Theorem C2_success_envelope_has_no_isError (name : string)
        (args : option Obj) (st st' : Store World) (payload : JsValue) :
  handleToolCall fetch JSON_parse apiKey name args st = (Returned payload, st') ->
  CallTool fetch JSON_parse apiKey name args st
  = (Returned
       {| CallToolResult.content :=
            [ {| TextContent.type := "text";
                 TextContent.text := Js.JSON_stringify_2 payload |} ];
          CallToolResult.isError := None |},
     st').
Proof.
  intros H. rewrite CallTool_spec, H. reflexivity.
Qed.


(** C8.  [ListTools] returns the whole catalog [tools], in declaration
    order, from any store and leaving the store as it was; it does not
    throw.  Across any sequence of requests served, every [ListTools]
    request is answered with that same catalog. *)
Theorem C8_ListTools_returns_the_catalog (requests : list ServerRequest)
        (st : Store World) :
  ListTools st = (Returned {| ListToolsResult.tools := tools |}, st)
  /\ Forall2
       (fun req answer =>
          req = ListToolsRequest ->
          answer
          = Returned (ListToolsResponse {| ListToolsResult.tools := tools |}))
       requests
       (fst (serve fetch JSON_parse apiKey requests st)).
Proof.
  split; [reflexivity |].
  revert st. induction requests as [| req rest IH]; intros st.
  - constructor.
  - simpl serve.
    destruct (handle fetch JSON_parse apiKey req st) as [answer st1] eqn:Hreq.
    specialize (IH st1).
    destruct (serve fetch JSON_parse apiKey rest st1) as [answers st2].
    simpl fst in *. constructor; [| exact IH].
    intros ->. simpl in Hreq. now inversion Hreq.
Qed.

(** C4.  A request built from a query-parameter map carries, after the
    path, the serialization of exactly the entries whose value is defined,
    each value in the text [String(value)] gives: read back by the
    form-urlencoded parser the query string gives these entries and no
    other.  A key whose value is [undefined] is not among the names.  A
    number or a boolean is read back in its textual form; in the query
    string that text is percent-encoded, which leaves it as written unless
    it holds a character outside the unreserved ones (the plus sign of
    [1e+21] becomes [%2B]), so an integer that prints in decimal and a
    boolean stand there as written.  When every value is [undefined]
    nothing is appended to the URL, which then has no question mark unless
    the path has one.  When a value cannot be converted to a string, no
    request is built: [request] throws the [TypeError] of the conversion. *)
Theorem C4_query_omission (method path : string) (body : JsValue)
        (queryParams : Obj) :
  if values_convertible queryParams then
    exists req query,
      sends (request fetch JSON_parse apiKey method path body (Some queryParams))
            [req]
      /\ Request.url req
         = BASE_URL ++ path
             ++ (if Js.is_empty query then EmptyString else "?" ++ query)
      /\ parse_query query = defined_entries queryParams
      /\ (forall key,
             NoDup (map fst queryParams) ->
             In (key, JUndefined) queryParams ->
             ~ In key (map fst (parse_query query)))
      /\ (forall key value,
             In (key, value) queryParams -> value <> JUndefined ->
             exists text,
               Js.ToString value = Some text
               /\ In (key, text) (parse_query query)
               /\ Contains (Js.urlencode key ++ "=" ++ Js.urlencode text) query)
      /\ (forall key text,
             In (key, JNum text) queryParams ->
             In (key, text) (parse_query query)
             /\ Contains (Js.urlencode key ++ "=" ++ Js.urlencode text) query
             /\ (all_chars Js.urlencoded_safe text = true ->
                 Contains (Js.urlencode key ++ "=" ++ text) query))
      /\ (forall key n,
             safe_integer n ->
             In (key, JNum (Js.integer_text n)) queryParams ->
             Contains (Js.urlencode key ++ "=" ++ Js.integer_text n) query)
      /\ (forall key b,
             In (key, JBool b) queryParams ->
             In (key, if b then "true" else "false") (parse_query query)
             /\ Contains
                  (Js.urlencode key ++ "=" ++ (if b then "true" else "false"))
                  query)
      /\ (Forall (fun kv => snd kv = JUndefined) queryParams ->
          query = EmptyString
          /\ Request.url req = BASE_URL ++ path
          /\ (all_chars (differs_from "?") path = true ->
              all_chars (differs_from "?") (Request.url req) = true))
  else
    forall st,
      request fetch JSON_parse apiKey method path body (Some queryParams) st
      = (Threw TypeError_primitive, st).
Proof.
  destruct (values_convertible queryParams) eqn:Hconv;
    [| intros st; now apply request_sends_nothing].
  exists (outgoing apiKey method path body (Some queryParams)).
  exists (Js.URLSearchParams_toString (defined_entries queryParams)).
  rewrite parse_query_toString.
  assert (Hentry : forall key value,
             In (key, value) queryParams -> value <> JUndefined ->
             exists text,
               Js.ToString value = Some text
               /\ In (key, text) (defined_entries queryParams)
               /\ Contains (Js.urlencode key ++ "=" ++ Js.urlencode text)
                           (Js.URLSearchParams_toString
                              (defined_entries queryParams))).
  { intros key value Hin Hdef. exists (Js.text_of value).
    assert (Hvalue : Js.convertible value = true).
    { unfold values_convertible in Hconv. rewrite forallb_forall in Hconv.
      exact (Hconv (key, value) Hin). }
    split; [now apply convertible_ToString |].
    assert (H : In (key, Js.text_of value) (defined_entries queryParams))
      by now apply defined_entries_In.
    split; [exact H | now apply toString_Contains]. }
  assert (Hnumber : forall key text,
             In (key, JNum text) queryParams ->
             In (key, text) (defined_entries queryParams)
             /\ Contains (Js.urlencode key ++ "=" ++ Js.urlencode text)
                         (Js.URLSearchParams_toString
                            (defined_entries queryParams))).
  { intros key text Hin.
    destruct (Hentry key (JNum text) Hin) as (text' & [= <-] & H); [discriminate |].
    exact H. }
  split; [now apply request_sends |].
  change (Request.url (outgoing apiKey method path body (Some queryParams)))
    with (BASE_URL ++ path ++ query_suffix (Some queryParams)).
  split; [now rewrite query_suffix_Some |].
  split; [reflexivity |].
  split; [intros key; apply defined_entries_omits |].
  split; [exact Hentry |].
  split; [| split; [| split]].
  - intros key text Hin. destruct (Hnumber key text Hin) as [Hparsed Hraw].
    split; [assumption |]. split; [assumption |].
    intros Hsafe. now rewrite <- (urlencode_safe text Hsafe) at 1.
  - intros key n _ Hin. destruct (Hnumber key _ Hin) as [_ Hraw].
    now rewrite urlencode_integer in Hraw.
  - intros key b Hin.
    destruct (Hentry key (JBool b) Hin) as (text & Htext & H); [discriminate |].
    assert (text = if b then "true" else "false") as ->
        by (destruct b; simpl in Htext; congruence).
    destruct H as [Hparsed Hraw]. split; [assumption |].
    replace (Js.urlencode (if b then "true" else "false"))
      with (if b then "true" else "false") in Hraw by now destruct b.
    exact Hraw.
  - intros Hall. unfold query_suffix.
    rewrite (defined_entries_none _ Hall).
    split; [reflexivity |]. rewrite append_nil_r. split; [reflexivity |].
    intros Hpath. now rewrite all_chars_append, Hpath.
Qed.

(** C5.  A request the client hands to [fetch] has a body only if the
    method is POST, PUT or DELETE and a body value was supplied (the body
    is then its JSON serialization); with the method GET it has none.  The
    client sends at most one request, and exactly one when the query
    parameters can be converted to strings.  Hence whatever the tool name
    and whatever the fields of the argument map, a request the dispatcher
    makes with the method GET carries no body. *)
Theorem C5_body_only_on_mutation (method path : string) (body : JsValue)
        (queryParams : option Obj) (name : string) (args : option Obj) :
  sends_only
    (fun req =>
       Request.method req = method
       /\ (method = "GET" -> Request.body req = None)
       /\ (forall text,
              Request.body req = Some text ->
              (method = "POST" \/ method = "PUT" \/ method = "DELETE")
              /\ Js.truthy body = true
              /\ Js.JSON_stringify body = Some text)
       /\ (mutating method = true -> Js.truthy body = true ->
           Request.body req = Js.JSON_stringify body))
    (request fetch JSON_parse apiKey method path body queryParams)
  /\ (query_convertible queryParams = true ->
      exists req,
        sends (request fetch JSON_parse apiKey method path body queryParams)
              [req])
  /\ sends_only
       (fun sent_req =>
          Request.method sent_req = "GET" -> Request.body sent_req = None)
       (handleToolCall fetch JSON_parse apiKey name args)
  /\ sends_only
       (fun sent_req =>
          Request.method sent_req = "GET" -> Request.body sent_req = None)
       (CallTool fetch JSON_parse apiKey name args).
Proof.
  assert (Hdispatch :
            sends_only
              (fun sent_req =>
                 Request.method sent_req = "GET" -> Request.body sent_req = None)
              (handleToolCall fetch JSON_parse apiKey name args)).
  { apply sends_only_handleToolCall.
    intros method' path' body' queryParams'.
    apply (outgoing_GET_no_body apiKey). }
  split; [| split; [| split]].
  - apply request_sends_only.
    split; [reflexivity |]. split; [apply outgoing_GET_no_body |].
    cbn [Request.body outgoing]. split.
    + intros text.
      destruct (Js.truthy body) eqn:Hbody; simpl andb; [| discriminate].
      destruct (mutating method) eqn:Hmethod; [| discriminate].
      intros Htext. split; [now apply mutating_spec |]. now split.
    + now intros -> ->.
  - intros Hq. eexists. now apply request_sends.
  - exact Hdispatch.
  - now apply CallTool_sends_only.
Qed.

(** C6.  When the response has a status code [code] outside 200-299 and the
    body text [text], the client throws the error with the message
    ["API Error <code>: <text>"], the body as it came; and [CallTool], for a
    tool of the catalog called with an argument object whose values can be
    converted to strings, on a network that gives this response, returns an
    envelope with [isError] [true] whose text contains that message.  In
    general an [Error] thrown below the handler is reported as
    ["Error: <message>"] with [isError] [true]. *)
Theorem C6_status_passthrough (method path : string) (body : JsValue)
        (queryParams : option Obj) (name : string) (o : Obj)
        (st : Store World) (code : Z) (text : string) :
  status_code code ->
  (code < 200 \/ 299 < code)%Z ->
  (query_convertible queryParams = true ->
   fst (fetch (outgoing apiKey method path body queryParams) (world st))
   = Returned (http_response code text) ->
   fst (request fetch JSON_parse apiKey method path body queryParams st)
   = Threw (ErrorObject
              ("API Error " ++ Js.integer_text code ++ ": " ++ text)))
  /\ (In name tool_names ->
      values_convertible o = true ->
      (forall req,
          fst (fetch req (world st)) = Returned (http_response code text)) ->
      exists reported,
        fst (CallTool fetch JSON_parse apiKey name (Some o) st)
        = Returned
            {| CallToolResult.content :=
                 [ {| TextContent.type := "text";
                      TextContent.text := Some reported |} ];
               CallToolResult.isError := Some true |}
        /\ Contains
             ("API Error " ++ Js.integer_text code ++ ": " ++ text)
             reported)
  /\ (forall args message st',
         handleToolCall fetch JSON_parse apiKey name args st
         = (Threw (ErrorObject message), st') ->
         CallTool fetch JSON_parse apiKey name args st
         = (Returned
              {| CallToolResult.content :=
                   [ {| TextContent.type := "text";
                        TextContent.text := Some ("Error: " ++ message) |} ];
                 CallToolResult.isError := Some true |},
            st')).
Proof.
  intros _ Hstatus. apply (not_ok_spec code text) in Hstatus.
  split; [| split].
  - intros Hq Hnet. rewrite request_outcome, Hnet by assumption.
    unfold outcome_of. now rewrite Hstatus.
  - intros Hin Hconv Hnet. eexists. split.
    + rewrite CallTool_outcome,
        handleToolCall_answered with (response := http_response code text)
        by assumption.
      unfold outcome_of. rewrite Hstatus. reflexivity.
    + apply Contains_suffix.
  - intros args message st' Hthrown.
    now rewrite CallTool_spec, Hthrown.
Qed.

(** C7.  When the response has a status code in 200-299, the client returns
    the empty object if the body text is empty and otherwise what
    [JSON.parse] makes of the text, throwing what [JSON.parse] throws.  So
    [CallTool], for a tool of the catalog called with an argument object
    whose values can be converted to strings, on a network that gives this
    response, returns for an empty body the envelope of the empty object
    (text ["{}"], no error flag); for a body that does not parse the call
    fails, and the [Error] that [JSON.parse] threw is reported in an
    envelope with [isError] [true]. *)
Theorem C7_empty_body_is_success (method path : string) (body : JsValue)
        (queryParams : option Obj) (name : string) (o : Obj)
        (st : Store World) (code : Z) (text : string) :
  (200 <= code <= 299)%Z ->
  (query_convertible queryParams = true ->
   fst (fetch (outgoing apiKey method path body queryParams) (world st))
   = Returned (http_response code text) ->
   fst (request fetch JSON_parse apiKey method path body queryParams st)
   = match text with
     | EmptyString => Returned (JObj [])
     | _ => JSON_parse text
     end)
  /\ (In name tool_names ->
      values_convertible o = true ->
      (forall req,
          fst (fetch req (world st)) = Returned (http_response code text)) ->
      (text = EmptyString ->
       fst (CallTool fetch JSON_parse apiKey name (Some o) st)
       = Returned
           {| CallToolResult.content :=
                [ {| TextContent.type := "text";
                     TextContent.text := Some "{}" |} ];
              CallToolResult.isError := None |})
      /\ (forall error,
             text <> EmptyString ->
             JSON_parse text = Threw error ->
             fst (handleToolCall fetch JSON_parse apiKey name (Some o) st)
             = Threw error
             /\ forall message,
                 error = ErrorObject message ->
                 fst (CallTool fetch JSON_parse apiKey name (Some o) st)
                 = Returned
                     {| CallToolResult.content :=
                          [ {| TextContent.type := "text";
                               TextContent.text :=
                                 Some ("Error: " ++ message) |} ];
                        CallToolResult.isError := Some true |})
      /\ (forall payload,
             text <> EmptyString ->
             JSON_parse text = Returned payload ->
             fst (CallTool fetch JSON_parse apiKey name (Some o) st)
             = Returned (success_envelope payload))).
Proof.
  intros Hstatus. apply (ok_spec code text) in Hstatus. split.
  - intros Hq Hnet. rewrite request_outcome, Hnet by assumption.
    unfold outcome_of. rewrite Hstatus. now destruct text.
  - intros Hin Hconv Hnet.
    assert (Hcall :
              fst (handleToolCall fetch JSON_parse apiKey name (Some o) st)
              = match text with
                | EmptyString => Returned (JObj [])
                | _ => JSON_parse text
                end).
    { rewrite handleToolCall_answered with (response := http_response code text)
        by assumption.
      unfold outcome_of. rewrite Hstatus. now destruct text. }
    split; [| split].
    + intros Hempty. rewrite CallTool_outcome, Hcall, Hempty. reflexivity.
    + intros error Hne Hparse.
      assert (Hthrown :
                fst (handleToolCall fetch JSON_parse apiKey name (Some o) st)
                = Threw error).
      { rewrite Hcall. destruct text; [congruence | assumption]. }
      split; [assumption |].
      intros message ->. now rewrite CallTool_outcome, Hthrown.
    + intros payload Hne Hparse.
      rewrite CallTool_outcome, Hcall.
      destruct text; [congruence |]. now rewrite Hparse.
Qed.

(** C9.  [CallTool] for [learningsuite_remove_member_from_courses] with the
    arguments [{memberId: m, courseIds: cs}], [m] a string, hands to [fetch]
    exactly one request: method DELETE, the URL of path
    [/members/<m>/courses] with nothing after the path, and as body the
    JSON text of the object [{"courseIds": cs}], in which [memberId] does
    not occur.  Other fields of the argument map change nothing; a
    [memberId] that is not a string goes into the path as [String] converts
    it, and when it cannot be converted the call fails with the
    [TypeError], reported in an error envelope, and no request is made. *)
Theorem C9_remove_member_from_courses (m : string) (cs : JsValue) (o : Obj)
        (st : Store World) :
  sends (CallTool fetch JSON_parse apiKey
                  "learningsuite_remove_member_from_courses"
                  (Some [("memberId", JStr m); ("courseIds", cs)]))
        [ {| Request.url := BASE_URL ++ "/members/" ++ m ++ "/courses";
             Request.method := "DELETE";
             Request.headers :=
               [("Content-Type", "application/json"); ("X-API-Key", apiKey)];
             Request.body := Js.JSON_stringify (JObj [("courseIds", cs)]) |} ]
  /\ Js.JSON_stringify (JObj [("courseIds", cs)])
     = Some match Js.JSON_stringify cs with
            | Some text => "{" ++ Js.QuoteJSONString "courseIds" ++ ":" ++ text ++ "}"
            | None => "{}"
            end
  /\ match Js.ToString (Js.get o "memberId") with
     | Some id =>
         sends (CallTool fetch JSON_parse apiKey
                         "learningsuite_remove_member_from_courses" (Some o))
               [ {| Request.url := BASE_URL ++ "/members/" ++ id ++ "/courses";
                    Request.method := "DELETE";
                    Request.headers :=
                      [("Content-Type", "application/json");
                       ("X-API-Key", apiKey)];
                    Request.body :=
                      Js.JSON_stringify
                        (JObj [("courseIds", Js.get o "courseIds")]) |} ]
     | None =>
         CallTool fetch JSON_parse apiKey
                  "learningsuite_remove_member_from_courses" (Some o) st
         = (Returned
              (failure_envelope "Cannot convert object to primitive value"),
            st)
     end.
Proof.
  set (r := mkRoute "DELETE" [Lit "/members/"; Param "memberId"; Lit "/courses"]
                    (BodyFields ["courseIds"]) NoQuery).
  assert (Hr : route_of "learningsuite_remove_member_from_courses" = Some r)
    by reflexivity.
  split; [| split].
  - apply CallTool_sends.
    apply (handleToolCall_sends_as fetch JSON_parse apiKey _ r _ _ Hr);
      [reflexivity |].
    unfold outgoing. cbn. now rewrite !append_nil_r.
  - unfold Js.JSON_stringify. simpl.
    destruct (Js.SerializeJSONProperty EmptyString EmptyString cs); reflexivity.
  - destruct (Js.ToString (Js.get o "memberId")) as [id |] eqn:Hid.
    + apply ToString_convertible in Hid as [Hconv Htext].
      apply CallTool_sends.
      apply (handleToolCall_sends_as fetch JSON_parse apiKey _ r o _ Hr).
      * unfold arguments_convertible, path_convertible. cbn. now rewrite Hconv.
      * unfold outgoing. cbn. now rewrite Htext, !append_nil_r.
    + rewrite CallTool_spec,
        (handleToolCall_spec fetch JSON_parse apiKey _ r o st Hr).
      unfold arguments_convertible, path_convertible, Js.convertible. cbn.
      now rewrite Hid.
Qed.

(** C10.  The arm of [learningsuite_get_member_courses] passes the whole
    argument map on as the query-parameter map: with the arguments
    [{memberId: m, limit: n}], [m] a string and [n] a number that prints as
    [t], the one request is a GET of
    [/members/<m>/courses?memberId=<m>&limit=<t>], the member id being in
    the path as it is and a second time in the query string
    (form-urlencoded there, as is the text of the number; an integer that
    prints in decimal stands there as written).  In the same way the arm
    of [learningsuite_add_member_to_courses] passes the whole argument map
    on as the body, so the JSON body of its PUT contains the [memberId]
    field. *)
Theorem C10_raw_arguments_are_passed_through (m t : string) (n : Z)
        (cs : JsValue) (o : Obj) :
  (forall id,
      Js.ToString (Js.get o "memberId") = Some id ->
      handleToolCall fetch JSON_parse apiKey "learningsuite_get_member_courses"
                     (Some o)
      = request fetch JSON_parse apiKey "GET"
                ("/members/" ++ id ++ "/courses") JUndefined (Some o))
  /\ sends (CallTool fetch JSON_parse apiKey "learningsuite_get_member_courses"
                     (Some [("memberId", JStr m); ("limit", JNum t)]))
           [ {| Request.url :=
                  BASE_URL ++ "/members/" ++ m ++ "/courses"
                    ++ "?memberId=" ++ Js.urlencode m
                    ++ "&limit=" ++ Js.urlencode t;
                Request.method := "GET";
                Request.headers :=
                  [("Content-Type", "application/json"); ("X-API-Key", apiKey)];
                Request.body := None |} ]
  /\ (safe_integer n ->
      sends (CallTool fetch JSON_parse apiKey "learningsuite_get_member_courses"
                      (Some [("memberId", JStr m);
                             ("limit", JNum (Js.integer_text n))]))
            [ {| Request.url :=
                   BASE_URL ++ "/members/" ++ m ++ "/courses"
                     ++ "?memberId=" ++ Js.urlencode m
                     ++ "&limit=" ++ Js.integer_text n;
                 Request.method := "GET";
                 Request.headers :=
                   [("Content-Type", "application/json");
                    ("X-API-Key", apiKey)];
                 Request.body := None |} ])
  /\ (forall id,
         Js.ToString (Js.get o "memberId") = Some id ->
         handleToolCall fetch JSON_parse apiKey
                        "learningsuite_add_member_to_courses" (Some o)
         = request fetch JSON_parse apiKey "PUT"
                   ("/members/" ++ id ++ "/courses") (JObj o) None)
  /\ (exists text,
         sends (CallTool fetch JSON_parse apiKey
                         "learningsuite_add_member_to_courses"
                         (Some [("memberId", JStr m); ("courseIds", cs)]))
               [ {| Request.url := BASE_URL ++ "/members/" ++ m ++ "/courses";
                    Request.method := "PUT";
                    Request.headers :=
                      [("Content-Type", "application/json");
                       ("X-API-Key", apiKey)];
                    Request.body := Some text |} ]
         /\ Js.JSON_stringify (JObj [("memberId", JStr m); ("courseIds", cs)])
            = Some text
         /\ Contains
              (Js.QuoteJSONString "memberId" ++ ":" ++ Js.QuoteJSONString m)
              text).
Proof.
  assert (Hquery : forall t',
             sends (CallTool fetch JSON_parse apiKey
                             "learningsuite_get_member_courses"
                             (Some [("memberId", JStr m); ("limit", JNum t')]))
                   [ {| Request.url :=
                          BASE_URL ++ "/members/" ++ m ++ "/courses"
                            ++ "?memberId=" ++ Js.urlencode m
                            ++ "&limit=" ++ Js.urlencode t';
                        Request.method := "GET";
                        Request.headers :=
                          [("Content-Type", "application/json");
                           ("X-API-Key", apiKey)];
                        Request.body := None |} ]).
  { intros t'. apply CallTool_sends.
    apply (handleToolCall_sends_as fetch JSON_parse apiKey
             "learningsuite_get_member_courses"
             (mkRoute "GET" [Lit "/members/"; Param "memberId"; Lit "/courses"]
                      NoBody QueryArguments)
             [("memberId", JStr m); ("limit", JNum t')] _ eq_refl eq_refl).
    unfold outgoing, query_suffix, defined_entries. cbn.
    now rewrite !append_assoc. }
  split; [| split; [| split; [| split]]].
  - intros id Hid. apply ToString_convertible in Hid as [Hconv Htext].
    rewrite (handleToolCall_by_route fetch JSON_parse apiKey
               "learningsuite_get_member_courses"
               (mkRoute "GET" [Lit "/members/"; Param "memberId"; Lit "/courses"]
                        NoBody QueryArguments) o eq_refl).
    unfold path_convertible. cbn. now rewrite Hconv, Htext.
  - apply Hquery.
  - intros _. rewrite <- (urlencode_integer n) at 2. apply Hquery.
  - intros id Hid. apply ToString_convertible in Hid as [Hconv Htext].
    rewrite (handleToolCall_by_route fetch JSON_parse apiKey
               "learningsuite_add_member_to_courses"
               (mkRoute "PUT" [Lit "/members/"; Param "memberId"; Lit "/courses"]
                        WholeArguments NoQuery) o eq_refl).
    unfold path_convertible. cbn. now rewrite Hconv, Htext.
  - assert (Hbody :
              exists text,
                Js.JSON_stringify (JObj [("memberId", JStr m); ("courseIds", cs)])
                = Some text
                /\ Contains
                     (Js.QuoteJSONString "memberId" ++ ":" ++ Js.QuoteJSONString m)
                     text).
    { unfold Js.JSON_stringify. simpl.
      destruct (Js.SerializeJSONProperty EmptyString EmptyString cs)
        as [cs_text |]; simpl; eexists; (split; [reflexivity |]).
      - exists "{", ("," ++ Js.QuoteJSONString "courseIds" ++ ":" ++ cs_text ++ "}").
        simpl. now rewrite !append_assoc.
      - exists "{", "}". simpl. now rewrite !append_assoc. }
    destruct Hbody as (text & Hbody & Hcontains).
    exists text. split; [| split; assumption].
    apply CallTool_sends.
    apply (handleToolCall_sends_as fetch JSON_parse apiKey
             "learningsuite_add_member_to_courses"
             (mkRoute "PUT" [Lit "/members/"; Param "memberId"; Lit "/courses"]
                      WholeArguments NoQuery)
             [("memberId", JStr m); ("courseIds", cs)] _ eq_refl eq_refl).
    unfold outgoing. cbn [body_of route_body]. rewrite Hbody. cbn.
    now rewrite !append_nil_r.
Qed.

End Claims.
(* ================================================================== *)
(** * The claims at concrete inputs *)
(* ================================================================== *)

(** C1 at the name ["not_a_real_tool"] with an empty argument object. *)
Lemma C1_witness :
  exists text,
    CallTool Simulated.fetch Simulated.JSON_parse Simulated.apiKey
             "not_a_real_tool" (Some []) (Simulated.start [])
    = (Returned
         {| CallToolResult.content :=
              [ {| TextContent.type := "text";
                   TextContent.text := Some text |} ];
            CallToolResult.isError := Some true |},
       Simulated.start [])
    /\ Contains ("Unknown tool: " ++ "not_a_real_tool") text.
Proof.
  refine (proj1 (C1_unknown_tool_is_reported
                   Simulated.fetch Simulated.JSON_parse Simulated.apiKey
                   "not_a_real_tool" (Some []) (Simulated.start []) _)).
  vm_compute. intros H.
  repeat (destruct H as [H | H]; [discriminate H |]). exact H.
Defined.

(** C2 (amended) at [learningsuite_check_auth] answered by 204. *)
Lemma C2_witness :
  CallTool Simulated.fetch Simulated.JSON_parse Simulated.apiKey
           "learningsuite_check_auth" (Some [])
           (Simulated.start [Simulated.no_content])
  = (Returned
       {| CallToolResult.content :=
            [ {| TextContent.type := "text";
                 TextContent.text := Js.JSON_stringify_2 (JObj []) |} ];
          CallToolResult.isError := None |},
     {| world := [];
        sent := [outgoing Simulated.apiKey "GET" "/auth" JUndefined None] |}).
Proof.
  apply (C2_success_envelope_has_no_isError
           Simulated.fetch Simulated.JSON_parse Simulated.apiKey).
  vm_compute. reflexivity.
Defined.

(** C2 as stated fails: on a success the envelope has no [isError] field,
    so it is not the envelope with [isError] [false]. *)
Lemma C2_counterexample :
  fst (handleToolCall Simulated.fetch Simulated.JSON_parse Simulated.apiKey
                      "learningsuite_check_auth" (Some [])
                      (Simulated.start [Simulated.no_content]))
  = Returned (JObj [])
  /\ fst (CallTool Simulated.fetch Simulated.JSON_parse Simulated.apiKey
                   "learningsuite_check_auth" (Some [])
                   (Simulated.start [Simulated.no_content]))
     = Returned
         {| CallToolResult.content :=
              [ {| TextContent.type := "text";
                   TextContent.text := Some "{}" |} ];
            CallToolResult.isError := None |}
  /\ fst (CallTool Simulated.fetch Simulated.JSON_parse Simulated.apiKey
                   "learningsuite_check_auth" (Some [])
                   (Simulated.start [Simulated.no_content]))
     <> Returned
          {| CallToolResult.content :=
               [ {| TextContent.type := "text";
                    TextContent.text := Some "{}" |} ];
             CallToolResult.isError := Some false |}.
Proof.
  split; [vm_compute; reflexivity |].
  split; [vm_compute; reflexivity |].
  vm_compute. discriminate.
Qed.



(** C6 at the status 404 with the body ["not found"]. *)
Lemma C6_witness :
  exists reported,
    fst (CallTool Simulated.fetch Simulated.JSON_parse Simulated.apiKey
                  "learningsuite_get_member" (Some [("memberId", JStr "abc123")])
                  (Simulated.start [Simulated.not_found]))
    = Returned
        {| CallToolResult.content :=
             [ {| TextContent.type := "text";
                  TextContent.text := Some reported |} ];
           CallToolResult.isError := Some true |}
    /\ Contains ("API Error " ++ "404" ++ ": " ++ "not found") reported.
Proof.
  refine (proj1 (proj2 (C6_status_passthrough
                   Simulated.fetch Simulated.JSON_parse Simulated.apiKey
                   "GET" "/members/abc123" JUndefined None
                   "learningsuite_get_member" [("memberId", JStr "abc123")]
                   (Simulated.start [Simulated.not_found])
                   404 "not found" _ _)) _ _ _).
  - unfold status_code. lia.
  - right. lia.
  - vm_compute. tauto.
  - reflexivity.
  - intros req. reflexivity.
Defined.

(** C7 at the status 204 with an empty body. *)
Lemma C7_witness :
  fst (CallTool Simulated.fetch Simulated.JSON_parse Simulated.apiKey
                "learningsuite_delete_member" (Some [("memberId", JStr "m1")])
                (Simulated.start [Simulated.no_content]))
  = Returned
      {| CallToolResult.content :=
           [ {| TextContent.type := "text"; TextContent.text := Some "{}" |} ];
         CallToolResult.isError := None |}.
Proof.
  refine (proj1 (proj2 (C7_empty_body_is_success
                          Simulated.fetch Simulated.JSON_parse Simulated.apiKey
                          "DELETE" "/members/m1" JUndefined None
                          "learningsuite_delete_member" [("memberId", JStr "m1")]
                          (Simulated.start [Simulated.no_content])
                          204 EmptyString _) _ _ _) _).
  - lia.
  - vm_compute. tauto.
  - reflexivity.
  - intros req. reflexivity.
  - reflexivity.
Defined.
(* ================================================================== *)
(** * Properties: the dispatcher as a table of routes *)
(* ================================================================== *)

Lemma routes_ok : forall name r, In (name, r) routes -> route_ok r = true.
Proof.
  assert (H : forallb (fun nr => route_ok (snd nr)) routes = true)
    by (vm_compute; reflexivity).
  rewrite forallb_forall in H. intros name r Hin. exact (H _ Hin).
Qed.

Lemma route_ok_spec (r : Route) :
  route_ok r = true ->
  In (route_method r) ["GET"; "POST"; "PUT"; "DELETE"]
  /\ rooted r = true
  /\ (route_body r <> NoBody -> mutating (route_method r) = true).
Proof.
  unfold route_ok. intros H.
  apply andb_true_iff in H as [H Hbody]. apply andb_true_iff in H as [Hm Hroot].
  split; [| split; [assumption |]].
  - apply existsb_exists in Hm as (m & Hin & Heq).
    apply String.eqb_eq in Heq. now rewrite Heq.
  - intros Hne. destruct (route_body r); [contradiction | | |]; assumption.
Qed.

Lemma rooted_path (r : Route) (o : Obj) :
  rooted r = true ->
  exists rest, path_of (route_template r) o = String "/" rest.
Proof.
  unfold rooted. destruct (route_template r) as [| [text | key] template];
    try discriminate.
  destruct text as [| c text]; [discriminate |].
  destruct (Ascii.eqb_spec c "/") as [-> | Hne].
  - intros _. destruct template; simpl; eauto.
  - intros H. exfalso. apply Hne.
    destruct c as [[] [] [] [] [] [] [] []]; try discriminate H; reflexivity.
Qed.

Lemma outgoing_well_addressed (apiKey : string) (r : Route) (o : Obj)
      (body : JsValue) (queryParams : option Obj) :
  route_ok r = true ->
  well_addressed apiKey
    (outgoing apiKey (route_method r) (path_of (route_template r) o)
              body queryParams).
Proof.
  intros Hok. apply route_ok_spec in Hok as (Hmethod & Hroot & _).
  destruct (rooted_path r o Hroot) as [rest Hpath].
  split; [| split; [exact Hmethod | reflexivity]].
  exists (rest ++ query_suffix queryParams).
  unfold outgoing. simpl Request.url. now rewrite Hpath.
Qed.

Lemma get_rest_without_same (key : string) (o : Obj) :
  Js.get (Js.rest_without key o) key = JUndefined.
Proof.
  induction o as [| [k v] rest IH]; simpl; [reflexivity |].
  destruct (String.eqb_spec k key) as [-> | Hne]; simpl; [exact IH |].
  apply String.eqb_neq in Hne. now rewrite Hne.
Qed.

Lemma get_rest_without_other (key k : string) (o : Obj) :
  k <> key -> Js.get (Js.rest_without key o) k = Js.get o k.
Proof.
  intros Hne. induction o as [| [k' v] rest IH]; simpl; [reflexivity |].
  destruct (String.eqb_spec k' key) as [-> | Hne']; simpl.
  - apply not_eq_sym, String.eqb_neq in Hne. now rewrite Hne.
  - now rewrite IH.
Qed.

Lemma rest_without_keys (key : string) (o : Obj) :
  ~ In key (map fst (Js.rest_without key o)).
Proof.
  unfold Js.rest_without. intros Hin.
  apply in_map_iff in Hin as [[k v] [Hk Hin]]. simpl in Hk. subst k.
  apply filter_In in Hin as [_ Hne]. simpl in Hne.
  now rewrite String.eqb_refl in Hne.
Qed.

Lemma path_of_Contains (template : list Segment) (o : Obj) (key : string) :
  In (Param key) template ->
  Contains (Js.text_of (Js.get o key)) (path_of template o).
Proof.
  induction template as [| seg rest IH]; [contradiction |].
  intros [-> | Hin].
  - destruct rest; [apply Contains_refl |].
    apply Contains_append_r, Contains_refl.
  - destruct rest as [| seg' rest']; [contradiction |].
    change (path_of (seg :: seg' :: rest') o)
      with (match seg with
            | Lit s => s
            | Param k => Js.text_of (Js.get o k)
            end ++ path_of (seg' :: rest') o).
    now apply Contains_append_l, IH.
Qed.

Lemma defined_entries_pick_none (keys : list string) (o : Obj) :
  (forall key, In key keys -> Js.get o key = JUndefined) ->
  defined_entries (pick keys o) = [].
Proof.
  intros H. apply defined_entries_none. unfold pick.
  apply Forall_forall. intros kv Hin.
  apply in_map_iff in Hin as [key [<- Hkey]]. simpl. now apply H.
Qed.

Section Extras.

Context {World : Type}.
Variable fetch : Request.t -> World -> Completion Response.t * World.
Variable JSON_parse : string -> Completion JsValue.
Variable apiKey : string.

(** A tool of the catalog whose arguments cannot all be converted fails
    locally: the error envelope of the [TypeError], and the store as it
    was. *)
Lemma CallTool_unconvertible (name : string) (r : Route) (o : Obj)
      (st : Store World) :
  route_of name = Some r ->
  arguments_convertible r o = false ->
  CallTool fetch JSON_parse apiKey name (Some o) st
  = (Returned (failure_envelope "Cannot convert object to primitive value"),
     st).
Proof.
  intros Hr Hconv.
  now rewrite CallTool_spec,
    (handleToolCall_spec fetch JSON_parse apiKey name r o st Hr), Hconv.
Qed.

(** X1.  What a tool call does is decided by the row of the tool in the
    table of routes and by whether the arguments can be converted to
    strings.  For every tool of the catalog and every argument object: when
    an argument that goes into the path or into the query string cannot be
    converted (an object with a [toString] key of its own, or an array
    holding one), the call fails locally, [CallTool] returns the error
    envelope of the [TypeError] and nothing is sent; otherwise exactly the
    request of the route (method, path template filled from the arguments,
    body shape, query shape) is handed to [fetch], once, and the answer to
    it decides the outcome. *)
Theorem tool_call_follows_its_route (name : string) (o : Obj)
        (st : Store World) :
  In name tool_names ->
  exists r,
    route_of name = Some r
    /\ if arguments_convertible r o then
         exists req,
           req = outgoing apiKey (route_method r)
                          (path_of (route_template r) o)
                          (body_of (route_body r) o)
                          (query_of (route_query r) o)
           /\ sent (snd (CallTool fetch JSON_parse apiKey name (Some o) st))
              = (sent st ++ [req])%list
           /\ world (snd (CallTool fetch JSON_parse apiKey name (Some o) st))
              = snd (fetch req (world st))
           /\ fst (handleToolCall fetch JSON_parse apiKey name (Some o) st)
              = match fst (fetch req (world st)) with
                | Returned response => outcome_of JSON_parse response
                | Threw error => Threw error
                end
       else
         CallTool fetch JSON_parse apiKey name (Some o) st
         = (Returned
              (failure_envelope "Cannot convert object to primitive value"),
            st).
Proof.
  intros Hin. destruct (route_of_known name Hin) as [r Hr].
  exists r. split; [assumption |].
  destruct (arguments_convertible r o) eqn:Hconv;
    [| now apply (CallTool_unconvertible name r)].
  eexists. split; [reflexivity |].
  rewrite CallTool_store,
    (handleToolCall_spec fetch JSON_parse apiKey name r o st Hr), Hconv.
  cbv zeta. destruct (fst (fetch _ (world st))); now repeat split.
Qed.

(** Every request of every tool call is the [outgoing] request of a route
    of the table, for some argument object; so what holds of all of these
    holds of every request that [CallTool] sends. *)
Lemma sends_only_by_route (P : Request.t -> Prop) :
  (forall name r o body queryParams,
      In (name, r) routes ->
      (route_query r = NoQuery -> queryParams = None) ->
      P (outgoing apiKey (route_method r) (path_of (route_template r) o)
                  body queryParams)) ->
  forall name args,
    sends_only P (CallTool fetch JSON_parse apiKey name args).
Proof.
  intros HP name args. apply CallTool_sends_only.
  destruct (route_of name) as [r |] eqn:Hr.
  - pose proof (proj2 (route_of_In name r Hr)) as Hin.
    pose proof (handleToolCall_by_route_undefined fetch JSON_parse apiKey name r Hr)
      as Hnone.
    destruct args as [o |].
    + rewrite (handleToolCall_by_route fetch JSON_parse apiKey name r o Hr).
      destruct (path_convertible r o); [| apply throw_sends_only].
      apply request_sends_only. apply (HP name r o); [assumption |].
      now intros ->.
    + destruct (needs_arguments r).
      * destruct Hnone as [message ->]. apply throw_sends_only.
      * rewrite Hnone. apply request_sends_only.
        now apply (HP name r []).
  - assert (Hunknown : ~ In name tool_names).
    { intros Hin. destruct (route_of_known name Hin) as [r Hr']. congruence. }
    rewrite (handleToolCall_unknown fetch JSON_parse apiKey name args Hunknown).
    apply throw_sends_only.
Qed.

Lemma CallTool_well_addressed (name : string) (args : option Obj) :
  sends_only (well_addressed apiKey)
             (CallTool fetch JSON_parse apiKey name args).
Proof.
  apply sends_only_by_route.
  intros name' r o body queryParams Hin _.
  apply outgoing_well_addressed. exact (routes_ok name' r Hin).
Qed.

(** X2.  Whatever the tool name and the arguments (also an unknown name,
    also no arguments), at most one request is sent, and a request that
    [CallTool] sends has a URL text that starts with the base URL followed
    by a slash, one of the methods GET, POST, PUT and DELETE and exactly the
    headers [Content-Type: application/json] and
    [X-API-Key: <the client's key>].  This is a statement on the URL as a
    string: the arguments are spliced into the path without encoding, so
    it does not say which resource [fetch] addresses once dot segments are
    resolved. *)
Theorem every_request_is_well_addressed (name : string) (args : option Obj) :
  sends_only (well_addressed apiKey)
             (CallTool fetch JSON_parse apiKey name args).
Proof.
  intros st.
  destruct (CallTool_well_addressed name args st) as (reqs & Hsent & Hall & Hone).
  exists reqs. split; [exact Hsent |]. split; [exact Hall | exact Hone].
Qed.

(** X3.  A tool of the catalog called with no arguments at all
    ([arguments] undefined): if its route reads an argument field, the call
    fails locally with the [TypeError] of reading [undefined], reported in
    an error envelope, and no request is made; otherwise exactly one request
    is made, for the literal path, with no query string and no body, also
    when the method is POST, PUT or DELETE. *)
Theorem call_without_arguments (name : string) (st : Store World) :
  In name tool_names ->
  exists r,
    route_of name = Some r
    /\ if needs_arguments r
       then exists message,
           CallTool fetch JSON_parse apiKey name None st
           = (Returned (failure_envelope ("Cannot " ++ message)), st)
       else sends (CallTool fetch JSON_parse apiKey name None)
                  [ {| Request.url := BASE_URL ++ path_of (route_template r) [];
                       Request.method := route_method r;
                       Request.headers :=
                         [("Content-Type", "application/json");
                          ("X-API-Key", apiKey)];
                       Request.body := None |} ].
Proof.
  intros Hin. destruct (route_of_known name Hin) as [r Hr].
  exists r. split; [assumption |].
  pose proof (handleToolCall_by_route_undefined fetch JSON_parse apiKey name r Hr)
    as Hnone.
  destruct (needs_arguments r).
  - destruct Hnone as [message Hnone]. exists message.
    now rewrite CallTool_spec, Hnone.
  - apply CallTool_sends. rewrite Hnone.
    apply request_sends_as; [reflexivity |]. unfold outgoing. simpl.
    now rewrite append_nil_r.
Qed.

(** X4.  A tool of the catalog called with an argument object whose values
    can be converted to strings makes exactly one request whatever the
    network answers: there is no retry after a rejection, an error status
    or a body that does not parse.  When [fetch] rejects with an [Error],
    its message is reported in an error envelope. *)
Theorem one_request_and_no_retry (name : string) (o : Obj) (st : Store World) :
  In name tool_names ->
  values_convertible o = true ->
  exists req,
    sent (snd (CallTool fetch JSON_parse apiKey name (Some o) st))
    = (sent st ++ [req])%list
    /\ world (snd (CallTool fetch JSON_parse apiKey name (Some o) st))
       = snd (fetch req (world st))
    /\ (forall message,
           fst (fetch req (world st)) = Threw (ErrorObject message) ->
           fst (CallTool fetch JSON_parse apiKey name (Some o) st)
           = Returned (failure_envelope message)).
Proof.
  intros Hin Hconv. destruct (route_of_known name Hin) as [r Hr].
  exists (outgoing apiKey (route_method r) (path_of (route_template r) o)
                   (body_of (route_body r) o) (query_of (route_query r) o)).
  rewrite CallTool_store, CallTool_outcome,
    (handleToolCall_spec fetch JSON_parse apiKey name r o st Hr),
    (values_convertible_arguments r o Hconv).
  cbv zeta.
  destruct (fst (fetch _ (world st))) as [response | e]; simpl;
    (split; [reflexivity |]); (split; [reflexivity |]);
    intros message [=]. now subst.
Qed.

(** X5.  [learningsuite_update_member] and
    [learningsuite_update_webhook_subscription] take the id out of the
    arguments by a rest destructuring: the id, as [String] converts it, goes
    to the path only, and the body is the JSON text of the rest object,
    which has no entry for the id and, for every other key, the value the
    arguments have. *)
Theorem update_keeps_the_id_out_of_the_body (o : Obj) (id : string) :
  (Js.ToString (Js.get o "memberId") = Some id ->
   sends (CallTool fetch JSON_parse apiKey "learningsuite_update_member" (Some o))
         [ {| Request.url := BASE_URL ++ "/members/" ++ id;
              Request.method := "PUT";
              Request.headers :=
                [("Content-Type", "application/json"); ("X-API-Key", apiKey)];
              Request.body :=
                Js.JSON_stringify (JObj (Js.rest_without "memberId" o)) |} ])
  /\ (Js.ToString (Js.get o "subscriptionId") = Some id ->
      sends (CallTool fetch JSON_parse apiKey
                      "learningsuite_update_webhook_subscription" (Some o))
            [ {| Request.url := BASE_URL ++ "/webhooks/subscription/" ++ id;
                 Request.method := "PUT";
                 Request.headers :=
                   [("Content-Type", "application/json");
                    ("X-API-Key", apiKey)];
                 Request.body :=
                   Js.JSON_stringify
                     (JObj (Js.rest_without "subscriptionId" o)) |} ])
  /\ (forall key,
         ~ In key (map fst (Js.rest_without key o))
         /\ Js.get (Js.rest_without key o) key = JUndefined
         /\ (forall other, other <> key ->
                           Js.get (Js.rest_without key o) other = Js.get o other)).
Proof.
  split; [| split].
  - intros Hid. apply ToString_convertible in Hid as [Hconv Htext].
    apply CallTool_sends.
    apply (handleToolCall_sends_as fetch JSON_parse apiKey
             "learningsuite_update_member"
             (mkRoute "PUT" [Lit "/members/"; Param "memberId"]
                      (RestWithout "memberId") NoQuery) o _ eq_refl).
    + unfold arguments_convertible, path_convertible. cbn. now rewrite Hconv.
    + unfold outgoing. cbn. now rewrite Htext, !append_nil_r.
  - intros Hid. apply ToString_convertible in Hid as [Hconv Htext].
    apply CallTool_sends.
    apply (handleToolCall_sends_as fetch JSON_parse apiKey
             "learningsuite_update_webhook_subscription"
             (mkRoute "PUT" [Lit "/webhooks/subscription/"; Param "subscriptionId"]
                      (RestWithout "subscriptionId") NoQuery) o _ eq_refl).
    + unfold arguments_convertible, path_convertible. cbn. now rewrite Hconv.
    + unfold outgoing. cbn. now rewrite Htext, !append_nil_r.
  - intros key. split; [apply rest_without_keys |].
    split; [apply get_rest_without_same |].
    intros other. apply get_rest_without_other.
Qed.

(** X6.  Given an argument object, whether a request carries a body is
    decided by the tool alone, not by the values of the arguments: a
    request of a tool whose route has no body shape has none, and a request
    of any other tool has the JSON text of its body object, also for the
    empty argument object.  The request is made when the arguments can be
    converted to strings. *)
Theorem body_is_decided_by_the_tool (name : string) (o : Obj) :
  In name tool_names ->
  exists r,
    route_of name = Some r
    /\ sends_only
         (fun req =>
            match route_body r with
            | NoBody => Request.body req = None
            | _ =>
                exists text,
                  Request.body req = Some text
                  /\ Js.JSON_stringify (body_of (route_body r) o) = Some text
            end)
         (CallTool fetch JSON_parse apiKey name (Some o))
    /\ (arguments_convertible r o = true ->
        exists req,
          sends (CallTool fetch JSON_parse apiKey name (Some o)) [req]).
Proof.
  intros Hin. destruct (route_of_known name Hin) as [r Hr].
  exists r. split; [assumption |]. split.
  - apply CallTool_sends_only.
    rewrite (handleToolCall_by_route fetch JSON_parse apiKey name r o Hr).
    destruct (path_convertible r o); [| apply throw_sends_only].
    apply request_sends_only.
    pose proof (routes_ok name r (proj2 (route_of_In name r Hr))) as Hok.
    apply route_ok_spec in Hok as (_ & _ & Hmutating).
    unfold outgoing. simpl Request.body.
    destruct (route_body r) eqn:Hshape; simpl body_of; simpl Js.truthy.
    + reflexivity.
    + rewrite Hmutating by discriminate. simpl andb. cbv iota.
      eexists. split; reflexivity.
    + rewrite Hmutating by discriminate. simpl andb. cbv iota.
      eexists. split; reflexivity.
    + rewrite Hmutating by discriminate. simpl andb. cbv iota.
      eexists. split; reflexivity.
  - intros Hconv. eexists. apply CallTool_sends.
    now apply handleToolCall_sends with (r := r).
Qed.

(** X7.  A path argument that is missing from the argument object is not
    rejected locally: the request is made all the same (when the other
    arguments can be converted to strings), and the text [undefined] stands
    in the URL where the argument belongs. *)
Theorem missing_path_argument_is_sent_as_undefined
        (name : string) (r : Route) (key : string) (o : Obj) :
  route_of name = Some r ->
  In (Param key) (route_template r) ->
  Js.get o key = JUndefined ->
  arguments_convertible r o = true ->
  exists req,
    sends (CallTool fetch JSON_parse apiKey name (Some o)) [req]
    /\ Request.method req = route_method r
    /\ (exists query,
           Request.url req = BASE_URL ++ path_of (route_template r) o ++ query)
    /\ Contains "undefined" (path_of (route_template r) o)
    /\ Contains "undefined" (Request.url req).
Proof.
  intros Hr Hparam Hmissing Hconv.
  assert (Hpath : Contains "undefined" (path_of (route_template r) o)).
  { pose proof (path_of_Contains (route_template r) o key Hparam) as H.
    now rewrite Hmissing in H. }
  eexists. split.
  - apply CallTool_sends. now apply handleToolCall_sends with (r := r).
  - split; [reflexivity |]. split; [now eexists |]. split; [assumption |].
    change (Request.url (outgoing _ _ ?p _ ?q)) with (BASE_URL ++ p ++ query_suffix q).
    now apply (Contains_append_l "undefined" BASE_URL), Contains_append_r.
Qed.

(** X8.  For a tool that builds its query parameters from named argument
    fields, fields that are missing from the arguments leave no trace: when
    all of them are missing the URL is the base URL and the path, without a
    query string; in general the query string reads back as exactly the
    fields that are present.  (The arguments are taken to be convertible to
    strings; otherwise no request is made.) *)
Theorem missing_query_fields_leave_no_trace
        (name : string) (r : Route) (keys : list string) (o : Obj) :
  route_of name = Some r ->
  route_query r = QueryFields keys ->
  arguments_convertible r o = true ->
  exists req query,
    sends (CallTool fetch JSON_parse apiKey name (Some o)) [req]
    /\ Request.url req
       = BASE_URL ++ path_of (route_template r) o
           ++ (if Js.is_empty query then EmptyString else "?" ++ query)
    /\ parse_query query = defined_entries (pick keys o)
    /\ ((forall key, In key keys -> Js.get o key = JUndefined) ->
        Request.url req = BASE_URL ++ path_of (route_template r) o).
Proof.
  intros Hr Hquery Hconv.
  exists (outgoing apiKey (route_method r) (path_of (route_template r) o)
                   (body_of (route_body r) o) (Some (pick keys o))).
  exists (Js.URLSearchParams_toString (defined_entries (pick keys o))).
  split; [| split; [| split]].
  - apply CallTool_sends.
    apply (handleToolCall_sends_as fetch JSON_parse apiKey name r o _ Hr Hconv).
    now rewrite Hquery.
  - change (Request.url (outgoing _ _ ?p _ ?q)) with (BASE_URL ++ p ++ query_suffix q).
    now rewrite query_suffix_Some.
  - apply parse_query_toString.
  - intros Hmissing.
    change (Request.url (outgoing _ _ ?p _ ?q)) with (BASE_URL ++ p ++ query_suffix q).
    unfold query_suffix. rewrite (defined_entries_pick_none keys o Hmissing).
    now rewrite append_nil_r.
Qed.

(** X13.  The arguments that go into the path are spliced in as [String]
    converts them, without any encoding: whatever the text, slashes, dots,
    question marks and percent signs included, it stands in the URL as it
    is (a query parameter, in contrast, is percent-encoded).  So the path
    of the request is not confined to the template of the tool: for a
    template that ends with the argument, the URL is the base URL, the
    literal part and the text, and an id such as
    [../add-members-to-groups-summary] gives the tool
    [learningsuite_update_member] the URL text
    [.../members/../add-members-to-groups-summary]. *)
Theorem path_arguments_are_not_encoded
        (name : string) (r : Route) (key : string) (o : Obj) (text : string) :
  route_of name = Some r ->
  In (Param key) (route_template r) ->
  Js.ToString (Js.get o key) = Some text ->
  arguments_convertible r o = true ->
  exists req,
    sends (CallTool fetch JSON_parse apiKey name (Some o)) [req]
    /\ Request.method req = route_method r
    /\ (exists query,
           Request.url req = BASE_URL ++ path_of (route_template r) o ++ query)
    /\ Contains text (path_of (route_template r) o)
    /\ (forall prefix,
           route_template r = [Lit prefix; Param key] ->
           route_query r = NoQuery ->
           Request.url req = BASE_URL ++ prefix ++ text).
Proof.
  intros Hr Hparam Htext Hconv.
  apply ToString_convertible in Htext as [_ Htext].
  eexists. split.
  - apply CallTool_sends. now apply handleToolCall_sends with (r := r).
  - split; [reflexivity |]. split; [now eexists |]. split.
    + rewrite <- Htext. now apply path_of_Contains.
    + intros prefix Htemplate Hquery.
      change (Request.url (outgoing _ _ ?p _ ?q))
        with (BASE_URL ++ p ++ query_suffix q).
      rewrite Htemplate, Hquery. cbn [path_of query_of query_suffix].
      now rewrite Htext, append_nil_r.
Qed.

End Extras.
(* ================================================================== *)
(** * Properties: the catalog and the routes as data *)
(* ================================================================== *)

Lemma subset_incl (xs ys : list string) : subset xs ys = true -> incl xs ys.
Proof.
  unfold subset. rewrite forallb_forall. intros H x Hx.
  specialize (H x Hx). apply existsb_exists in H as (y & Hy & Heq).
  apply String.eqb_eq in Heq. now subst.
Qed.

Lemma strings_of_spec (values : list JsValue) (names : list string) :
  strings_of values = Some names -> values = map JStr names.
Proof.
  revert names. induction values as [| v rest IH]; simpl; intros names.
  - now intros [= <-].
  - destruct v; try discriminate.
    destruct (strings_of rest) as [names' |]; [| discriminate].
    simpl. intros [= <-]. simpl. now rewrite (IH names').
Qed.

Lemma schema_parts_spec (schema : JsValue) (properties : Obj)
      (required : list string) :
  schema_parts schema = Some (properties, required) ->
  schema
  = JObj [ ("type", JStr "object"); ("properties", JObj properties);
           ("required", JArr (map JStr required)) ].
Proof.
  unfold schema_parts.
  destruct schema as [| | | | | | entries]; try discriminate.
  destruct entries as [| [k1 v1] [| [k2 v2] [| [k3 v3] [|]]]]; try discriminate;
    destruct v1; try discriminate;
    destruct v2; try discriminate;
    destruct v3; try discriminate.
  destruct (String.eqb_spec k1 "type"); [| discriminate].
  destruct (String.eqb_spec s "object"); [| discriminate].
  destruct (String.eqb_spec k2 "properties"); [| discriminate].
  destruct (String.eqb_spec k3 "required"); [| discriminate].
  simpl. destruct (strings_of elements) as [names |] eqn:Hnames; [| discriminate].
  simpl. intros [= <- <-]. subst.
  now rewrite (strings_of_spec _ _ Hnames).
Qed.

Lemma NoDup_map_injective {A B : Type} (f : A -> B) (l : list A) (x y : A) :
  NoDup (map f l) -> In x l -> In y l -> f x = f y -> x = y.
Proof.
  induction l as [| a l IH]; simpl; [contradiction |].
  intros Hnd Hx Hy Heq. inversion Hnd as [| ? ? Hnotin Hrest]; subst.
  destruct Hx as [-> | Hx], Hy as [-> | Hy].
  - reflexivity.
  - exfalso. apply Hnotin. rewrite Heq. now apply in_map.
  - exfalso. apply Hnotin. rewrite <- Heq. now apply in_map.
  - now apply IH.
Qed.

Lemma endpoints_NoDup : NoDup (map (fun nr => endpoint (snd nr)) routes).
Proof. apply distinct_NoDup. vm_compute. reflexivity. Qed.

(** X9.  Every descriptor of the catalog has a name that starts with
    [learningsuite_] and an input schema of the form [{type: 'object',
    properties, required}] in which every required name is a declared
    property, no property is declared twice, and every property declares
    one of the types string, number, boolean, array and object. *)
Theorem catalog_schemas_are_well_formed (tool : Tool.t) :
  In tool tools ->
  String.prefix "learningsuite_" (Tool.name tool) = true
  /\ exists properties required,
      Tool.inputSchema tool
      = JObj [ ("type", JStr "object"); ("properties", JObj properties);
               ("required", JArr (map JStr required)) ]
      /\ incl required (map fst properties)
      /\ NoDup (map fst properties)
      /\ forall key schema,
          In (key, schema) properties ->
          exists t, declared_type schema = Some t /\ In t property_types.
Proof.
  intros Hin.
  assert (Hall : forallb descriptor_ok tools = true) by (vm_compute; reflexivity).
  rewrite forallb_forall in Hall. specialize (Hall tool Hin).
  unfold descriptor_ok in Hall. apply andb_true_iff in Hall as [Hname Hschema].
  split; [assumption |].
  destruct (schema_parts (Tool.inputSchema tool)) as [[properties required] |]
    eqn:Hparts; [| discriminate].
  apply andb_true_iff in Hschema as [Hschema Htypes].
  apply andb_true_iff in Hschema as [Hrequired Hdistinct].
  exists properties, required.
  split; [now apply schema_parts_spec |].
  split; [now apply subset_incl |].
  split; [now apply distinct_NoDup |].
  intros key schema Hprop. rewrite forallb_forall in Htypes.
  specialize (Htypes (key, schema) Hprop). cbn [snd] in Htypes.
  destruct (declared_type schema) as [t |]; [| discriminate].
  exists t. split; [reflexivity |].
  apply existsb_exists in Htypes as (t' & Ht' & Heq).
  apply String.eqb_eq in Heq. now subst.
Qed.

(** X10.  The catalog and the dispatcher agree on the argument names: for
    every tool, each field its route reads by name is a declared property
    of its schema, each field substituted into the path is a required one,
    and each declared property is used, read by name or passed on with the
    whole argument map. *)
Theorem schema_and_dispatcher_agree (tool : Tool.t) (r : Route) :
  In tool tools ->
  route_of (Tool.name tool) = Some r ->
  exists properties required,
    schema_parts (Tool.inputSchema tool) = Some (properties, required)
    /\ incl (fields_read r) (map fst properties)
    /\ incl (path_params r) required
    /\ (passes_all r = true \/ incl (map fst properties) (fields_read r)).
Proof.
  intros Hin Hr.
  assert (Hall : forallb descriptor_agrees tools = true)
    by (vm_compute; reflexivity).
  rewrite forallb_forall in Hall. specialize (Hall tool Hin).
  unfold descriptor_agrees in Hall. rewrite Hr in Hall.
  destruct (schema_parts (Tool.inputSchema tool)) as [[properties required] |];
    [| discriminate].
  apply andb_true_iff in Hall as [Hall Hused].
  apply andb_true_iff in Hall as [Hread Hpath].
  exists properties, required. split; [reflexivity |].
  split; [now apply subset_incl |]. split; [now apply subset_incl |].
  apply orb_true_iff in Hused as [Hused | Hused];
    [now left | right; now apply subset_incl].
Qed.

(** X11.  No two tools are bound to the same operation: two tools whose
    routes have the same method and the same path template are the same
    tool. *)
Theorem tools_have_distinct_endpoints (name1 name2 : string) (r1 r2 : Route) :
  route_of name1 = Some r1 ->
  route_of name2 = Some r2 ->
  route_method r1 = route_method r2 ->
  route_template r1 = route_template r2 ->
  name1 = name2.
Proof.
  intros H1 H2 Hmethod Htemplate.
  apply route_of_In in H1 as [_ H1]. apply route_of_In in H2 as [_ H2].
  assert (Heq : (name1, r1) = (name2, r2)).
  { apply (NoDup_map_injective (fun nr => endpoint (snd nr)) routes);
      [apply endpoints_NoDup | assumption | assumption |].
    unfold endpoint. simpl. now rewrite Hmethod, Htemplate. }
  now injection Heq.
Qed.

(* ================================================================== *)
(** * Properties: the start of the process *)
(* ================================================================== *)

Section Process.

Context {World : Type}.
Variable fetch : Request.t -> World -> Completion Response.t * World.
Variable JSON_parse : string -> Completion JsValue.

(** X12.  The process serves only with a key: when the environment
    variable [LEARNINGSUITE_API_KEY] is missing or is the empty string it
    exits with code 1, having written the error line and before the
    transport is connected; it also exits with code 1 when connecting
    fails.  When it serves, the key is the non-empty value of the variable,
    the handlers are [ListTools] and [CallTool] of a client made with that
    key, and every request of every tool call carries the key in its
    [X-API-Key] header. *)
Theorem startup_requires_a_key (env : string -> option string)
        (connect : Completion unit) :
  match startup fetch JSON_parse env connect with
  | Serving stderr onListTools onCallTool =>
      exists key,
        env "LEARNINGSUITE_API_KEY" = Some key
        /\ key <> EmptyString
        /\ stderr = [Line "LearningSuite MCP Server running on stdio"]
        /\ onListTools = ListTools (World := World)
        /\ onCallTool = CallTool fetch JSON_parse key
        /\ forall name args,
            sends_only (well_addressed key) (onCallTool name args)
  | Exited code stderr =>
      code = 1%Z
      /\ ((env "LEARNINGSUITE_API_KEY" = None
           \/ env "LEARNINGSUITE_API_KEY" = Some EmptyString)
          \/ exists error,
              connect = Threw error
              /\ stderr = [LineWith "Fatal error:" error])
  end
  /\ (env "LEARNINGSUITE_API_KEY" = None
      \/ env "LEARNINGSUITE_API_KEY" = Some EmptyString ->
      startup fetch JSON_parse env connect
      = Exited 1
          [Line "Error: LEARNINGSUITE_API_KEY environment variable is required"]).
Proof.
  unfold startup. split.
  - destruct (env "LEARNINGSUITE_API_KEY") as [[| c key] |]; simpl.
    + split; [reflexivity | left; now right].
    + destruct connect as [[] | error].
      * exists (String c key). repeat split; try reflexivity; try discriminate.
        intros name args. apply CallTool_well_addressed.
      * split; [reflexivity | right; now exists error].
    + split; [reflexivity | left; now left].
  - intros [-> | ->]; reflexivity.
Qed.

End Process.
(* ================================================================== *)
(** * The further properties at concrete inputs *)
(* ================================================================== *)

(** A call of [learningsuite_delete_member] without [memberId]. *)
Example scenario_delete_without_id :
  sent (snd (CallTool Simulated.fetch Simulated.JSON_parse Simulated.apiKey
                      "learningsuite_delete_member" (Some [])
                      (Simulated.start [Simulated.not_found])))
  = [ {| Request.url := "https://api.learningsuite.io/api/v1/members/undefined";
         Request.method := "DELETE";
         Request.headers := Simulated.headers;
         Request.body := None |} ].
Proof. vm_compute. reflexivity. Qed.

(** [learningsuite_create_member] without arguments, and with the empty
    argument object. *)
Example scenario_create_without_arguments :
  sent (snd (CallTool Simulated.fetch Simulated.JSON_parse Simulated.apiKey
                      "learningsuite_create_member" None
                      (Simulated.start [Simulated.no_content])))
  = [ {| Request.url := "https://api.learningsuite.io/api/v1/members";
         Request.method := "POST";
         Request.headers := Simulated.headers;
         Request.body := None |} ]
  /\ sent (snd (CallTool Simulated.fetch Simulated.JSON_parse Simulated.apiKey
                         "learningsuite_create_member" (Some [])
                         (Simulated.start [Simulated.no_content])))
     = [ {| Request.url := "https://api.learningsuite.io/api/v1/members";
            Request.method := "POST";
            Request.headers := Simulated.headers;
            Request.body := Some "{}" |} ].
Proof. split; vm_compute; reflexivity. Qed.

(** [learningsuite_update_member]: the id is in the path, not in the body. *)
Example scenario_update_member :
  sent (snd (CallTool Simulated.fetch Simulated.JSON_parse Simulated.apiKey
                      "learningsuite_update_member"
                      (Some [("memberId", JStr "m1"); ("city", JStr "Bonn")])
                      (Simulated.start [Simulated.no_content])))
  = [ {| Request.url := "https://api.learningsuite.io/api/v1/members/m1";
         Request.method := "PUT";
         Request.headers := Simulated.headers;
         Request.body :=
           Some ("{" ++ Simulated.q "city" ++ ":" ++ Simulated.q "Bonn" ++ "}") |} ].
Proof. vm_compute. reflexivity. Qed.

(** The client method [addMembersToGroupsSummary] is a PUT of
    [/add-members-to-groups-summary], and no row of the table of routes has
    this endpoint: no tool is bound to the method.  An id with dot segments
    gives [learningsuite_update_member] a URL text that leads there. *)
Example scenario_unbound_method :
  sent (snd (addMembersToGroupsSummary
               Simulated.fetch Simulated.JSON_parse Simulated.apiKey (JObj [])
               (Simulated.start [Simulated.no_content])))
  = [ {| Request.url :=
           "https://api.learningsuite.io/api/v1/add-members-to-groups-summary";
         Request.method := "PUT";
         Request.headers := Simulated.headers;
         Request.body := Some "{}" |} ]
  /\ existsb (fun nr =>
                String.eqb (endpoint (snd nr))
                           (endpoint (mkRoute "PUT"
                                              [Lit "/add-members-to-groups-summary"]
                                              WholeArguments NoQuery)))
             routes
     = false
  /\ sent (snd (CallTool Simulated.fetch Simulated.JSON_parse Simulated.apiKey
                         "learningsuite_update_member"
                         (Some [("memberId",
                                 JStr "../add-members-to-groups-summary")])
                         (Simulated.start [Simulated.no_content])))
     = [ {| Request.url :=
              "https://api.learningsuite.io/api/v1/members/../add-members-to-groups-summary";
            Request.method := "PUT";
            Request.headers := Simulated.headers;
            Request.body := Some "{}" |} ].
Proof. repeat split; vm_compute; reflexivity. Qed.

Lemma tool_call_follows_its_route_witness :
  exists r,
    route_of "learningsuite_get_member" = Some r
    /\ if arguments_convertible r [("memberId", JStr "abc123")] then
         exists req,
           req = outgoing Simulated.apiKey (route_method r)
                          (path_of (route_template r)
                                   [("memberId", JStr "abc123")])
                          (body_of (route_body r) [("memberId", JStr "abc123")])
                          (query_of (route_query r)
                                    [("memberId", JStr "abc123")])
           /\ sent (snd (CallTool Simulated.fetch Simulated.JSON_parse
                                  Simulated.apiKey "learningsuite_get_member"
                                  (Some [("memberId", JStr "abc123")])
                                  (Simulated.start [Simulated.member_found])))
              = ([] ++ [req])%list
           /\ world (snd (CallTool Simulated.fetch Simulated.JSON_parse
                                   Simulated.apiKey "learningsuite_get_member"
                                   (Some [("memberId", JStr "abc123")])
                                   (Simulated.start [Simulated.member_found])))
              = snd (Simulated.fetch req [Simulated.member_found])
           /\ fst (handleToolCall Simulated.fetch Simulated.JSON_parse
                                  Simulated.apiKey "learningsuite_get_member"
                                  (Some [("memberId", JStr "abc123")])
                                  (Simulated.start [Simulated.member_found]))
              = match fst (Simulated.fetch req [Simulated.member_found]) with
                | Returned response =>
                    outcome_of Simulated.JSON_parse response
                | Threw error => Threw error
                end
       else
         CallTool Simulated.fetch Simulated.JSON_parse Simulated.apiKey
                  "learningsuite_get_member"
                  (Some [("memberId", JStr "abc123")])
                  (Simulated.start [Simulated.member_found])
         = (Returned
              (failure_envelope "Cannot convert object to primitive value"),
            Simulated.start [Simulated.member_found]).
Proof.
  apply (tool_call_follows_its_route
           Simulated.fetch Simulated.JSON_parse Simulated.apiKey
           "learningsuite_get_member" [("memberId", JStr "abc123")]
           (Simulated.start [Simulated.member_found])).
  vm_compute. tauto.
Defined.

Lemma call_without_arguments_witness :
  exists r,
    route_of "learningsuite_get_member" = Some r
    /\ if needs_arguments r
       then exists message,
           CallTool Simulated.fetch Simulated.JSON_parse Simulated.apiKey
                    "learningsuite_get_member" None (Simulated.start [])
           = (Returned (failure_envelope ("Cannot " ++ message)),
              Simulated.start [])
       else sends (CallTool Simulated.fetch Simulated.JSON_parse
                            Simulated.apiKey "learningsuite_get_member" None)
                  [ {| Request.url := BASE_URL ++ path_of (route_template r) [];
                       Request.method := route_method r;
                       Request.headers :=
                         [("Content-Type", "application/json");
                          ("X-API-Key", Simulated.apiKey)];
                       Request.body := None |} ].
Proof.
  apply (call_without_arguments
           Simulated.fetch Simulated.JSON_parse Simulated.apiKey).
  vm_compute. tauto.
Defined.

Lemma one_request_and_no_retry_witness :
  exists req,
    sent (snd (CallTool Simulated.fetch Simulated.JSON_parse Simulated.apiKey
                        "learningsuite_list_roles" (Some [])
                        (Simulated.start [])))
    = ([] ++ [req])%list
    /\ world (snd (CallTool Simulated.fetch Simulated.JSON_parse
                            Simulated.apiKey "learningsuite_list_roles"
                            (Some []) (Simulated.start [])))
       = snd (Simulated.fetch req [])
    /\ (forall message,
           fst (Simulated.fetch req []) = Threw (ErrorObject message) ->
           fst (CallTool Simulated.fetch Simulated.JSON_parse Simulated.apiKey
                         "learningsuite_list_roles" (Some [])
                         (Simulated.start []))
           = Returned (failure_envelope message)).
Proof.
  apply (one_request_and_no_retry
           Simulated.fetch Simulated.JSON_parse Simulated.apiKey
           "learningsuite_list_roles" [] (Simulated.start [])).
  - vm_compute. tauto.
  - reflexivity.
Defined.

Lemma body_is_decided_by_the_tool_witness :
  exists r,
    route_of "learningsuite_create_group" = Some r
    /\ sends_only
         (fun req =>
            match route_body r with
            | NoBody => Request.body req = None
            | _ =>
                exists text,
                  Request.body req = Some text
                  /\ Js.JSON_stringify (body_of (route_body r) []) = Some text
            end)
         (CallTool Simulated.fetch Simulated.JSON_parse Simulated.apiKey
                   "learningsuite_create_group" (Some []))
    /\ (arguments_convertible r [] = true ->
        exists req,
          sends (CallTool Simulated.fetch Simulated.JSON_parse Simulated.apiKey
                          "learningsuite_create_group" (Some []))
                [req]).
Proof.
  apply (body_is_decided_by_the_tool
           Simulated.fetch Simulated.JSON_parse Simulated.apiKey).
  vm_compute. tauto.
Defined.

Lemma missing_path_argument_witness :
  exists req,
    sends (CallTool Simulated.fetch Simulated.JSON_parse Simulated.apiKey
                    "learningsuite_delete_member" (Some []))
          [req]
    /\ Request.method req = "DELETE"
    /\ (exists query,
           Request.url req
           = BASE_URL ++ path_of [Lit "/members/"; Param "memberId"] [] ++ query)
    /\ Contains "undefined" (path_of [Lit "/members/"; Param "memberId"] [])
    /\ Contains "undefined" (Request.url req).
Proof.
  apply (missing_path_argument_is_sent_as_undefined
           Simulated.fetch Simulated.JSON_parse Simulated.apiKey
           "learningsuite_delete_member"
           (mkRoute "DELETE" [Lit "/members/"; Param "memberId"] NoBody NoQuery)
           "memberId" []).
  - reflexivity.
  - right. left. reflexivity.
  - reflexivity.
  - reflexivity.
Defined.

Lemma missing_query_fields_witness :
  exists req query,
    sends (CallTool Simulated.fetch Simulated.JSON_parse Simulated.apiKey
                    "learningsuite_get_member"
                    (Some [("memberId", JStr "abc123")]))
          [req]
    /\ Request.url req
       = BASE_URL
           ++ path_of [Lit "/members/"; Param "memberId"]
                      [("memberId", JStr "abc123")]
           ++ (if Js.is_empty query then EmptyString else "?" ++ query)
    /\ parse_query query
       = defined_entries (pick ["includeGroups"] [("memberId", JStr "abc123")])
    /\ ((forall key,
            In key ["includeGroups"] ->
            Js.get [("memberId", JStr "abc123")] key = JUndefined) ->
        Request.url req
        = BASE_URL
            ++ path_of [Lit "/members/"; Param "memberId"]
                       [("memberId", JStr "abc123")]).
Proof.
  apply (missing_query_fields_leave_no_trace
           Simulated.fetch Simulated.JSON_parse Simulated.apiKey
           "learningsuite_get_member"
           (mkRoute "GET" [Lit "/members/"; Param "memberId"] NoBody
                    (QueryFields ["includeGroups"]))
           ["includeGroups"] [("memberId", JStr "abc123")]);
    reflexivity.
Defined.

(** X13 at [learningsuite_update_member] with an id that holds dot
    segments. *)
Lemma path_arguments_witness :
  exists req,
    sends (CallTool Simulated.fetch Simulated.JSON_parse Simulated.apiKey
                    "learningsuite_update_member"
                    (Some [("memberId", JStr "../add-members-to-groups-summary")]))
          [req]
    /\ Request.method req = "PUT"
    /\ (exists query,
           Request.url req
           = BASE_URL
               ++ path_of [Lit "/members/"; Param "memberId"]
                    [("memberId", JStr "../add-members-to-groups-summary")]
               ++ query)
    /\ Contains "../add-members-to-groups-summary"
                (path_of [Lit "/members/"; Param "memberId"]
                   [("memberId", JStr "../add-members-to-groups-summary")])
    /\ (forall prefix,
           [Lit "/members/"; Param "memberId"] = [Lit prefix; Param "memberId"] ->
           NoQuery = NoQuery ->
           Request.url req
           = BASE_URL ++ prefix ++ "../add-members-to-groups-summary").
Proof.
  apply (path_arguments_are_not_encoded
           Simulated.fetch Simulated.JSON_parse Simulated.apiKey
           "learningsuite_update_member"
           (mkRoute "PUT" [Lit "/members/"; Param "memberId"]
                    (RestWithout "memberId") NoQuery)
           "memberId" [("memberId", JStr "../add-members-to-groups-summary")]
           "../add-members-to-groups-summary").
  - reflexivity.
  - right. left. reflexivity.
  - reflexivity.
  - reflexivity.
Defined.

(** X9 at [learningsuite_get_member], which declares two properties and
    requires one. *)
Lemma catalog_schemas_witness :
  String.prefix "learningsuite_" "learningsuite_get_member" = true
  /\ exists properties required,
      JObj
        [ ("type", JStr "object");
          ("properties", JObj
            [ ("memberId", JObj
                [ ("type", JStr "string");
                  ("description", JStr "Member ID") ]);
              ("includeGroups", JObj
                [ ("type", JStr "boolean");
                  ("description", JStr "Include groups the member is part of") ]) ]);
          ("required", JArr [JStr "memberId"]) ]
      = JObj [ ("type", JStr "object"); ("properties", JObj properties);
               ("required", JArr (map JStr required)) ]
      /\ incl required (map fst properties)
      /\ NoDup (map fst properties)
      /\ forall key schema,
          In (key, schema) properties ->
          exists t, declared_type schema = Some t /\ In t property_types.
Proof.
  apply (catalog_schemas_are_well_formed
           {| Tool.name := "learningsuite_get_member";
              Tool.description := "Get a member by ID";
              Tool.inputSchema :=
                JObj
                  [ ("type", JStr "object");
                    ("properties", JObj
                      [ ("memberId", JObj
                          [ ("type", JStr "string");
                            ("description", JStr "Member ID") ]);
                        ("includeGroups", JObj
                          [ ("type", JStr "boolean");
                            ("description",
                             JStr "Include groups the member is part of") ]) ]);
                    ("required", JArr [JStr "memberId"]) ] |}).
  right. right. right. left. reflexivity.
Defined.

(** X10 at [learningsuite_get_member]: the route reads [memberId] for the
    path and [includeGroups] for the query string. *)
Lemma schema_and_dispatcher_witness :
  exists properties required,
    schema_parts
      (JObj
         [ ("type", JStr "object");
           ("properties", JObj
             [ ("memberId", JObj
                 [ ("type", JStr "string");
                   ("description", JStr "Member ID") ]);
               ("includeGroups", JObj
                 [ ("type", JStr "boolean");
                   ("description", JStr "Include groups the member is part of") ]) ]);
           ("required", JArr [JStr "memberId"]) ])
    = Some (properties, required)
    /\ incl (fields_read
               (mkRoute "GET" [Lit "/members/"; Param "memberId"] NoBody
                        (QueryFields ["includeGroups"])))
            (map fst properties)
    /\ incl (path_params
               (mkRoute "GET" [Lit "/members/"; Param "memberId"] NoBody
                        (QueryFields ["includeGroups"])))
            required
    /\ (passes_all
          (mkRoute "GET" [Lit "/members/"; Param "memberId"] NoBody
                   (QueryFields ["includeGroups"])) = true
        \/ incl (map fst properties)
                (fields_read
                   (mkRoute "GET" [Lit "/members/"; Param "memberId"] NoBody
                            (QueryFields ["includeGroups"])))).
Proof.
  apply (schema_and_dispatcher_agree
           {| Tool.name := "learningsuite_get_member";
              Tool.description := "Get a member by ID";
              Tool.inputSchema :=
                JObj
                  [ ("type", JStr "object");
                    ("properties", JObj
                      [ ("memberId", JObj
                          [ ("type", JStr "string");
                            ("description", JStr "Member ID") ]);
                        ("includeGroups", JObj
                          [ ("type", JStr "boolean");
                            ("description",
                             JStr "Include groups the member is part of") ]) ]);
                    ("required", JArr [JStr "memberId"]) ] |}
           (mkRoute "GET" [Lit "/members/"; Param "memberId"] NoBody
                    (QueryFields ["includeGroups"]))).
  - right. right. right. left. reflexivity.
  - reflexivity.
Defined.

Lemma distinct_endpoints_witness :
  "learningsuite_get_member_courses" = "learningsuite_get_member_courses".
Proof.
  apply (tools_have_distinct_endpoints
           "learningsuite_get_member_courses" "learningsuite_get_member_courses"
           (mkRoute "GET" [Lit "/members/"; Param "memberId"; Lit "/courses"]
                    NoBody QueryArguments)
           (mkRoute "GET" [Lit "/members/"; Param "memberId"; Lit "/courses"]
                    NoBody QueryArguments));
    reflexivity.
Defined.
